(** * The Prisma setup pipeline of the Nuxt module, and its specification

    The module's [setup] hook drives an external CLI through a fixed sequence
    of prompt-gated steps.  The file embeds the two revisions of
    [src/module.ts] (the early [nuxt-prisma] module and the current
    [@prisma/nuxt] module) as programs of a small state/exception/trace
    monad, and proves the properties the specification lists about them. *)

From stdpp Require Import gmap strings list.
From Stdlib Require Import Ascii String NArith Bool Lia Sorted.

Local Open Scope string_scope.
Local Open Scope list_scope.

(** ** JavaScript strings

    File contents are JavaScript strings: sequences of UTF-16 code units.
    Commands, prompt names and console messages are plain ASCII and are kept
    as [string]. *)

Abbreviation jsstring := (list N) (only parsing).

Definition lit (s : string) : jsstring :=
  N_of_ascii <$> list_ascii_of_string s.

(** ECMAScript [WhiteSpace] and [LineTerminator] code points, the characters
    [String.prototype.trim] strips. *)
Definition isWhiteSpace (c : N) : bool :=
  ((c =? 0x0009) || (c =? 0x000A) || (c =? 0x000B) || (c =? 0x000C)
   || (c =? 0x000D) || (c =? 0x0020) || (c =? 0x00A0) || (c =? 0x1680)
   || ((0x2000 <=? c) && (c <=? 0x200A))
   || (c =? 0x2028) || (c =? 0x2029) || (c =? 0x202F) || (c =? 0x205F)
   || (c =? 0x3000) || (c =? 0xFEFF))%N.

Fixpoint trimStart (s : jsstring) : jsstring :=
  match s with
  | c :: s' => if isWhiteSpace c then trimStart s' else s
  | [] => []
  end.

Definition trimEnd (s : jsstring) : jsstring := rev (trimStart (rev s)).

Definition trim (s : jsstring) : jsstring := trimEnd (trimStart s).

(** JavaScript truthiness of an environment entry: [undefined] and the empty
    string are falsy. *)
Definition truthy (v : option string) : bool :=
  match v with
  | Some (String _ _) => true
  | _ => false
  end.

Definition nl : string := String (ascii_of_nat 10) EmptyString.
Definition dquote : string := String (ascii_of_nat 34) EmptyString.

(** ** The file system

    A path is its list of segments.  [dirs] are the directories, [files] the
    regular files with their contents, [denied] the paths the operating
    system refuses to read, write or create.  The operations follow Node's
    [fs]: reading a missing file, writing into a missing directory or onto a
    directory, and creating what exists all throw. *)

Abbreviation path := (list string) (only parsing).

Record fsys := Fsys {
  files : gmap (list string) (list N);
  dirs : gset (list string);
  denied : gset (list string)
}.

Inductive exn :=
| ENOENT | EACCES | EISDIR | EEXIST
| ExecaError (file : string) (args : list string)
| SpawnError (file : string) (args : list string).

Definition describe (e : exn) : string :=
  match e with
  | ENOENT => "ENOENT: no such file or directory"
  | EACCES => "EACCES: permission denied"
  | EISDIR => "EISDIR: illegal operation on a directory"
  | EEXIST => "EEXIST: file already exists"
  | ExecaError file _ => "Command failed: " +:+ file
  | SpawnError file _ => "spawn failed: " +:+ file
  end.

Definition dirname (p : path) : path := removelast p.

Definition fs_existsSync (fs : fsys) (p : path) : bool :=
  bool_decide (is_Some (files fs !! p)) || bool_decide (p ∈ dirs fs).

Definition fs_readFileSync (fs : fsys) (p : path) : exn + list N :=
  if bool_decide (p ∈ denied fs) then inl EACCES
  else match files fs !! p with
       | Some data => inr data
       | None => if bool_decide (p ∈ dirs fs) then inl EISDIR else inl ENOENT
       end.

Definition fs_writeFileSync (fs : fsys) (p : path) (data : jsstring)
  : exn + fsys :=
  if bool_decide (p ∈ denied fs) then inl EACCES
  else if bool_decide (p ∈ dirs fs) then inl EISDIR
  else if bool_decide (dirname p ∈ dirs fs)
       then inr (Fsys (<[p := data]> (files fs)) (dirs fs) (denied fs))
       else inl ENOENT.

Definition fs_mkdirSync (fs : fsys) (p : path) : exn + fsys :=
  if bool_decide (p ∈ denied fs) then inl EACCES
  else if fs_existsSync fs p then inl EEXIST
  else if bool_decide (dirname p ∈ dirs fs)
       then inr (Fsys (files fs) ({[p]} ∪ dirs fs) (denied fs))
       else inl ENOENT.

(** ** Developer-tools tabs and host state *)

Record tabView := TabView {
  view_type : string;
  view_src : string;
  view_persistent : option bool
}.

Record customTab := CustomTab {
  tab_name : string;
  tab_title : string;
  tab_icon : string;
  tab_category : option string;
  tab_view : tabView
}.

(** The mutable world of a run: the disk, and the callbacks registered on
    the host framework's hooks. *)
Record state := State {
  st_fs : fsys;
  st_hooks : list (string * (list customTab → list customTab))
}.

(** Running every callback registered under [name], in registration order. *)
Definition callHook (name : string) (s : state) (tabs : list customTab)
  : list customTab :=
  foldl (λ acc h, if String.eqb (fst h) name then snd h acc else acc)
        tabs (st_hooks s).

(** ** Observable actions, with the environment's answer *)

(** What becomes of a call of [child_process.spawn].  The call either throws
    at once ([SpawnThrew]) or returns a [ChildProcess].  A child that could
    not be started ([ENOENT], [EACCES]) or that exits with a non-zero code
    says so only later, through the [error] and [exit] events of the
    [ChildProcess] ([ChildFailed]); otherwise it runs ([ChildRunning]).  The
    module attaches no listener to the [ChildProcess], and [await] on it,
    which is no promise, continues at once: of the three, the module can tell
    only [SpawnThrew] apart. *)
Inductive spawned := SpawnThrew | ChildRunning | ChildFailed.

#[global] Instance spawned_eq_dec : EqDecision spawned.
Proof. solve_decision. Defined.

Inductive event :=
| Execa (file : string) (args : list string) (cwd : list string) (ok : bool)
| Spawn (file : string) (args : list string) (cwd : list string)
    (result : spawned)
| Prompts (name message : string) (answer : option bool)
| ConsoleLog (msg : string)
| Success (msg : string)
| Error (msg : string)
| ReadFileSync (p : list string) (ok : bool)
| WriteFileSync (p : list string) (data : list N) (ok : bool)
| MkdirSync (p : list string) (ok : bool)
| Hook (name : string).

(** ** What the module receives from the host

    [execa_result] is the external process runner: for a command line, its
    working directory and the disk it runs on, whether the command succeeds
    (with its standard output) and the disk it leaves behind.  The tools are
    opaque, so nothing is assumed about it.  [spawn_result] tells what becomes
    of a detached process: whether [spawn] throws, and if it returns, whether
    the child runs or fails afterwards.  [prompts_answer] is the user's
    answer to the confirmation of that name, [None] when the prompt is
    cancelled. *)
Record Host := {
  rootDir : list string;
  processCwd : list string;
  npm_lifecycle_event : option string;
  SKIP_PRISMA_SETUP : option string;
  execa_result :
    string → list string → list string → fsys → option string * fsys;
  spawn_result : string → list string → list string → spawned;
  prompts_answer : string → option bool
}.

(** ** The monad: state, exceptions, and the trace of actions *)

Inductive outcome (A : Type) :=
| Return (a : A)
| Throw (e : exn).
Arguments Return {A} a.
Arguments Throw {A} e.

Definition M (A : Type) : Type := state → outcome A * state * list event.

Definition ret {A} (a : A) : M A := λ s, (Return a, s, []).

Definition bind {A B} (m : M A) (k : A → M B) : M B :=
  λ s, match m s with
       | (Return a, s', t) =>
           match k a s' with
           | (r, s'', t') => (r, s'', t ++ t')
           end
       | (Throw e, s', t) => (Throw e, s', t)
       end.

(** [try { m } catch (e) { h e }] *)
Definition try_catch {A} (m : M A) (h : exn → M A) : M A :=
  λ s, match m s with
       | (Return a, s', t) => (Return a, s', t)
       | (Throw e, s', t) =>
           match h e s' with
           | (r, s'', t') => (r, s'', t ++ t')
           end
       end.

Definition emit (e : event) : M unit := λ s, (Return tt, s, [e]).

Notation "'let*' x ':=' m 'in' k" := (bind m (λ x, k))
  (at level 10, x name, m at level 100, k at level 200,
   format "'[v' 'let*'  x  ':='  m  'in' '/' k ']'").
Notation "m ;;; k" := (bind m (λ _, k))
  (at level 100, k at level 200, right associativity,
   format "'[v' m  ;;; '/' k ']'").

Definition outcome_of {A} (r : outcome A * state * list event) : outcome A :=
  r.1.1.
Definition state_of {A} (r : outcome A * state * list event) : state :=
  r.1.2.
Definition trace_of {A} (r : outcome A * state * list event) : list event :=
  r.2.

(** ** The primitives the module calls *)

Section Primitives.
Variable host : Host.

(** [createResolver(nuxt.options.rootDir).resolve(...parts)] *)
Definition resolveProject (parts : path) : path := rootDir host ++ parts.

(** A relative path handed to [fs], resolved against the process's
    working directory. *)
Definition resolveCwd (parts : path) : path := processCwd host ++ parts.

Definition execa (file : string) (args : list string) (cwd : path)
  : M string :=
  λ s, match execa_result host file args cwd (st_fs s) with
       | (Some stdout, fs') =>
           (Return stdout, State fs' (st_hooks s),
            [Execa file args cwd true])
       | (None, fs') =>
           (Throw (ExecaError file args), State fs' (st_hooks s),
            [Execa file args cwd false])
       end.

Definition spawn (file : string) (args : list string) (cwd : path)
  : M unit :=
  λ s, match spawn_result host file args cwd with
       | SpawnThrew =>
           (Throw (SpawnError file args), s, [Spawn file args cwd SpawnThrew])
       | result => (Return tt, s, [Spawn file args cwd result])
       end.

(** [prompts({ type: "confirm", name, message, initial: true })], with
    [response?.name] as the result. *)
Definition prompts (name message : string) : M (option bool) :=
  λ s, (Return (prompts_answer host name), s,
        [Prompts name message (prompts_answer host name)]).

Definition existsSync (p : path) : M bool :=
  λ s, (Return (fs_existsSync (st_fs s) p), s, []).

Definition readFileSync (p : path) : M jsstring :=
  λ s, match fs_readFileSync (st_fs s) p with
       | inr data => (Return data, s, [ReadFileSync p true])
       | inl e => (Throw e, s, [ReadFileSync p false])
       end.

Definition writeFileSync (p : path) (data : jsstring) : M unit :=
  λ s, match fs_writeFileSync (st_fs s) p data with
       | inr fs' =>
           (Return tt, State fs' (st_hooks s), [WriteFileSync p data true])
       | inl e => (Throw e, s, [WriteFileSync p data false])
       end.

Definition mkdirSync (p : path) : M unit :=
  λ s, match fs_mkdirSync (st_fs s) p with
       | inr fs' => (Return tt, State fs' (st_hooks s), [MkdirSync p true])
       | inl e => (Throw e, s, [MkdirSync p false])
       end.

(** [nuxt.hooks.hook(name, callback)] *)
Definition hook (name : string) (callback : list customTab → list customTab)
  : M unit :=
  λ s, (Return tt, State (st_fs s) (st_hooks s ++ [(name, callback)]),
        [Hook name]).

(** [console.log(chalk.green(...))], [console.error(chalk.red(...))] and
    plain [console.log]. *)
Definition success (message : string) : M unit := emit (Success message).
Definition error (message : string) : M unit := emit (Error message).
Definition console_log (message : string) : M unit :=
  emit (ConsoleLog message).
End Primitives.

(** ** The host framework's configuration

    The part of [nuxt.options] the module's [setup] touches, and the calls
    it makes to the framework's kit, in call order. *)

(** [runtimeConfig.public.prisma]: an object with two optional keys. *)
Record prismaRuntimeConfig := PrismaRuntimeConfig {
  rc_log : option (list string);
  rc_errorFormat : option string
}.

(** [experimental.componentIslands]: unset, a boolean, or an options
    object. *)
Inductive islandsSetting :=
| IslandsUnset
| IslandsBool (b : bool)
| IslandsObject (selectiveClient : option string).

Inductive kitCall :=
| AddPlugin (src : list string)
| AddImportsDir (dir : list string)
| AddServerScanDir (dir : list string).

Record nuxtOptions := NuxtOptions {
  runtimeConfig_public_prisma : option prismaRuntimeConfig;
  experimental_componentIslands : islandsSetting;
  (** [vite.optimizeDeps]: an object of string lists ([include],
      [exclude], [entries], ...), when set. *)
  vite_optimizeDeps : option (list (string * list string));
  kitCalls : list kitCall
}.

(** ** The current module, [@prisma/nuxt] *)

Module PrismaNuxt.

(** The module options, with the fields of [defaults]. *)
Module options.
Record t := Build {
  datasourceUrl : option string;
  log : list string;
  errorFormat : string;
  installCli : bool;
  initPrisma : bool;
  writeToSchema : bool;
  formatSchema : bool;
  runMigration : bool;
  installClient : bool;
  generateClient : bool;
  installStudio : bool;
  skipInstallations : bool;
  autoSetupPrisma : bool
}.
End options.

Definition defaults (DATABASE_URL : option string) : options.t :=
  {| options.datasourceUrl := DATABASE_URL;
     options.log := [];
     options.errorFormat := "colorless";
     options.installCli := true;
     options.initPrisma := true;
     options.writeToSchema := true;
     options.formatSchema := true;
     options.runMigration := true;
     options.installClient := true;
     options.generateClient := true;
     options.installStudio := true;
     options.skipInstallations := false;
     options.autoSetupPrisma := false |}.

(** [addModel] of [writeToSchema]: the schema fragment. *)
Definition addModel : string :=
  String.concat nl [
    EmptyString;
    "            model User {";
    "              id    Int     @id @default(autoincrement())";
    "              email String  @unique";
    "              name  String?";
    "              posts Post[]";
    "            }";
    EmptyString;
    "            model Post {";
    "              id        Int     @id @default(autoincrement())";
    "              title     String";
    "              content   String?";
    "              published Boolean @default(false)";
    "              author    User    @relation(fields: [authorId], references: [id])";
    "              authorId  Int";
    "            }";
    "          "
  ].

(** The success message of [installStudio]. *)
Definition studioInstalled : string :=
  String.concat nl [
    "Prisma Studio installed. After clicking 'Get Started' in Nuxt DevTools,";
    "  click on the three dots in the lower left-hand side to reveal additional tabs.";
    "  Locate the Prisma logo to open Prisma Studio."
  ].

(** The advice [promptInitPrisma] prints when the schema file exists. *)
Definition schemaExistsAdvice : string :=
  String.concat nl [
    "Please make sure to: ";
    " 1. Set the DATABASE_URL in the `.env` file to point to your existing database. If your database has no tables yet, read https://pris.ly/d/getting-started";
    "        ";
    " 2. Set the provider of the datasource block in `schema.prisma` to match your database: postgresql, mysql, sqlite, sqlserver, mongodb, or cockroachdb.";
    "        ";
    " 3. Run prisma db pull to turn your database schema into a Prisma schema."
  ].

(** [prismaClient] of [writeClientPlugin]: the accessor module. *)
Definition prismaClient : string :=
  String.concat nl [
    "import { PrismaClient } from " +:+ dquote +:+ "@prisma/client" +:+ dquote;
    "const globalForPrisma = global as unknown as { prisma: PrismaClient }";
    EmptyString;
    "export const prisma = globalForPrisma.prisma || new PrismaClient()";
    EmptyString;
    "if (process.env.NODE_ENV !== 'production') globalForPrisma.prisma = prisma";
    EmptyString;
    "export default prisma";
    "    "
  ].

(** The tab pushed by the [devtools:customTabs] callback. *)
Definition studioTab : customTab :=
  {| tab_name := "nuxt-prisma";
     tab_title := "Prisma Studio";
     tab_icon := "simple-icons:prisma";
     tab_category := Some "server";
     tab_view := {| view_type := "iframe";
                    view_src := "http://localhost:5555/";
                    view_persistent := Some true |} |}.

Definition pushStudioTab (tab : list customTab) : list customTab :=
  tab ++ [studioTab].

Section Setup.
Variable opts : options.t.
Variable host : Host.

Definition force_skip_prisma_setup : bool :=
  truthy (SKIP_PRISMA_SETUP host)
  || bool_decide (npm_lifecycle_event host = Some "test").

Definition detectCli : M unit :=
  let* _ := execa host "prisma" ["version"] (resolveProject host []) in
  ret tt.

Definition installCli : M unit :=
  if options.installCli opts then
    try_catch
      (let* _ := execa host "npm" ["install"; "prisma"; "--save-dev"]
                   (resolveProject host []) in
       ret tt)
      (λ _, error "Failed to install Prisma CLI.")
  else ret tt.

Definition initPrisma : M unit :=
  if options.initPrisma opts then
    try_catch
      (let* initializePrisma :=
         execa host "npx"
           ["prisma"; "init"; "--datasource-provider"; "sqlite"]
           (resolveProject host []) in
       console_log initializePrisma)
      (λ _, error "Failed to initialize Prisma project.")
  else ret tt.

Definition writeToSchema : M unit :=
  if options.writeToSchema opts then
    try_catch
      (let prismaSchemaPath :=
         resolveProject host ["prisma"; "schema.prisma"] in
       let* existingSchema :=
         try_catch (readFileSync prismaSchemaPath)
           (λ _, error "Error reading existing schema file" ;;;
                 ret (lit EmptyString)) in
       let updatedSchema :=
         trim existingSchema ++ lit (nl +:+ nl) ++ lit addModel in
       writeFileSync prismaSchemaPath updatedSchema)
      (λ _, error "Failed to write model to Prisma schema.")
  else ret tt.

Definition formatSchema : M unit :=
  if options.formatSchema opts then
    try_catch
      (let* _ := execa host "npx" ["prisma"; "format"]
                   (resolveProject host []) in
       ret tt)
      (λ _, error "Failed to format Prisma schema file.")
  else ret tt.

Definition runMigration : M unit :=
  if options.runMigration opts then
    try_catch
      (let* _ := execa host "npx"
                   ["prisma"; "migrate"; "dev"; "--name"; "init"]
                   (resolveProject host []) in
       success "Created User and Post tables in your SQLite database.")
      (λ _, error "Failed to run Prisma migration.")
  else ret tt.

Definition generateClient : M unit :=
  if options.installClient opts && options.generateClient opts then
    try_catch
      (let* _ := execa host "npm" ["install"; "@prisma/client"]
                   (resolveProject host []) in
       let* generateClient :=
         execa host "npx" ["prisma"; "generate"]
           (resolveProject host []) in
       console_log generateClient)
      (λ _, error "Failed to generate Prisma Client.")
  else ret tt.

Definition installStudio : M unit :=
  if options.installStudio opts then
    try_catch
      (spawn host "npx" ["prisma"; "studio"; "--browser"; "none"]
         (resolveProject host []) ;;;
       success studioInstalled)
      (λ _, error "Failed to install Prisma Studio.")
  else ret tt.

Definition promptCli : M unit :=
  if options.autoSetupPrisma opts then
    (installCli ;;;
     success "Prisma CLI successfully installed.")
  else
    let* detected :=
      try_catch
        (detectCli ;;;
         success "Prisma CLI is installed." ;;;
         ret true)
        (λ _, error "Prisma CLI is not installed." ;;;
              ret false) in
    if detected : bool then ret tt
    else
      let* response :=
        prompts host "installPrisma"
          "Do you want to install Prisma CLI?" in
      if bool_decide (response = Some true) then
        (installCli ;;;
         success "Prisma CLI successfully installed.")
      else console_log "Prisma CLI installation skipped.".

Definition promptInitPrisma : M unit :=
  let* schemaExists :=
    existsSync (resolveProject host ["prisma"; "schema.prisma"]) in
  (if schemaExists : bool then
     (success "Prisma schema file exists." ;;;
      console_log schemaExistsAdvice)
   else console_log "Prisma schema file does not exist.") ;;;
  if negb schemaExists then
    if options.autoSetupPrisma opts then
      (initPrisma ;;;
       writeToSchema ;;;
       formatSchema)
    else
      let* response :=
        prompts host "initPrisma"
          "Do you want to initialize Prisma ORM?" in
      if bool_decide (response = Some true) then
        (initPrisma ;;;
         writeToSchema ;;;
         formatSchema)
      else console_log "Prisma initialization skipped."
  else ret tt.

Definition promptRunMigration : M unit :=
  if options.autoSetupPrisma opts then runMigration
  else
    let* response :=
      prompts host "runMigration"
        "Do you want to migrate your database by creating database tables based on your Prisma schema?" in
    if bool_decide (response = Some true) then
      try_catch runMigration (λ e, error (describe e))
    else console_log "Prisma Migrate skipped.".

Definition promptGenerateClient : M unit :=
  if options.autoSetupPrisma opts then
    try_catch generateClient (λ e, error (describe e))
  else
    let* response :=
      prompts host "generateClient"
        "Do you want to generate Prisma Client?" in
    if bool_decide (response = Some true) then
      try_catch generateClient (λ e, error (describe e))
    else console_log "Prisma Client generation skipped.".

Definition promptInstallStudio : M unit :=
  if options.autoSetupPrisma opts then
    (installStudio ;;;
     hook "devtools:customTabs" pushStudioTab)
  else
    let* response :=
      prompts host "installStudio"
        "Do you want to view and edit your data by installing Prisma Studio in Nuxt DevTools?" in
    if bool_decide (response = Some true) then
      (try_catch installStudio (λ e, error (describe e)) ;;;
       hook "devtools:customTabs" pushStudioTab)
    else console_log "Prisma Studio installation skipped.".

Definition writeClientPlugin : M unit :=
  let* existingContent :=
    existsSync (resolveProject host ["lib"; "prisma.ts"]) in
  try_catch
    (if negb existingContent then
       let* libExists := existsSync (resolveCwd host ["lib"]) in
       (if negb libExists then mkdirSync (resolveCwd host ["lib"])
        else ret tt) ;;;
       writeFileSync (resolveCwd host ["lib"; "prisma.ts"])
         (lit prismaClient) ;;;
       success
         "Global instance of Prisma Client successfully created within lib/prisma.ts file."
     else ret tt)
    (λ e, error (describe e)).

(** The second guard of [setupPrismaORM]: the lifecycle scripts during
    which the viewer is not offered. *)
Definition studio_allowed : bool :=
  negb (bool_decide (npm_lifecycle_event host = Some "dev:prepare"))
  && negb (bool_decide (npm_lifecycle_event host = Some "postinstall"))
  && negb (bool_decide (npm_lifecycle_event host = Some "test")).

Definition setupPrismaORM : M unit :=
  console_log "Setting up Prisma ORM.." ;;;
  if force_skip_prisma_setup then error "Skipping Prisma ORM setup."
  else
    (if negb (options.skipInstallations opts) then
       (promptCli ;;;
        promptInitPrisma ;;;
        promptRunMigration ;;;
        promptGenerateClient ;;;
        writeClientPlugin)
     else ret tt) ;;;
    if studio_allowed then promptInstallStudio else ret tt.

(** The module's [setup].  [defu] is the configuration-merging utility and
    [moduleDir] the directory [import.meta.url] points into; both come from
    outside.  The configuration is exposed and server components are
    enabled before the pipeline runs; the registrations and the [vite]
    setting come after it, so an exception escaping the pipeline would skip
    them. *)
Definition setup
    (defu : prismaRuntimeConfig → prismaRuntimeConfig → prismaRuntimeConfig)
    (moduleDir : list string) (nuxt : nuxtOptions) (s : state)
  : outcome unit * nuxtOptions * state * list event :=
  let resolver (parts : list string) := moduleDir ++ parts in
  let runtimeDir := moduleDir ++ ["runtime"] in
  let exposed :=
    defu
      (default (PrismaRuntimeConfig None None)
         (runtimeConfig_public_prisma nuxt))
      (PrismaRuntimeConfig (Some (options.log opts))
         (Some (options.errorFormat opts))) in
  let nuxt1 :=
    NuxtOptions (Some exposed) (IslandsBool true) (vite_optimizeDeps nuxt)
      (kitCalls nuxt) in
  match setupPrismaORM s with
  | (Return _, s', t) =>
      (Return tt,
       NuxtOptions (Some exposed) (IslandsBool true)
         (Some [("include", ["@prisma/nuxt > @prisma/client"])])
         (kitCalls nuxt
          ++ [AddPlugin (resolver ["runtime"; "plugin"]);
              AddImportsDir (runtimeDir ++ ["composables"]);
              AddServerScanDir (resolver ["runtime"; "server"])]),
       s', t)
  | (Throw e, s', t) => (Throw e, nuxt1, s', t)
  end.
End Setup.
End PrismaNuxt.

(** ** The early module, [nuxt-prisma]

    The first revision has no migration step, no accessor file and no
    automatic or skipping mode: every step is behind its prompt. *)

Module NuxtPrisma.

Module options.
Record t := Build {
  datasourceUrl : option string;
  log : list string;
  errorFormat : option string;
  installCli : bool;
  initPrisma : bool;
  writeToSchema : bool;
  formatSchema : bool;
  installClient : bool;
  generateClient : bool;
  installStudio : bool
}.
End options.

Definition defaults (DATABASE_URL : option string) : options.t :=
  {| options.datasourceUrl := DATABASE_URL;
     options.log := [];
     options.errorFormat := None;
     options.installCli := true;
     options.initPrisma := true;
     options.writeToSchema := true;
     options.formatSchema := true;
     options.installClient := true;
     options.generateClient := true;
     options.installStudio := true |}.

Definition addModel : string :=
  String.concat nl [
    EmptyString;
    "            model Post {";
    "              id      Int      @id @default(autoincrement())";
    "              title   String";
    "              content String";
    "              userId  Int";
    "            }";
    "          "
  ].

Definition schemaExistsAdvice : string :=
  String.concat nl [
    "Please make sure to: ";
    " 1. Set the DATABASE_URL in the .env file to point to your existing database. If your database has no tables yet, read https://pris.ly/d/getting-started ";
    "        ";
    " 2. Set the provider of the datasource block in schema.prisma to match your database: postgresql, mysql, sqlite, sqlserver, mongodb, or cockroachdb.";
    "        ";
    " 3. Run prisma db pull to turn your database schema into a Prisma schema.";
    EmptyString
  ].

Definition studioTab : customTab :=
  {| tab_name := "nuxt-prisma";
     tab_title := "Prisma Studio";
     tab_icon := "simple-icons:prisma";
     tab_category := None;
     tab_view := {| view_type := "iframe";
                    view_src := "http://localhost:5555/";
                    view_persistent := None |} |}.

(** [addCustomTab] of the developer-tools kit registers a callback that
    pushes the tab on the [devtools:customTabs] hook. *)
Definition addCustomTab (tab : customTab) : M unit :=
  hook "devtools:customTabs" (λ items, items ++ [tab]).

Section Setup.
Variable opts : options.t.
Variable host : Host.

(** Returns the result of [prisma version], or [undefined] ([None]) when
    the command fails. *)
Definition detectCli : M (option string) :=
  try_catch
    (let* prismaCliVersion :=
       execa host "prisma" ["version"] (resolveProject host []) in
     success "Prisma CLI is installed." ;;;
     ret (Some prismaCliVersion))
    (λ _, error "Prisma CLI is not installed. Please install Prisma CLI." ;;;
          ret None).

Definition installCli : M unit :=
  if options.installCli opts then
    try_catch
      (let* _ := execa host "npm" ["install"; "prisma"; "--save-dev"]
                   (resolveProject host []) in
       ret tt)
      (λ _, error "Failed to install Prisma CLI.")
  else ret tt.

Definition initPrisma : M unit :=
  if options.initPrisma opts then
    try_catch
      (let* initializePrisma :=
         execa host "npx" ["prisma"; "init"] (resolveProject host []) in
       console_log initializePrisma)
      (λ _, error "Failed to initialize Prisma project.")
  else ret tt.

Definition writeToSchema : M unit :=
  if options.writeToSchema opts then
    try_catch
      (let prismaSchemaPath :=
         resolveProject host ["prisma"; "schema.prisma"] in
       let* existingSchema :=
         try_catch (readFileSync prismaSchemaPath)
           (λ _, error "Error reading existing schema file" ;;;
                 ret (lit EmptyString)) in
       let updatedSchema :=
         trim existingSchema ++ lit (nl +:+ nl) ++ lit addModel in
       try_catch (writeFileSync prismaSchemaPath updatedSchema)
         (λ _, error "Failed to write model to Prisma schema."))
      (λ _, error "Failed to write model to Prisma schema.")
  else ret tt.

Definition formatSchema : M unit :=
  if options.formatSchema opts then
    try_catch
      (let* _ := execa host "npx" ["prisma"; "format"]
                   (resolveProject host []) in
       ret tt)
      (λ _, error "Failed to format Prisma schema file.")
  else ret tt.

Definition generateClient : M unit :=
  if options.installClient opts && options.generateClient opts then
    try_catch
      (let* _ := execa host "npm" ["install"; "@prisma/client"]
                   (resolveProject host []) in
       let* generateClient :=
         execa host "npx" ["prisma"; "generate"]
           (resolveProject host []) in
       console_log generateClient)
      (λ _, error "Failed to generate Prisma Client.")
  else ret tt.

Definition installStudio : M unit :=
  if options.installStudio opts then
    try_catch
      (spawn host "npx" ["prisma"; "studio"; "--browser none"]
         (resolveProject host []) ;;;
       success
         "Prisma Studio installed. You can view it as a tab in Nuxt DevTools.")
      (λ _, error "Failed to install Prisma Studio.")
  else ret tt.

Definition promptCli : M unit :=
  let* prismaCliVersion := detectCli in
  if negb (bool_decide (is_Some prismaCliVersion)) then
    let* response :=
      prompts host "installPrisma"
        "Do you want to install Prisma CLI?" in
    if bool_decide (response = Some true) then
      (installCli ;;;
       success "Prisma CLI successfully installed.")
    else console_log "Prisma CLI installation skipped."
  else ret tt.

Definition promptInitPrisma : M unit :=
  let* schemaExists :=
    existsSync (resolveProject host ["prisma"; "schema.prisma"]) in
  (if schemaExists : bool then
     (success "Prisma schema file exists." ;;;
      console_log schemaExistsAdvice)
   else console_log "Prisma schema file does not exist.") ;;;
  if negb schemaExists then
    let* response :=
      prompts host "initPrisma" "Do you want to initialize Prisma?" in
    if bool_decide (response = Some true) then
      (initPrisma ;;;
       writeToSchema ;;;
       formatSchema)
    else console_log "Prisma initialization skipped."
  else ret tt.

Definition promptGenerateClient : M unit :=
  let* response :=
    prompts host "generateClient"
      "Do you want to generate Prisma Client?" in
  if bool_decide (response = Some true) then
    try_catch generateClient (λ e, error (describe e))
  else console_log "Prisma Client generation skipped.".

Definition promptInstallStudio : M unit :=
  let* response :=
    prompts host "installStudio"
      "Do you want to install Prisma Studio?" in
  if bool_decide (response = Some true) then
    (try_catch installStudio (λ e, error (describe e)) ;;;
     addCustomTab studioTab)
  else console_log "Prisma Studio installation skipped.".

Definition setupPrismaORM : M unit :=
  console_log "Setting up Prisma ORM.." ;;;
  promptCli ;;;
  promptInitPrisma ;;;
  promptGenerateClient ;;;
  promptInstallStudio.
End Setup.
End NuxtPrisma.

(** ** Vocabulary of the specification *)

(** An external command: a process run through [execa] or [spawn]. *)
Definition is_command (e : event) : bool :=
  match e with
  | Execa _ _ _ _ | Spawn _ _ _ _ => true
  | _ => false
  end.

Definition is_prompt (e : event) : bool :=
  match e with
  | Prompts _ _ _ => true
  | _ => false
  end.

(** A write to the disk by the module itself. *)
Definition is_write (e : event) : bool :=
  match e with
  | WriteFileSync _ _ _ | MkdirSync _ _ => true
  | _ => false
  end.

(** A call that threw: a command that [execa] rejected, a [spawn] that threw,
    a file operation that failed.  These are the failures the module gets to
    see. *)
Definition is_thrown (e : event) : bool :=
  match e with
  | Execa _ _ _ ok => negb ok
  | Spawn _ _ _ result => bool_decide (result = SpawnThrew)
  | ReadFileSync _ ok | WriteFileSync _ _ ok | MkdirSync _ ok => negb ok
  | _ => false
  end.

(** A spawned command that failed after [spawn] had returned. *)
Definition child_failed (e : event) : bool :=
  match e with
  | Spawn _ _ _ result => bool_decide (result = ChildFailed)
  | _ => false
  end.

(** A failed command or file operation, seen by the module or not. *)
Definition is_failure (e : event) : bool := is_thrown e || child_failed e.

Definition is_error_log (e : event) : bool :=
  match e with
  | Error _ => true
  | _ => false
  end.

Definition is_success_log (e : event) : bool :=
  match e with
  | Success _ => true
  | _ => false
  end.

(** Every call that threw is followed at once by a logged error. *)
Fixpoint thrown_logged (t : list event) : bool :=
  match t with
  | [] => true
  | e :: t' =>
      (if is_thrown e
       then match t' with
            | e' :: _ => is_error_log e'
            | [] => false
            end
       else true)
      && thrown_logged t'
  end.

(** Every action of the trace that is a [P] is followed at once by a [Q]. *)
Fixpoint each_followed (P Q : event → bool) (t : list event) : bool :=
  match t with
  | [] => true
  | e :: t' =>
      (if P e
       then match t' with
            | e' :: _ => Q e'
            | [] => false
            end
       else true)
      && each_followed P Q t'
  end.

(** Every failure in the trace is followed at once by a logged error. *)
Definition failures_logged : list event → bool :=
  each_followed is_failure is_error_log.

(** Every command that failed after [spawn] had returned is followed at once
    by a message of success. *)
Definition child_failures_hailed : list event → bool :=
  each_followed child_failed is_success_log.

(** [execa file args] occurs as the event [e]. *)
Definition runs (file : string) (args : list string) (e : event) : bool :=
  match e with
  | Execa f a _ _ => bool_decide (f = file) && bool_decide (a = args)
  | _ => false
  end.

Definition spawns (file : string) (args : list string) (e : event) : bool :=
  match e with
  | Spawn f a _ _ => bool_decide (f = file) && bool_decide (a = args)
  | _ => false
  end.

Definition asks (name : string) (e : event) : bool :=
  match e with
  | Prompts n _ _ => bool_decide (n = name)
  | _ => false
  end.

Definition writes_to (p : path) (e : event) : bool :=
  match e with
  | WriteFileSync q _ _ => bool_decide (q = p)
  | _ => false
  end.

(** The command lines of the current module. *)
Definition detects_cli : event → bool := runs "prisma" ["version"].
Definition installs_cli : event → bool :=
  runs "npm" ["install"; "prisma"; "--save-dev"].
Definition inits_project : event → bool :=
  runs "npx" ["prisma"; "init"; "--datasource-provider"; "sqlite"].
Definition formats_schema : event → bool := runs "npx" ["prisma"; "format"].
Definition migrates : event → bool :=
  runs "npx" ["prisma"; "migrate"; "dev"; "--name"; "init"].
Definition installs_client : event → bool :=
  runs "npm" ["install"; "@prisma/client"].
Definition generates_client : event → bool :=
  runs "npx" ["prisma"; "generate"].
Definition launches_studio : event → bool :=
  spawns "npx" ["prisma"; "studio"; "--browser"; "none"].

(** The step of the documented order an action belongs to: (1) CLI,
    (2) project files, (3) schema fragment, (4) format, (5) migration,
    (6) client, (7) accessor file, (8) viewer.  Console output belongs to no
    step.  Commands are told apart by their command line, prompts by their
    name, file operations by the file they touch. *)
Definition step_of (e : event) : option nat :=
  match e with
  | Execa file args _ _ =>
      if bool_decide (file = "prisma") then Some 1
      else if bool_decide (file = "npm") then
        if bool_decide (args = ["install"; "@prisma/client"]) then Some 6
        else Some 1
      else
        match args with
        | _ :: sub :: _ =>
            if bool_decide (sub = "init") then Some 2
            else if bool_decide (sub = "format") then Some 4
            else if bool_decide (sub = "migrate") then Some 5
            else if bool_decide (sub = "generate") then Some 6
            else None
        | _ => None
        end
  | Prompts name _ _ =>
      if bool_decide (name = "installPrisma") then Some 1
      else if bool_decide (name = "initPrisma") then Some 2
      else if bool_decide (name = "runMigration") then Some 5
      else if bool_decide (name = "generateClient") then Some 6
      else if bool_decide (name = "installStudio") then Some 8
      else None
  | ReadFileSync p _ | WriteFileSync p _ _ =>
      if bool_decide (last p = Some "schema.prisma") then Some 3 else Some 7
  | MkdirSync _ _ => Some 7
  | Spawn _ _ _ _ | Hook _ => Some 8
  | ConsoleLog _ | Success _ | Error _ => None
  end.

Definition steps (t : list event) : list nat := omap step_of t.

(** The step numbers never decrease along the trace, and start at [n] or
    later. *)
Fixpoint ascending_from (n : nat) (l : list nat) : bool :=
  match l with
  | [] => true
  | k :: l' => Nat.leb n k && ascending_from k l'
  end.

(** Every action of the trace is one its governing flag allows. *)
Definition governed (opts : PrismaNuxt.options.t) (host : Host) (e : event)
  : Prop :=
  (installs_cli e → PrismaNuxt.options.installCli opts = true)
  ∧ (inits_project e → PrismaNuxt.options.initPrisma opts = true)
  ∧ (writes_to (resolveProject host ["prisma"; "schema.prisma"]) e →
     PrismaNuxt.options.writeToSchema opts = true)
  ∧ (formats_schema e → PrismaNuxt.options.formatSchema opts = true)
  ∧ (migrates e → PrismaNuxt.options.runMigration opts = true)
  ∧ (installs_client e ∨ generates_client e →
     PrismaNuxt.options.installClient opts = true
     ∧ PrismaNuxt.options.generateClient opts = true)
  ∧ (launches_studio e → PrismaNuxt.options.installStudio opts = true).

(** ** Runs and their parts *)

(** The state a program leaves, and the actions it performs, from [s]. *)
Definition after {A} (m : M A) (s : state) : state := state_of (m s).
Definition does {A} (m : M A) (s : state) : list event := trace_of (m s).

(** [post m Q]: from every state, [m] returns normally, and [Q] relates the
    initial state, the result, the final state and the actions performed. *)
Definition post {A} (m : M A)
    (Q : state → A → state → list event → Prop) : Prop :=
  ∀ s, ∃ a s' t, m s = (Return a, s', t) ∧ Q s a s' t.

(** [tpost m Q]: [m] returns normally and its trace satisfies [Q]. *)
Definition tpost {A} (m : M A) (Q : list event → Prop) : Prop :=
  post m (λ _ _ _ t, Q t).

(** Trace properties that hold of the empty trace and are kept by
    concatenation; they compose along [bind]. *)
Class Monoidal (Q : list event → Prop) : Prop := {
  monoidal_nil : Q [];
  monoidal_app : ∀ t1 t2, Q t1 → Q t2 → Q (t1 ++ t2)
}.

(** The steps of the trace lie between [lo] and [hi] and never decrease. *)
Definition within (lo hi : nat) (t : list event) : Prop :=
  ascending_from lo (steps t) = true
  ∧ Forall (λ k, (k ≤ hi)%nat) (steps t).

(** An action the configuration permits: its governing flag is on, and a
    prompt is only issued in interactive mode. *)
Definition permitted (opts : PrismaNuxt.options.t) (host : Host) (e : event)
  : Prop :=
  governed opts host e
  ∧ (is_prompt e → PrismaNuxt.options.autoSetupPrisma opts = false).

(** The invariant of every step: calls that threw are logged, and only
    permitted actions happen. *)
Definition sound (opts : PrismaNuxt.options.t) (host : Host) (t : list event)
  : Prop :=
  thrown_logged t = true ∧ Forall (permitted opts host) t.

(** ** Sample projects and hosts *)

Definition schemaPath (host : Host) : list string :=
  resolveProject host ["prisma"; "schema.prisma"].

Definition accessorPath (host : Host) : list string :=
  resolveProject host ["lib"; "prisma.ts"].

(** A project directory [app] holding nothing yet. *)
Definition fresh_project : state :=
  State (Fsys ∅ {[ ["app"] ]} ∅) [].

(** The same project after [prisma init]: a [prisma] directory with a
    schema file. *)
Definition initial_schema : list N :=
  lit ("  datasource db { provider = 'sqlite' }" +:+ nl +:+ nl).

Definition initialized_project : state :=
  State (Fsys {[ ["app"; "prisma"; "schema.prisma"] := initial_schema ]}
              {[ ["app"]; ["app"; "prisma"] ]} ∅) [].

(** A project that already has its accessor file. *)
Definition project_with_accessor : state :=
  State (Fsys {[ ["app"; "lib"; "prisma.ts"] := lit "export {}" ]}
              {[ ["app"]; ["app"; "lib"] ]} ∅) [].

(** A host on which every tool is installed and works, [prisma init] lays
    down the schema file, and the user confirms every prompt. *)
Definition tools_work (file : string) (args cwd : list string) (fs : fsys)
  : option string * fsys :=
  if bool_decide (file = "npx")
     && bool_decide (take 2 args = ["prisma"; "init"])
  then (Some "Your Prisma schema was created at prisma/schema.prisma",
        Fsys (<[cwd ++ ["prisma"; "schema.prisma"] := initial_schema]>
                (files fs))
             ({[cwd ++ ["prisma"]]} ∪ dirs fs) (denied fs))
  else (Some "done", fs).

Definition willing_host (lifecycle : option string) : Host :=
  {| rootDir := ["app"];
     processCwd := ["app"];
     npm_lifecycle_event := lifecycle;
     SKIP_PRISMA_SETUP := None;
     execa_result := tools_work;
     spawn_result := λ _ _ _, ChildRunning;
     prompts_answer := λ _, Some true |}.

(** A host without the CLI, on which every command fails, and whose user
    still confirms every prompt. *)
Definition broken_host : Host :=
  {| rootDir := ["app"];
     processCwd := ["app"];
     npm_lifecycle_event := Some "dev";
     SKIP_PRISMA_SETUP := None;
     execa_result := λ _ _ _ fs, (None, fs);
     spawn_result := λ _ _ _, SpawnThrew;
     prompts_answer := λ _, Some true |}.

Definition with_flags (skip auto : bool) : PrismaNuxt.options.t :=
  {| PrismaNuxt.options.datasourceUrl := None;
     PrismaNuxt.options.log := [];
     PrismaNuxt.options.errorFormat := "colorless";
     PrismaNuxt.options.installCli := true;
     PrismaNuxt.options.initPrisma := true;
     PrismaNuxt.options.writeToSchema := true;
     PrismaNuxt.options.formatSchema := true;
     PrismaNuxt.options.runMigration := true;
     PrismaNuxt.options.installClient := true;
     PrismaNuxt.options.generateClient := true;
     PrismaNuxt.options.installStudio := true;
     PrismaNuxt.options.skipInstallations := skip;
     PrismaNuxt.options.autoSetupPrisma := auto |}.

(** Every governing flag off. *)
Definition all_off : PrismaNuxt.options.t :=
  {| PrismaNuxt.options.datasourceUrl := None;
     PrismaNuxt.options.log := [];
     PrismaNuxt.options.errorFormat := "colorless";
     PrismaNuxt.options.installCli := false;
     PrismaNuxt.options.initPrisma := false;
     PrismaNuxt.options.writeToSchema := false;
     PrismaNuxt.options.formatSchema := false;
     PrismaNuxt.options.runMigration := false;
     PrismaNuxt.options.installClient := false;
     PrismaNuxt.options.generateClient := false;
     PrismaNuxt.options.installStudio := false;
     PrismaNuxt.options.skipInstallations := false;
     PrismaNuxt.options.autoSetupPrisma := false |}.

(** Some action of the trace satisfies [p]; no action of the trace does. *)
Definition occurs (p : event → bool) (t : list event) : Prop :=
  Exists (λ e, p e = true) t.

Definition never (p : event → bool) (t : list event) : Prop :=
  Forall (λ e, p e = false) t.

(** The only command is the launch of the viewer, and nothing is written. *)
Definition viewer_only (e : event) : Prop :=
  (is_command e = true → launches_studio e = true) ∧ is_write e = false.

(** Every step whose governing flag is on performs its action. *)
Definition every_enabled_step_runs
    (opts : PrismaNuxt.options.t) (host : Host) (t : list event) : Prop :=
  (PrismaNuxt.options.installCli opts = true → occurs installs_cli t)
  ∧ (PrismaNuxt.options.initPrisma opts = true → occurs inits_project t)
  ∧ (PrismaNuxt.options.writeToSchema opts = true →
     occurs (writes_to (schemaPath host)) t)
  ∧ (PrismaNuxt.options.formatSchema opts = true → occurs formats_schema t)
  ∧ (PrismaNuxt.options.runMigration opts = true → occurs migrates t)
  ∧ (PrismaNuxt.options.installClient opts = true
     ∧ PrismaNuxt.options.generateClient opts = true →
     occurs installs_client t)
  ∧ (PrismaNuxt.options.installStudio opts = true →
     occurs launches_studio t).

(** What [writeToSchema] reads: the contents of the schema file, or the empty
    string when it cannot be read. *)
Definition existingSchema (host : Host) (s : state) : list N :=
  match fs_readFileSync (st_fs s) (schemaPath host) with
  | inr data => data
  | inl _ => []
  end.

(** What [writeToSchema] writes: the trimmed contents, a blank line, the
    fragment. *)
Definition updatedSchema (host : Host) (s : state) : list N :=
  trim (existingSchema host s) ++ lit (nl +:+ nl) ++ lit PrismaNuxt.addModel.

(** A command of the client step. *)
Definition is_client_command (e : event) : bool :=
  installs_client e || generates_client e.

(** Whether [prisma version] succeeds in the project, that is, whether the
    CLI is installed. *)
Definition cli_present (host : Host) (s : state) : bool :=
  bool_decide
    (is_Some
       (execa_result host "prisma" ["version"] (resolveProject host [])
          (st_fs s)).1).

(** The CLI step as the specification describes it: detection comes first,
    and the install command never runs when the CLI is there. *)
Definition detection_guards_install
    (opts : PrismaNuxt.options.t) (host : Host) (s : state) : Prop :=
  let t := does (PrismaNuxt.promptCli opts host) s in
  (∃ e, head t = Some e ∧ detects_cli e = true)
  ∧ (occurs installs_cli t →
     cli_present host s = false
     ∧ PrismaNuxt.options.installCli opts = true)
  ∧ (cli_present host s = true → never installs_cli t).

(** The trace logs an error after each call that threw. *)
Abbreviation logged := (λ t : list event, thrown_logged t = true).

(** ** Further vocabulary: approval, confinement, dependencies *)

(** The user confirmed the prompt of that name. *)
Definition confirmed (host : Host) (name : string) : bool :=
  bool_decide (prompts_answer host name = Some true).

(** A prompted action may go ahead: the module runs in automatic mode, or
    the user confirmed the prompt. *)
Definition approved (opts : PrismaNuxt.options.t) (host : Host)
    (name : string) : bool :=
  PrismaNuxt.options.autoSetupPrisma opts || confirmed host name.

(** The prompt an action stands behind, if any: the commands and the schema
    write of the current module, by the name of their confirmation. *)
Definition gate_of (host : Host) (e : event) : option string :=
  if installs_cli e then Some "installPrisma"
  else if inits_project e || formats_schema e
          || writes_to (schemaPath host) e then Some "initPrisma"
  else if migrates e then Some "runMigration"
  else if is_client_command e then Some "generateClient"
  else if launches_studio e then Some "installStudio"
  else None.

Definition prompt_gated (opts : PrismaNuxt.options.t) (host : Host)
    (e : event) : Prop :=
  ∀ name, gate_of host e = Some name → approved opts host name = true.

(** Where the module acts: commands run in the project root; the only file
    read is the schema; the only paths written are the schema, the [lib]
    directory and the accessor file under the working directory. *)
Definition confined (host : Host) (e : event) : Prop :=
  match e with
  | Execa _ _ cwd _ | Spawn _ _ cwd _ => cwd = resolveProject host []
  | ReadFileSync p _ => p = schemaPath host
  | WriteFileSync p _ _ =>
      p = schemaPath host ∨ p = resolveCwd host ["lib"; "prisma.ts"]
  | MkdirSync p _ => p = resolveCwd host ["lib"]
  | _ => True
  end.

(** [npm install @prisma/client] ran and succeeded. *)
Definition client_installed (e : event) : bool :=
  match e with
  | Execa _ _ _ ok => installs_client e && ok
  | _ => false
  end.

(** Every [npx prisma generate] of the trace comes right after a successful
    [npm install @prisma/client]; [prev] is the action before the trace. *)
Fixpoint generate_follows_install (prev : option event) (t : list event)
  : bool :=
  match t with
  | [] => true
  | e :: t' =>
      (if generates_client e
       then match prev with
            | Some e0 => client_installed e0
            | None => false
            end
       else true)
      && generate_follows_install (Some e) t'
  end.

(** Every command is the detection of the CLI or stands behind a prompt. *)
Definition accounted (host : Host) (e : event) : Prop :=
  is_command e = true →
  detects_cli e = true ∨ is_Some (gate_of host e).

(** The three together, as one invariant of every step. *)
Definition orderly (host : Host) (t : list event) : Prop :=
  Forall (confined host) t
  ∧ Forall (accounted host) t
  ∧ generate_follows_install None t = true.

(** A host on which the tools work and the user declines every prompt. *)
Definition declining_host : Host :=
  {| rootDir := ["app"];
     processCwd := ["app"];
     npm_lifecycle_event := Some "dev";
     SKIP_PRISMA_SETUP := None;
     execa_result := tools_work;
     spawn_result := λ _ _ _, ChildRunning;
     prompts_answer := λ _, Some false |}.

(** A program that returns and leaves the registered hooks as they were. *)
Definition keeps_hooks {A} (m : M A) : Prop :=
  post m (λ s _ s' _, st_hooks s' = st_hooks s).

(** A viewer process was started. *)
Definition started_viewer (e : event) : bool :=
  match e with
  | Spawn _ _ _ result => bool_decide (result = ChildRunning)
  | _ => false
  end.

(** One of the three actions on the project files: the initialization, the
    schema write, the schema format. *)
Definition initializes (host : Host) (e : event) : bool :=
  inits_project e || writes_to (schemaPath host) e || formats_schema e.

(** A host whose process runs outside the project root. *)
Definition stray_host : Host :=
  {| rootDir := ["app"];
     processCwd := ["work"];
     npm_lifecycle_event := Some "dev";
     SKIP_PRISMA_SETUP := None;
     execa_result := tools_work;
     spawn_result := λ _ _ _, ChildRunning;
     prompts_answer := λ _, Some true |}.

(** A disk with the project root and that working directory. *)
Definition stray_project : state :=
  State (Fsys ∅ {[ ["app"]; ["work"] ]} ∅) [].

(** A host on which the tools work and the user confirms every prompt, but
    whose viewer fails after [spawn] has returned. *)
Definition failing_viewer_host : Host :=
  {| rootDir := ["app"];
     processCwd := ["app"];
     npm_lifecycle_event := Some "dev";
     SKIP_PRISMA_SETUP := None;
     execa_result := tools_work;
     spawn_result := λ _ _ _, ChildFailed;
     prompts_answer := λ _, Some true |}.

(** A disk with the project root and a working directory outside it that
    already holds a [lib/prisma.ts], edited by hand. *)
Definition edited_stray_project : state :=
  State (Fsys {[ ["work"; "lib"; "prisma.ts"] := lit "// my edits" ]}
              {[ ["app"]; ["work"]; ["work"; "lib"] ]} ∅) [].

(** The trace prints a message of success after each command that failed
    after [spawn] had returned. *)
Abbreviation hailed := (λ t : list event, child_failures_hailed t = true).

(** * Reasoning about runs *)

Section Rules.
Context {A B : Type}.

Lemma run_eta (m : M A) s : m s = (outcome_of (m s), after m s, does m s).
Proof. unfold after, does. by destruct (m s) as [[? ?] ?]. Qed.

Lemma post_weaken (m : M A)
    (Q Q' : state → A → state → list event → Prop) :
  post m Q → (∀ s a s' t, Q s a s' t → Q' s a s' t) → post m Q'.
Proof.
  intros H HQ s. destruct (H s) as (a & s' & t & Heq & Hq).
  exists a, s', t. eauto.
Qed.

Lemma post_bind (m : M A) (k : A → M B) Q1 Q2
      (Q : state → B → state → list event → Prop) :
  post m Q1 →
  (∀ a, post (k a) (Q2 a)) →
  (∀ s a s1 t1 b s2 t2,
     Q1 s a s1 t1 → Q2 a s1 b s2 t2 → Q s b s2 (t1 ++ t2)) →
  post (bind m k) Q.
Proof.
  intros Hm Hk HQ s. unfold bind.
  destruct (Hm s) as (a & s1 & t1 & -> & H1).
  destruct (Hk a s1) as (b & s2 & t2 & -> & H2).
  exists b, s2, (t1 ++ t2). eauto.
Qed.

Lemma tpost_bind (m : M A) (k : A → M B) Q `{!Monoidal Q} :
  tpost m Q → (∀ a, tpost (k a) Q) → tpost (bind m k) Q.
Proof.
  intros Hm Hk. eapply post_bind; [exact Hm | exact Hk |].
  simpl. intros. by apply monoidal_app.
Qed.

Lemma tpost_ret (a : A) (Q : list event → Prop) : Q [] → tpost (ret a) Q.
Proof. intros HQ s. by exists a, s, []. Qed.

Lemma tpost_ret_monoidal (a : A) Q `{!Monoidal Q} : tpost (ret a) Q.
Proof. apply tpost_ret, monoidal_nil. Qed.

(** A body that never throws makes its handler dead code. *)
Lemma tpost_try_catch (m : M A) (h : exn → M A) Q :
  tpost m Q → tpost (try_catch m h) Q.
Proof.
  intros Hm s. unfold try_catch.
  destruct (Hm s) as (a & s' & t & -> & HQ). by exists a, s', t.
Qed.

Lemma tpost_weaken (m : M A) (Q Q' : list event → Prop) :
  tpost m Q → (∀ t, Q t → Q' t) → tpost m Q'.
Proof. intros H HQ. eapply post_weaken; [exact H | eauto]. Qed.
End Rules.

(** Sequencing two programs when the first returns: the second starts where
    the first stopped, and the traces follow each other. *)
Lemma seq_outcome (m k : M unit) s :
  outcome_of (m s) = Return tt →
  outcome_of ((m ;;; k) s) = outcome_of (k (after m s)).
Proof.
  unfold bind, after, outcome_of, state_of.
  destruct (m s) as [[r s1] t1]. simpl.
  intros ->. by destruct (k s1) as [[r2 s2] t2].
Qed.

Lemma seq_state (m k : M unit) s :
  outcome_of (m s) = Return tt →
  after (m ;;; k) s = after k (after m s).
Proof.
  unfold bind, after, outcome_of, state_of.
  destruct (m s) as [[r s1] t1]. simpl.
  intros ->. by destruct (k s1) as [[r2 s2] t2].
Qed.

Lemma seq_trace (m k : M unit) s :
  outcome_of (m s) = Return tt →
  does (m ;;; k) s = does m s ++ does k (after m s).
Proof.
  unfold bind, after, does, outcome_of, state_of, trace_of.
  destruct (m s) as [[r s1] t1]. simpl.
  intros ->. by destruct (k s1) as [[r2 s2] t2].
Qed.

Lemma tpost_returns (m : M unit) Q s :
  tpost m Q → outcome_of (m s) = Return tt.
Proof. intros H. destruct (H s) as ([] & s' & t & -> & _). done. Qed.

Lemma tpost_does {A} (m : M A) Q s : tpost m Q → Q (does m s).
Proof.
  intros H. destruct (H s) as (a & s' & t & Heq & HQ).
  unfold does. by rewrite Heq.
Qed.

Lemma tpost_emit e (Q : list event → Prop) : Q [e] → tpost (emit e) Q.
Proof. intros HQ s. by exists tt, s, [e]. Qed.

Lemma tpost_prompts host name message (Q : list event → Prop) :
  (∀ answer, Q [Prompts name message answer]) →
  tpost (prompts host name message) Q.
Proof. intros HQ s. by eexists _, s, _. Qed.

Lemma tpost_existsSync p (Q : list event → Prop) :
  Q [] → tpost (existsSync p) Q.
Proof. intros HQ s. by eexists _, s, []. Qed.

Lemma tpost_existsSync_monoidal p Q `{!Monoidal Q} : tpost (existsSync p) Q.
Proof. apply tpost_existsSync, monoidal_nil. Qed.

Lemma tpost_hook name callback (Q : list event → Prop) :
  Q [Hook name] → tpost (hook name callback) Q.
Proof. intros HQ s. by eexists tt, _, _. Qed.

#[global] Instance Forall_monoidal (P : event → Prop) : Monoidal (Forall P).
Proof. split; [constructor | intros; by apply Forall_app]. Qed.

Lemma thrown_logged_app t1 t2 :
  thrown_logged t1 = true → thrown_logged t2 = true →
  thrown_logged (t1 ++ t2) = true.
Proof.
  intros H1 H2. induction t1 as [|e t1 IH]; [done |].
  simpl in *. apply andb_true_iff in H1 as [He H1].
  apply andb_true_iff. split; [| by apply IH].
  destruct (is_thrown e); [| done].
  by destruct t1.
Qed.

#[global] Instance thrown_logged_monoidal :
  Monoidal (λ t, thrown_logged t = true).
Proof. split; [done | apply thrown_logged_app]. Qed.

(** What [thrown_logged] computes: the event after a failure is an error
    message. *)
Lemma thrown_logged_spec t i e :
  thrown_logged t = true → t !! i = Some e → is_thrown e = true →
  ∃ msg, t !! S i = Some (Error msg).
Proof.
  revert i. induction t as [|e' t IH]; intros i Ht Hi He; [done |].
  simpl in Ht. apply andb_true_iff in Ht as [Hhd Htl].
  destruct i as [|i]; simpl in *.
  - injection Hi as ->. rewrite He in Hhd.
    destruct t as [|e'' t]; [done |]. destruct e''; try done. eauto.
  - eauto.
Qed.

(** ** Steps in order *)

Lemma steps_app t1 t2 : steps (t1 ++ t2) = steps t1 ++ steps t2.
Proof. apply omap_app. Qed.

Lemma ascending_from_app n m l1 l2 :
  ascending_from n l1 = true →
  Forall (λ k, (k ≤ m)%nat) l1 → (n ≤ m)%nat →
  ascending_from m l2 = true →
  ascending_from n (l1 ++ l2) = true.
Proof.
  revert n. induction l1 as [|k l1 IH]; intros n H1 Hle Hnm H2; simpl in *.
  - destruct l2 as [|k l2]; [done |]. simpl in *.
    apply andb_true_iff in H2 as [Hk H2]. apply Nat.leb_le in Hk.
    apply andb_true_iff. split; [apply Nat.leb_le; lia | done].
  - apply andb_true_iff in H1 as [Hk H1]. apply Forall_cons in Hle as [? ?].
    apply andb_true_iff. split; [done |]. by apply IH.
Qed.

Lemma within_nil lo hi : within lo hi [].
Proof. by split. Qed.

Lemma within_app a b c d t1 t2 :
  (a ≤ b)%nat → (b ≤ c)%nat → (c ≤ d)%nat →
  within a b t1 → within c d t2 → within a d (t1 ++ t2).
Proof.
  intros Hab Hbc Hcd [H1 F1] [H2 F2]. unfold within. rewrite steps_app.
  split.
  - eapply (ascending_from_app a c); [done | | lia | done].
    eapply Forall_impl; [exact F1 |]. simpl. intros. lia.
  - apply Forall_app. split; [| done].
    eapply Forall_impl; [exact F1 |]. simpl. intros. lia.
Qed.

(** All the steps of a trace are the step [n]. *)
#[global] Instance within_monoidal n : Monoidal (within n n).
Proof.
  split; [apply within_nil |]. intros. by apply (within_app n n n n).
Qed.

Lemma ascending_from_sorted n l :
  ascending_from n l = true →
  StronglySorted le l ∧ Forall (λ k, (n ≤ k)%nat) l.
Proof.
  revert n. induction l as [|k l IH]; intros n H; simpl in *.
  - split; constructor.
  - apply andb_true_iff in H as [Hk H]. apply Nat.leb_le in Hk.
    destruct (IH _ H) as [Hs Hf]. split.
    + by constructor.
    + constructor; [done |]. eapply Forall_impl; [exact Hf |].
      simpl. intros. lia.
Qed.

(** ** Tactics *)

Ltac unfold_prims :=
  cbv [bind try_catch ret emit execa spawn prompts existsSync
       readFileSync writeFileSync mkdirSync hook success error console_log
       NuxtPrisma.addCustomTab].

(** Case analysis on every answer of the environment met along a run. *)
Ltac crush_run :=
  repeat match goal with
  | |- context [match ?x with _ => _ end] =>
      lazymatch x with
      | context [match _ with _ => _ end] => fail
      | _ => destruct x eqn:?
      end
  end.

(** A function whose body calls throwing primitives under its own
    [try]/[catch]: run it on every answer. *)
Ltac leaf :=
  intros ?s; unfold_prims; crush_run; simplify_eq/=;
  (do 3 eexists; split; [reflexivity |]).

Create HintDb steps.

Ltac tpost_step :=
  lazymatch goal with
  | |- tpost (bind _ _) _ => apply tpost_bind; [apply _ | | intros ?]
  | |- tpost (ret _) _ =>
      first [apply tpost_ret_monoidal; apply _ | apply tpost_ret, within_nil]
  | |- tpost (try_catch (bind (PrismaNuxt.detectCli _) _) _) _ =>
      unfold PrismaNuxt.detectCli; leaf
  | |- tpost (try_catch _ _) _ => apply tpost_try_catch
  | |- tpost (if ?b then _ else _) _ => destruct b eqn:?
  | |- tpost (emit _) _ => apply tpost_emit
  | |- tpost (success _) _ => apply tpost_emit
  | |- tpost (error _) _ => apply tpost_emit
  | |- tpost (console_log _) _ => apply tpost_emit
  | |- tpost (prompts _ _ _) _ => apply tpost_prompts; intros ?
  | |- tpost (existsSync _) _ =>
      first [ apply tpost_existsSync_monoidal; apply _
            | apply tpost_existsSync, within_nil ]
  | |- tpost (hook _ _) _ => apply tpost_hook
  | |- tpost (NuxtPrisma.addCustomTab _) _ => apply tpost_hook
  | |- tpost _ _ => solve [eauto with steps]
  end.

Ltac tpost_auto := repeat tpost_step.

(** ** Permitted actions *)

#[global] Instance sound_monoidal opts host : Monoidal (sound opts host).
Proof.
  split; [by split |].
  intros t1 t2 [? ?] [? ?]. split; [by apply thrown_logged_app |].
  by apply Forall_app.
Qed.

Lemma last_resolve (root : list string) (a b : string) :
  last (root ++ [a; b]) = Some b.
Proof. by rewrite last_app. Qed.

Lemma accessor_not_schema host (data : list N) ok :
  ¬ writes_to (resolveProject host ["prisma"; "schema.prisma"])
      (WriteFileSync (resolveCwd host ["lib"; "prisma.ts"]) data ok).
Proof.
  simpl. intros H%bool_decide_unpack. apply (f_equal last) in H.
  unfold resolveCwd, resolveProject in H. by rewrite !last_resolve in H.
Qed.

Ltac permitted_event :=
  unfold permitted, governed;
  repeat match goal with |- _ ∧ _ => split end;
  first
    [ intros _; first [ assumption | done ]
    | let H := fresh in intros H; by vm_compute in H
    | let H := fresh in
      intros H;
      match goal with
      | Hf : (_ && _) = true |- _ => by apply andb_true_iff in Hf
      end
    | let H := fresh in intros [H | H]; by vm_compute in H
    | let H := fresh in intros H; by apply accessor_not_schema in H ].

Ltac sound_trace :=
  split; [done | repeat (constructor; [permitted_event |]); constructor].

(** * The current module: every step returns, logs what it catches, and stays
    within the configuration *)

Section Current.
Variable opts : PrismaNuxt.options.t.
Variable host : Host.
Import PrismaNuxt.

Lemma installCli_sound : tpost (installCli opts host) (sound opts host).
Proof. unfold installCli. leaf; sound_trace. Qed.

Lemma initPrisma_sound : tpost (initPrisma opts host) (sound opts host).
Proof. unfold initPrisma. leaf; sound_trace. Qed.

Lemma writeToSchema_sound : tpost (writeToSchema opts host) (sound opts host).
Proof. unfold writeToSchema. leaf; sound_trace. Qed.

Lemma formatSchema_sound : tpost (formatSchema opts host) (sound opts host).
Proof. unfold formatSchema. leaf; sound_trace. Qed.

Lemma runMigration_sound : tpost (runMigration opts host) (sound opts host).
Proof. unfold runMigration. leaf; sound_trace. Qed.

Lemma generateClient_sound :
  tpost (generateClient opts host) (sound opts host).
Proof. unfold generateClient. leaf; sound_trace. Qed.

Lemma installStudio_sound : tpost (installStudio opts host) (sound opts host).
Proof. unfold installStudio. leaf; sound_trace. Qed.

Lemma writeClientPlugin_sound :
  tpost (writeClientPlugin host) (sound opts host).
Proof. unfold writeClientPlugin. leaf; sound_trace. Qed.

Hint Resolve installCli_sound initPrisma_sound writeToSchema_sound
  formatSchema_sound runMigration_sound generateClient_sound
  installStudio_sound writeClientPlugin_sound : steps.

Lemma promptCli_sound : tpost (promptCli opts host) (sound opts host).
Proof. unfold promptCli. tpost_auto; sound_trace. Qed.

Lemma promptInitPrisma_sound :
  tpost (promptInitPrisma opts host) (sound opts host).
Proof. unfold promptInitPrisma. tpost_auto; sound_trace. Qed.

Lemma promptRunMigration_sound :
  tpost (promptRunMigration opts host) (sound opts host).
Proof. unfold promptRunMigration. tpost_auto; sound_trace. Qed.

Lemma promptGenerateClient_sound :
  tpost (promptGenerateClient opts host) (sound opts host).
Proof. unfold promptGenerateClient. tpost_auto; sound_trace. Qed.

Lemma promptInstallStudio_sound :
  tpost (promptInstallStudio opts host) (sound opts host).
Proof. unfold promptInstallStudio. tpost_auto; sound_trace. Qed.

Hint Resolve promptCli_sound promptInitPrisma_sound promptRunMigration_sound
  promptGenerateClient_sound promptInstallStudio_sound : steps.

(** The whole pipeline returns, with what it caught logged and nothing but
    permitted actions. *)
Lemma setupPrismaORM_sound : tpost (setupPrismaORM opts host) (sound opts host).
Proof. unfold setupPrismaORM. tpost_auto; sound_trace. Qed.
End Current.

(** ** The documented order *)

Lemma ascending_from_weaken a a' l :
  (a' ≤ a)%nat → ascending_from a l = true → ascending_from a' l = true.
Proof.
  destruct l as [|k l]; [done |]. simpl. intros Hle H.
  apply andb_true_iff in H as [Hk H]. apply Nat.leb_le in Hk.
  apply andb_true_iff. split; [apply Nat.leb_le; lia | done].
Qed.

Lemma within_weaken a b a' b' t :
  (a' ≤ a)%nat → (b ≤ b')%nat → within a b t → within a' b' t.
Proof.
  intros Ha Hb [H F]. split; [by eapply ascending_from_weaken |].
  eapply Forall_impl; [exact F |]. simpl. intros. lia.
Qed.

Lemma tpost_seq_within {A B} b c a d (m : M A) (k : A → M B) :
  (a ≤ b)%nat → (b ≤ c)%nat → (c ≤ d)%nat →
  tpost m (within a b) → (∀ x, tpost (k x) (within c d)) →
  tpost (bind m k) (within a d).
Proof.
  intros Hab Hbc Hcd Hm Hk. eapply post_bind; [exact Hm | exact Hk |].
  simpl. intros. by apply (within_app a b c d).
Qed.

Lemma tpost_within_weaken {A} a b a' b' (m : M A) :
  (a' ≤ a)%nat → (b ≤ b')%nat →
  tpost m (within a b) → tpost m (within a' b').
Proof.
  intros Ha Hb H. eapply tpost_weaken; [exact H |].
  intros t. by apply within_weaken.
Qed.

Ltac within_trace :=
  unfold within, steps, resolveProject, resolveCwd; simpl;
  rewrite ?last_resolve;
  split; [vm_compute; reflexivity | repeat constructor; lia].

Section CurrentOrder.
Variable opts : PrismaNuxt.options.t.
Variable host : Host.
Import PrismaNuxt.

Lemma installCli_step : tpost (installCli opts host) (within 1 1).
Proof. unfold installCli. leaf; within_trace. Qed.

Lemma initPrisma_step : tpost (initPrisma opts host) (within 2 2).
Proof. unfold initPrisma. leaf; within_trace. Qed.

Lemma writeToSchema_step : tpost (writeToSchema opts host) (within 3 3).
Proof. unfold writeToSchema. leaf; within_trace. Qed.

Lemma formatSchema_step : tpost (formatSchema opts host) (within 4 4).
Proof. unfold formatSchema. leaf; within_trace. Qed.

Lemma runMigration_step : tpost (runMigration opts host) (within 5 5).
Proof. unfold runMigration. leaf; within_trace. Qed.

Lemma generateClient_step : tpost (generateClient opts host) (within 6 6).
Proof. unfold generateClient. leaf; within_trace. Qed.

Lemma writeClientPlugin_step : tpost (writeClientPlugin host) (within 7 7).
Proof. unfold writeClientPlugin. leaf; within_trace. Qed.

Lemma installStudio_step : tpost (installStudio opts host) (within 8 8).
Proof. unfold installStudio. leaf; within_trace. Qed.

Hint Resolve installCli_step initPrisma_step writeToSchema_step
  formatSchema_step runMigration_step generateClient_step
  writeClientPlugin_step installStudio_step : steps.

Lemma promptCli_step : tpost (promptCli opts host) (within 1 1).
Proof. unfold promptCli. tpost_auto; within_trace. Qed.

(** The three actions behind the initialization prompt. *)
Lemma initialize_step :
  tpost (initPrisma opts host ;;; writeToSchema opts host ;;;
         formatSchema opts host) (within 2 4).
Proof.
  apply (tpost_seq_within 2 3); [lia | lia | lia | apply initPrisma_step |].
  intros _.
  apply (tpost_seq_within 3 4);
    [lia | lia | lia | apply writeToSchema_step | intros _].
  apply formatSchema_step.
Qed.

Lemma promptInitPrisma_step : tpost (promptInitPrisma opts host) (within 2 4).
Proof.
  unfold promptInitPrisma.
  apply (tpost_seq_within 2 2); [lia | lia | lia | tpost_auto |].
  intros schemaExists.
  apply (tpost_seq_within 2 2); [lia | lia | lia | |].
  { destruct schemaExists; tpost_auto; within_trace. }
  intros _. destruct (negb schemaExists).
  - destruct (options.autoSetupPrisma opts); [apply initialize_step |].
    apply (tpost_seq_within 2 2);
      [lia | lia | lia | tpost_auto; within_trace |].
    intros response. destruct (bool_decide (response = Some true)).
    + apply initialize_step.
    + tpost_auto; within_trace.
  - apply tpost_ret, within_nil.
Qed.

Lemma promptRunMigration_step :
  tpost (promptRunMigration opts host) (within 5 5).
Proof. unfold promptRunMigration. tpost_auto; within_trace. Qed.

Lemma promptGenerateClient_step :
  tpost (promptGenerateClient opts host) (within 6 6).
Proof. unfold promptGenerateClient. tpost_auto; within_trace. Qed.

Lemma promptInstallStudio_step :
  tpost (promptInstallStudio opts host) (within 8 8).
Proof. unfold promptInstallStudio. tpost_auto; within_trace. Qed.

Lemma setupPrismaORM_step : tpost (setupPrismaORM opts host) (within 1 8).
Proof.
  unfold setupPrismaORM.
  apply (tpost_seq_within 1 1); [lia | lia | lia | tpost_auto; within_trace |].
  intros _. destruct (force_skip_prisma_setup host).
  { tpost_auto; within_trace. }
  apply (tpost_seq_within 7 8); [lia | lia | lia | |].
  - destruct (negb (options.skipInstallations opts));
      [| apply tpost_ret, within_nil].
    apply (tpost_seq_within 1 2); [lia | lia | lia | apply promptCli_step |].
    intros _.
    apply (tpost_seq_within 4 5);
      [lia | lia | lia | apply promptInitPrisma_step |].
    intros _.
    apply (tpost_seq_within 5 6);
      [lia | lia | lia | apply promptRunMigration_step |].
    intros _.
    apply (tpost_seq_within 6 7);
      [lia | lia | lia | apply promptGenerateClient_step |].
    intros _. apply writeClientPlugin_step.
  - intros _. destruct (studio_allowed host).
    + apply promptInstallStudio_step.
    + apply tpost_ret, within_nil.
Qed.
End CurrentOrder.

(** * Properties of the pipeline *)

Section Pipeline.
Variable opts : PrismaNuxt.options.t.
Variable host : Host.
Import PrismaNuxt.

Lemma promptCli_returns s : outcome_of (promptCli opts host s) = Return tt.
Proof. eapply tpost_returns, promptCli_sound. Qed.

Lemma promptInitPrisma_returns s :
  outcome_of (promptInitPrisma opts host s) = Return tt.
Proof. eapply tpost_returns, promptInitPrisma_sound. Qed.

Lemma promptRunMigration_returns s :
  outcome_of (promptRunMigration opts host s) = Return tt.
Proof. eapply tpost_returns, promptRunMigration_sound. Qed.

Lemma promptGenerateClient_returns s :
  outcome_of (promptGenerateClient opts host s) = Return tt.
Proof. eapply tpost_returns, promptGenerateClient_sound. Qed.

Lemma writeClientPlugin_returns s :
  outcome_of (writeClientPlugin host s) = Return tt.
Proof. eapply tpost_returns, (writeClientPlugin_sound opts). Qed.

Lemma promptInstallStudio_returns s :
  outcome_of (promptInstallStudio opts host s) = Return tt.
Proof. eapply tpost_returns, promptInstallStudio_sound. Qed.

(** The five installation steps, run one after the other. *)
Lemma installations_run s :
  let installations :=
    (promptCli opts host ;;; promptInitPrisma opts host ;;;
     promptRunMigration opts host ;;; promptGenerateClient opts host ;;;
     writeClientPlugin host) in
  let s1 := after (promptCli opts host) s in
  let s2 := after (promptInitPrisma opts host) s1 in
  let s3 := after (promptRunMigration opts host) s2 in
  let s4 := after (promptGenerateClient opts host) s3 in
  outcome_of (installations s) = Return tt
  ∧ after installations s = after (writeClientPlugin host) s4
  ∧ does installations s
    = does (promptCli opts host) s
      ++ does (promptInitPrisma opts host) s1
      ++ does (promptRunMigration opts host) s2
      ++ does (promptGenerateClient opts host) s3
      ++ does (writeClientPlugin host) s4.
Proof.
  cbv zeta.
  rewrite !seq_outcome, !seq_state, !seq_trace
    by first [ apply promptCli_returns | apply promptInitPrisma_returns
             | apply promptRunMigration_returns
             | apply promptGenerateClient_returns ].
  by rewrite writeClientPlugin_returns.
Qed.

Lemma setupPrismaORM_run s :
  let s1 := after (promptCli opts host) s in
  let s2 := after (promptInitPrisma opts host) s1 in
  let s3 := after (promptRunMigration opts host) s2 in
  let s4 := after (promptGenerateClient opts host) s3 in
  let s5 := after (writeClientPlugin host) s4 in
  let s' := if options.skipInstallations opts then s else s5 in
  setupPrismaORM opts host s
  = (Return tt,
     if force_skip_prisma_setup host then s
     else if studio_allowed host
          then after (promptInstallStudio opts host) s' else s',
     ConsoleLog "Setting up Prisma ORM.." ::
     if force_skip_prisma_setup host
     then [Error "Skipping Prisma ORM setup."]
     else
       (if options.skipInstallations opts then []
        else does (promptCli opts host) s
             ++ does (promptInitPrisma opts host) s1
             ++ does (promptRunMigration opts host) s2
             ++ does (promptGenerateClient opts host) s3
             ++ does (writeClientPlugin host) s4)
       ++ (if studio_allowed host
           then does (promptInstallStudio opts host) s' else [])).
Proof.
  intros s1 s2 s3 s4 s5 s'. unfold setupPrismaORM.
  rewrite run_eta.
  rewrite seq_outcome, seq_state, seq_trace by done.
  change (after (console_log _) s) with s.
  change (does (console_log ?m) s) with [ConsoleLog m].
  destruct (force_skip_prisma_setup host); [done |].
  destruct (options.skipInstallations opts); simpl negb; cbv iota.
  - rewrite seq_outcome, seq_state, seq_trace by done.
    change (after (ret tt) s) with s.
    change (does (ret tt) s) with (@nil event).
    destruct (studio_allowed host); [| done].
    by rewrite promptInstallStudio_returns.
  - destruct (installations_run s) as (Ho & Ha & Hd).
    rewrite (seq_outcome _ _ s Ho), (seq_state _ _ s Ho), (seq_trace _ _ s Ho).
    rewrite Ha, Hd. fold s1 s2 s3 s4 s5. subst s'.
    destruct (studio_allowed host); [| done].
    by rewrite promptInstallStudio_returns.
Qed.
End Pipeline.

(** ** Failures of single commands *)

(** The detection itself lets the failure of [prisma version] escape; it is
    [promptCli] that catches it, logs it and goes on to the prompt. *)
Example detection_failure_is_caught_by_the_step :
  outcome_of (PrismaNuxt.detectCli broken_host fresh_project)
  = Throw (ExecaError "prisma" ["version"])
  ∧ PrismaNuxt.promptCli (with_flags false false) broken_host fresh_project
    = (Return tt, fresh_project,
       [Execa "prisma" ["version"] ["app"] false;
        Error "Prisma CLI is not installed.";
        Prompts "installPrisma" "Do you want to install Prisma CLI?"
          (Some true);
        Execa "npm" ["install"; "prisma"; "--save-dev"] ["app"] false;
        Error "Failed to install Prisma CLI.";
        Success "Prisma CLI successfully installed."]).
Proof. by split. Qed.

(** On a host where every command fails, the pipeline still runs its six
    steps to the end: nine calls fail, nine errors are logged. *)
Example every_command_fails :
  let run :=
    PrismaNuxt.setupPrismaORM (with_flags false false) broken_host
      fresh_project in
  outcome_of run = Return tt
  ∧ List.length (filter (λ e, is_thrown e = true) (trace_of run)) = 9
  ∧ List.length (filter (λ e, is_error_log e = true) (trace_of run)) = 9
  ∧ steps (trace_of run)
    = [1; 1; 1; 2; 2; 3; 3; 4; 5; 5; 6; 6; 7; 7; 8; 8; 8].
Proof. vm_compute. by repeat split. Qed.

(** ** The order of the steps *)

(** C5. In every run, the steps that execute do so in the documented order:
    along the trace the step numbers (1 CLI, 2 project files, 3 schema
    fragment, 4 format, 5 migration, 6 client, 7 accessor file, 8 viewer)
    never decrease. *)
Theorem steps_run_in_documented_order
    (opts : PrismaNuxt.options.t) (host : Host) (s : state) :
  StronglySorted le (steps (does (PrismaNuxt.setupPrismaORM opts host) s))
  ∧ Forall (λ k, (1 ≤ k ≤ 8)%nat)
      (steps (does (PrismaNuxt.setupPrismaORM opts host) s)).
Proof.
  destruct (tpost_does _ _ s (setupPrismaORM_step opts host)) as [Hasc Hle].
  apply ascending_from_sorted in Hasc as [Hsorted Hge].
  split; [done |]. apply Forall_forall. intros k Hk.
  rewrite Forall_forall in Hge, Hle. split; eauto.
Qed.

(** ** Skipping the installations *)

Lemma occurs_existsb p t : occurs p t ↔ existsb p t = true.
Proof.
  unfold occurs. rewrite existsb_exists, Exists_exists.
  split; intros (e & He & Hp); exists e; split; try done;
    by apply list_elem_of_In.
Qed.

Lemma never_forallb p t : never p t ↔ forallb (λ e, negb (p e)) t = true.
Proof.
  unfold never. rewrite forallb_forall, Forall_forall. split; intros H e He.
  - apply list_elem_of_In in He. by rewrite (H e He).
  - apply list_elem_of_In in He. specialize (H e He). by destruct (p e).
Qed.

#[global] Instance never_monoidal p : Monoidal (never p).
Proof. apply Forall_monoidal. Qed.

Ltac viewer_trace := repeat (constructor; [by split |]); constructor.

Lemma installStudio_viewer_only opts host :
  tpost (PrismaNuxt.installStudio opts host) (Forall viewer_only).
Proof. unfold PrismaNuxt.installStudio. leaf; viewer_trace. Qed.

Lemma promptInstallStudio_viewer_only opts host :
  tpost (PrismaNuxt.promptInstallStudio opts host) (Forall viewer_only).
Proof.
  pose proof (installStudio_viewer_only opts host).
  unfold PrismaNuxt.promptInstallStudio. tpost_auto; viewer_trace.
Qed.

(** With [skipInstallations] set, a run holds no command but the launch of
    the viewer, and no write. *)
Lemma skipped_run_is_viewer_only
    (opts : PrismaNuxt.options.t) (host : Host) (s : state) :
  PrismaNuxt.options.skipInstallations opts = true →
  Forall viewer_only (does (PrismaNuxt.setupPrismaORM opts host) s).
Proof.
  intros Hskip. unfold does at 1.
  rewrite (setupPrismaORM_run opts host s). cbv zeta. rewrite Hskip.
  change (trace_of (?r, ?st, ?t)) with t.
  constructor; [by split |].
  destruct (PrismaNuxt.force_skip_prisma_setup host); [viewer_trace |].
  destruct (PrismaNuxt.studio_allowed host); [| constructor].
  apply (tpost_does _ _ s (promptInstallStudio_viewer_only opts host)).
Qed.

(** C1, as the specification states it, fails: with [skipInstallations] set
    and the viewer confirmed, [npx prisma studio] is spawned. *)
Lemma skip_installations_still_launches_the_viewer :
  ¬ (∀ (opts : PrismaNuxt.options.t) (host : Host) (s : state),
       PrismaNuxt.options.skipInstallations opts = true →
       never is_command (does (PrismaNuxt.setupPrismaORM opts host) s)).
Proof.
  intros H.
  specialize (H (with_flags true false) (willing_host (Some "dev"))
                fresh_project eq_refl).
  apply never_forallb in H. by vm_compute in H.
Qed.

(** ** The fully automatic mode *)

Lemma bind_existsSync {B} p (k : bool → M B) s :
  bind (existsSync p) k s = k (fs_existsSync (st_fs s) p) s.
Proof.
  unfold bind, existsSync. by destruct (k _ s) as [[? ?] ?].
Qed.

Section Automatic.
Variable opts : PrismaNuxt.options.t.
Variable host : Host.
Import PrismaNuxt.

Lemma installCli_returns s : outcome_of (installCli opts host s) = Return tt.
Proof. eapply tpost_returns, installCli_sound. Qed.

Lemma initPrisma_returns s : outcome_of (initPrisma opts host s) = Return tt.
Proof. eapply tpost_returns, initPrisma_sound. Qed.

Lemma writeToSchema_returns s :
  outcome_of (writeToSchema opts host s) = Return tt.
Proof. eapply tpost_returns, writeToSchema_sound. Qed.

Lemma formatSchema_returns s :
  outcome_of (formatSchema opts host s) = Return tt.
Proof. eapply tpost_returns, formatSchema_sound. Qed.

Lemma installStudio_returns s :
  outcome_of (installStudio opts host s) = Return tt.
Proof. eapply tpost_returns, installStudio_sound. Qed.

(** An enabled action performs its command. *)
Ltac enabled H :=
  unfold does; rewrite H; unfold_prims; crush_run; simpl;
  repeat first [ by apply Exists_cons_hd | apply Exists_cons_tl ].

Lemma installCli_occurs s :
  options.installCli opts = true →
  occurs installs_cli (does (installCli opts host) s).
Proof. intros H. unfold installCli. enabled H. Qed.

Lemma initPrisma_occurs s :
  options.initPrisma opts = true →
  occurs inits_project (does (initPrisma opts host) s).
Proof. intros H. unfold initPrisma. enabled H. Qed.

Lemma writeToSchema_occurs s :
  options.writeToSchema opts = true →
  occurs (writes_to (schemaPath host)) (does (writeToSchema opts host) s).
Proof.
  intros H. unfold writeToSchema, schemaPath, does. rewrite H.
  unfold_prims. crush_run; simpl;
    repeat first
      [ apply Exists_cons_hd; simpl; by apply bool_decide_eq_true
      | apply Exists_cons_tl ].
Qed.

Lemma formatSchema_occurs s :
  options.formatSchema opts = true →
  occurs formats_schema (does (formatSchema opts host) s).
Proof. intros H. unfold formatSchema. enabled H. Qed.

Lemma runMigration_occurs s :
  options.runMigration opts = true →
  occurs migrates (does (runMigration opts host) s).
Proof. intros H. unfold runMigration. enabled H. Qed.

Lemma generateClient_occurs s :
  options.installClient opts = true ∧ options.generateClient opts = true →
  occurs installs_client (does (generateClient opts host) s).
Proof.
  intros [H1 H2].
  assert (H : options.installClient opts && options.generateClient opts
              = true) by by rewrite H1, H2.
  unfold generateClient. enabled H.
Qed.

Lemma installStudio_occurs s :
  options.installStudio opts = true →
  occurs launches_studio (does (installStudio opts host) s).
Proof. intros H. unfold installStudio. enabled H. Qed.

Hypothesis automatic : options.autoSetupPrisma opts = true.

Lemma promptCli_automatic s :
  does (promptCli opts host) s
  = does (installCli opts host) s
    ++ [Success "Prisma CLI successfully installed."].
Proof.
  unfold promptCli. rewrite automatic.
  by rewrite seq_trace by apply installCli_returns.
Qed.

Lemma promptInitPrisma_automatic s :
  fs_existsSync (st_fs s) (schemaPath host) = false →
  let s1 := after (initPrisma opts host) s in
  let s2 := after (writeToSchema opts host) s1 in
  does (promptInitPrisma opts host) s
  = ConsoleLog "Prisma schema file does not exist." ::
    does (initPrisma opts host) s
    ++ does (writeToSchema opts host) s1
    ++ does (formatSchema opts host) s2.
Proof.
  intros Habsent s1 s2. unfold does at 1, promptInitPrisma.
  rewrite bind_existsSync. fold (schemaPath host). rewrite Habsent, automatic.
  simpl negb. cbv iota.
  change (trace_of (?m s)) with (does m s).
  rewrite seq_trace by done.
  change (after (console_log _) s) with s.
  rewrite seq_trace by apply initPrisma_returns.
  rewrite seq_trace by apply writeToSchema_returns.
  done.
Qed.

Lemma promptRunMigration_automatic s :
  does (promptRunMigration opts host) s = does (runMigration opts host) s.
Proof. unfold promptRunMigration. by rewrite automatic. Qed.

Lemma promptGenerateClient_automatic s :
  does (promptGenerateClient opts host) s
  = does (generateClient opts host) s.
Proof.
  unfold promptGenerateClient. rewrite automatic.
  unfold does, try_catch.
  destruct (generateClient_sound opts host s) as ([] & s' & t & -> & _).
  done.
Qed.

Lemma promptInstallStudio_automatic s :
  does (promptInstallStudio opts host) s
  = does (installStudio opts host) s ++ [Hook "devtools:customTabs"].
Proof.
  unfold promptInstallStudio. rewrite automatic.
  by rewrite seq_trace by apply installStudio_returns.
Qed.

Lemma automatic_never_prompts s :
  never is_prompt (does (setupPrismaORM opts host) s).
Proof.
  destruct (tpost_does _ _ s (setupPrismaORM_sound opts host)) as [_ H].
  eapply Forall_impl; [exact H |]. intros e [_ He].
  destruct (is_prompt e); [| done]. specialize (He I). congruence.
Qed.
End Automatic.

(** Finding the part of a run in which an action occurs. *)
Ltac pick tac := solve [ tac | left; pick tac | right; pick tac ].

(** C2, as the code has it. With [autoSetupPrisma] set, no prompt is issued.
    Unless the setup is skipped altogether ([SKIP_PRISMA_SETUP] or the [test]
    script): when [skipInstallations] is off, the CLI install, the migration
    and the client install run when their flags are on (the client needs
    both of its flags), and the project initialization, the schema write and
    the schema format run when their flag is on and the schema file does not
    exist yet when the initialization step starts; the viewer is launched
    when its flag is on and the script is none of [dev:prepare],
    [postinstall] and [test]. *)
Theorem automatic_setup_never_prompts
    (opts : PrismaNuxt.options.t) (host : Host) (s : state) :
  PrismaNuxt.options.autoSetupPrisma opts = true →
  let t := does (PrismaNuxt.setupPrismaORM opts host) s in
  let s1 := after (PrismaNuxt.promptCli opts host) s in
  never is_prompt t
  ∧ (PrismaNuxt.force_skip_prisma_setup host = false →
     (PrismaNuxt.options.skipInstallations opts = false →
      (PrismaNuxt.options.installCli opts = true → occurs installs_cli t)
      ∧ (PrismaNuxt.options.runMigration opts = true → occurs migrates t)
      ∧ (PrismaNuxt.options.installClient opts = true
         ∧ PrismaNuxt.options.generateClient opts = true →
         occurs installs_client t)
      ∧ (fs_existsSync (st_fs s1) (schemaPath host) = false →
         (PrismaNuxt.options.initPrisma opts = true →
          occurs inits_project t)
         ∧ (PrismaNuxt.options.writeToSchema opts = true →
            occurs (writes_to (schemaPath host)) t)
         ∧ (PrismaNuxt.options.formatSchema opts = true →
            occurs formats_schema t)))
     ∧ (PrismaNuxt.studio_allowed host = true →
        PrismaNuxt.options.installStudio opts = true →
        occurs launches_studio t)).
Proof.
  intros Hauto t s1. split; [by apply automatic_never_prompts |].
  intros Hforce. subst t. unfold does at 1 2 3 4 5 6 7.
  rewrite (setupPrismaORM_run opts host s). cbv zeta. fold s1.
  rewrite Hforce. change (trace_of (?r, ?st, ?tr)) with tr.
  split.
  - intros Hskip. rewrite Hskip.
    rewrite (promptCli_automatic opts host Hauto).
    rewrite (promptRunMigration_automatic opts host Hauto).
    rewrite (promptGenerateClient_automatic opts host Hauto).
    split; [| split; [| split]].
    + intros H. apply Exists_cons_tl. rewrite !Exists_app.
      pick ltac:(by apply installCli_occurs).
    + intros H. apply Exists_cons_tl. rewrite !Exists_app.
      pick ltac:(by apply runMigration_occurs).
    + intros H. apply Exists_cons_tl. rewrite !Exists_app.
      pick ltac:(by apply generateClient_occurs).
    + intros Habsent.
      rewrite (promptInitPrisma_automatic opts host Hauto s1 Habsent).
      cbv zeta.
      split; [| split]; intros H; apply Exists_cons_tl;
        repeat (rewrite Exists_app || rewrite Exists_cons).
      * pick ltac:(by apply initPrisma_occurs).
      * pick ltac:(by apply writeToSchema_occurs).
      * pick ltac:(by apply formatSchema_occurs).
  - intros Hallowed Hstudio. rewrite Hallowed.
    apply Exists_cons_tl.
    rewrite (promptInstallStudio_automatic opts host Hauto).
    rewrite !Exists_app. pick ltac:(by apply installStudio_occurs).
Qed.

Lemma automatic_setup_never_prompts_witness :
  let opts := with_flags false true in
  let host := willing_host (Some "dev") in
  let t := does (PrismaNuxt.setupPrismaORM opts host) fresh_project in
  PrismaNuxt.options.autoSetupPrisma opts = true
  ∧ never is_prompt t
  ∧ every_enabled_step_runs opts host t.
Proof.
  intros opts host t. split; [reflexivity |].
  destruct (automatic_setup_never_prompts opts host fresh_project eq_refl)
    as (Hnever & Hsteps).
  destruct (Hsteps eq_refl) as (Hinst & Hstudio).
  destruct (Hinst eq_refl) as (Hcli & Hmig & Hclient & Hinit).
  destruct Hinit as (Hini & Hwrite & Hformat); [by vm_compute |].
  split; [exact Hnever |].
  unfold every_enabled_step_runs. repeat split; intros _.
  - by apply Hcli.
  - by apply Hini.
  - by apply Hwrite.
  - by apply Hformat.
  - by apply Hmig.
  - by apply Hclient.
  - by apply Hstudio.
Defined.

(** C2, as the specification states it, fails: in a project that already has
    its schema file the initialization is not run, with its flag on and in
    automatic mode. *)
Lemma automatic_setup_keeps_an_existing_schema :
  ¬ (∀ (opts : PrismaNuxt.options.t) (host : Host) (s : state),
       PrismaNuxt.options.autoSetupPrisma opts = true →
       never is_prompt (does (PrismaNuxt.setupPrismaORM opts host) s)
       ∧ every_enabled_step_runs opts host
           (does (PrismaNuxt.setupPrismaORM opts host) s)).
Proof.
  intros H.
  destruct (H (with_flags false true) (willing_host (Some "dev"))
              initialized_project eq_refl) as (_ & _ & Hinit & _).
  specialize (Hinit eq_refl). apply occurs_existsb in Hinit.
  by vm_compute in Hinit.
Qed.

(** ** The accessor file *)

(** X21. When [lib/prisma.ts] exists under the project root, which is where
    the step looks for it, the step does nothing at all: it returns at once,
    performs no action, and leaves the disk, and so the contents of that
    file, as they were. *)
Theorem accessor_in_the_project_root_is_kept
    (host : Host) (s : state) (data : list N) :
  files (st_fs s) !! accessorPath host = Some data →
  PrismaNuxt.writeClientPlugin host s = (Return tt, s, [])
  ∧ files (st_fs (after (PrismaNuxt.writeClientPlugin host) s))
      !! accessorPath host = Some data.
Proof.
  intros Hfile.
  assert (Hrun : PrismaNuxt.writeClientPlugin host s = (Return tt, s, [])).
  { unfold PrismaNuxt.writeClientPlugin. rewrite bind_existsSync.
    fold (accessorPath host). unfold fs_existsSync. rewrite Hfile.
    by rewrite bool_decide_eq_true_2 by eauto. }
  split; [done |]. unfold after. by rewrite Hrun.
Qed.

Lemma accessor_in_the_project_root_is_kept_witness :
  let host := willing_host (Some "dev") in
  files (st_fs project_with_accessor) !! accessorPath host
  = Some (lit "export {}")
  ∧ PrismaNuxt.writeClientPlugin host project_with_accessor
    = (Return tt, project_with_accessor, [])
  ∧ files (st_fs (after (PrismaNuxt.writeClientPlugin host)
                    project_with_accessor))
      !! accessorPath host = Some (lit "export {}").
Proof.
  intros host.
  assert (H : files (st_fs project_with_accessor) !! accessorPath host
              = Some (lit "export {}")) by by vm_compute.
  split; [exact H |].
  exact (accessor_in_the_project_root_is_kept host project_with_accessor _ H).
Defined.

(** The existence check resolves [lib/prisma.ts] against the project root,
    while the write resolves it against the working directory of the
    process.  The two are the same file when the process runs in the project
    root, the usual case. *)
Lemma accessor_paths_agree (host : Host) :
  processCwd host = rootDir host →
  resolveCwd host ["lib"; "prisma.ts"] = accessorPath host.
Proof. unfold resolveCwd, accessorPath, resolveProject. by intros ->. Qed.

(** In a project without the file, the step creates [lib] and writes the
    accessor module. *)
Example missing_accessor_is_written :
  let host := willing_host (Some "dev") in
  let run := PrismaNuxt.writeClientPlugin host fresh_project in
  outcome_of run = Return tt
  ∧ files (st_fs (state_of run)) !! accessorPath host
    = Some (lit PrismaNuxt.prismaClient)
  ∧ String.length PrismaNuxt.prismaClient = 287.
Proof. vm_compute. by repeat split. Qed.

(** Running the step again keeps the file of the first run. *)
Example rerun_keeps_the_accessor :
  let host := willing_host (Some "dev") in
  let s1 := after (PrismaNuxt.writeClientPlugin host) fresh_project in
  PrismaNuxt.writeClientPlugin host s1 = (Return tt, s1, []).
Proof. reflexivity. Qed.

(** ** The schema fragment *)

Lemma trimStart_spec (s : list N) :
  ∃ l, s = l ++ trimStart s
       ∧ Forall (λ c, isWhiteSpace c = true) l
       ∧ ∀ c, head (trimStart s) = Some c → isWhiteSpace c = false.
Proof.
  induction s as [|c s (l & Hs & Hl & Hh)]; simpl.
  - exists []. by repeat split.
  - destruct (isWhiteSpace c) eqn:Hc.
    + exists (c :: l).
      repeat split; [by rewrite Hs at 1 | by constructor | done].
    + exists []. repeat split; [constructor |]. simpl. congruence.
Qed.

Lemma last_rev_head {A} (l : list A) : last (rev l) = head l.
Proof. rewrite rev_alt. apply last_reverse. Qed.

Lemma trimEnd_spec (s : list N) :
  ∃ r, s = trimEnd s ++ r
       ∧ Forall (λ c, isWhiteSpace c = true) r
       ∧ ∀ c, last (trimEnd s) = Some c → isWhiteSpace c = false.
Proof.
  destruct (trimStart_spec (rev s)) as (l & Hs & Hl & Hh).
  exists (rev l). unfold trimEnd. repeat split.
  - by rewrite <- rev_app_distr, <- Hs, rev_involutive.
  - rewrite Forall_forall in Hl |- *. intros c Hc. apply Hl.
    apply list_elem_of_In. apply list_elem_of_In in Hc.
    by apply in_rev.
  - intros c Hc. apply Hh. by rewrite <- last_rev_head.
Qed.

(** [trim] keeps the text: it only removes white space at both ends. *)
Lemma trim_spec (s : list N) :
  ∃ l r, s = l ++ trim s ++ r
         ∧ Forall (λ c, isWhiteSpace c = true) l
         ∧ Forall (λ c, isWhiteSpace c = true) r
         ∧ (∀ c, head (trim s) = Some c → isWhiteSpace c = false)
         ∧ (∀ c, last (trim s) = Some c → isWhiteSpace c = false).
Proof.
  destruct (trimStart_spec s) as (l & Hs & Hl & Hh).
  destruct (trimEnd_spec (trimStart s)) as (r & Ht & Hr & Hlast).
  exists l, r. unfold trim. repeat split; try done.
  - by rewrite <- Ht.
  - intros c Hc. apply Hh. rewrite Ht.
    destruct (trimEnd (trimStart s)); [done | exact Hc].
Qed.




(** What the step does there: the read fails, the write fails, both are
    logged, and the disk is unchanged. *)
Example schema_write_in_a_fresh_project :
  PrismaNuxt.writeToSchema (with_flags false false)
    (willing_host (Some "dev")) fresh_project
  = (Return tt, fresh_project,
     [ReadFileSync ["app"; "prisma"; "schema.prisma"] false;
      Error "Error reading existing schema file";
      WriteFileSync ["app"; "prisma"; "schema.prisma"]
        (lit (nl +:+ nl) ++ lit PrismaNuxt.addModel) false;
      Error "Failed to write model to Prisma schema."]).
Proof. reflexivity. Qed.

(** ** The viewer panel *)

Lemma bind_prompts {B} host name message (k : option bool → M B) s :
  bind (prompts host name message) k s
  = (outcome_of (k (prompts_answer host name) s),
     after (k (prompts_answer host name)) s,
     Prompts name message (prompts_answer host name)
     :: does (k (prompts_answer host name)) s).
Proof.
  unfold bind, prompts, after, does.
  by destruct (k _ s) as [[? ?] ?].
Qed.

(** Launching the viewer changes neither the disk nor the hooks. *)
Lemma installStudio_state opts host s :
  after (PrismaNuxt.installStudio opts host) s = s.
Proof.
  unfold after, PrismaNuxt.installStudio. unfold_prims. by crush_run.
Qed.

Lemma callHook_snoc name s s' callback tabs :
  st_hooks s' = st_hooks s ++ [(name, callback)] →
  callHook name s' tabs = callback (callHook name s tabs).
Proof.
  intros H. unfold callHook. rewrite H, foldl_snoc. simpl.
  by rewrite String.eqb_refl.
Qed.

(** C9. Whenever the viewer step is confirmed, or runs in automatic mode, it
    registers one callback on the [devtools:customTabs] hook, and what that
    callback adds to the developer tools is one panel, an iframe whose
    source is [http://localhost:5555/]. *)
Theorem viewer_panel_points_to_studio
    (opts : PrismaNuxt.options.t) (host : Host) (s : state) :
  PrismaNuxt.options.autoSetupPrisma opts = true
  ∨ prompts_answer host "installStudio" = Some true →
  let s' := after (PrismaNuxt.promptInstallStudio opts host) s in
  st_fs s' = st_fs s
  ∧ st_hooks s'
    = st_hooks s ++ [("devtools:customTabs", PrismaNuxt.pushStudioTab)]
  ∧ (∀ tabs,
       callHook "devtools:customTabs" s' tabs
       = callHook "devtools:customTabs" s tabs ++ [PrismaNuxt.studioTab])
  ∧ view_type (tab_view PrismaNuxt.studioTab) = "iframe"
  ∧ view_src (tab_view PrismaNuxt.studioTab) = "http://localhost:5555/".
Proof.
  intros Hrun s'.
  assert (Hs' : s' = State (st_fs s)
                  (st_hooks s
                   ++ [("devtools:customTabs", PrismaNuxt.pushStudioTab)])).
  { subst s'. unfold PrismaNuxt.promptInstallStudio.
    destruct (PrismaNuxt.options.autoSetupPrisma opts) eqn:Hauto.
    - rewrite seq_state by apply installStudio_returns.
      by rewrite installStudio_state.
    - destruct Hrun as [? | Hyes]; [done |].
      unfold after at 1. rewrite bind_prompts, Hyes. simpl.
      assert (Htry :
        ∀ s0, try_catch (PrismaNuxt.installStudio opts host)
                (λ e, error (describe e)) s0
              = PrismaNuxt.installStudio opts host s0).
      { intros s0. unfold try_catch.
        destruct (installStudio_sound opts host s0)
          as ([] & s1 & t1 & -> & _). done. }
      rewrite seq_state by (rewrite Htry; apply installStudio_returns).
      unfold after at 2. rewrite Htry.
      fold (after (PrismaNuxt.installStudio opts host) s).
      by rewrite installStudio_state. }
  rewrite Hs'. simpl. repeat split.
  intros tabs.
  by rewrite (callHook_snoc _ s _ PrismaNuxt.pushStudioTab).
Qed.

Lemma viewer_panel_points_to_studio_witness :
  let opts := with_flags false false in
  let host := willing_host (Some "dev") in
  let s' := after (PrismaNuxt.promptInstallStudio opts host) fresh_project in
  prompts_answer host "installStudio" = Some true
  ∧ callHook "devtools:customTabs" s' [] = [PrismaNuxt.studioTab]
  ∧ view_src (tab_view PrismaNuxt.studioTab) = "http://localhost:5555/".
Proof.
  intros opts host s'. split; [reflexivity |].
  destruct (viewer_panel_points_to_studio opts host fresh_project
              (or_intror eq_refl)) as (_ & _ & Hcall & _ & Hsrc).
  split; [| exact Hsrc]. exact (Hcall []).
Defined.

(** When the viewer is declined, nothing is registered. *)
Lemma declined_viewer_registers_nothing opts host s :
  PrismaNuxt.options.autoSetupPrisma opts = false →
  prompts_answer host "installStudio" ≠ Some true →
  after (PrismaNuxt.promptInstallStudio opts host) s = s.
Proof.
  intros Hauto Hno. unfold PrismaNuxt.promptInstallStudio. rewrite Hauto.
  unfold after. rewrite bind_prompts.
  by rewrite bool_decide_eq_false_2.
Qed.

(** ** Governing flags *)

(** C6. A step whose governing flag is off performs no action: each of the
    eight gated functions then returns at once, with no command run, nothing
    written and the state untouched; and in a whole run, every gated action
    that occurs has its flag on. *)
Theorem disabled_step_does_nothing
    (opts : PrismaNuxt.options.t) (host : Host) (s : state) :
  (PrismaNuxt.options.installCli opts = false →
   PrismaNuxt.installCli opts host s = (Return tt, s, []))
  ∧ (PrismaNuxt.options.initPrisma opts = false →
     PrismaNuxt.initPrisma opts host s = (Return tt, s, []))
  ∧ (PrismaNuxt.options.writeToSchema opts = false →
     PrismaNuxt.writeToSchema opts host s = (Return tt, s, []))
  ∧ (PrismaNuxt.options.formatSchema opts = false →
     PrismaNuxt.formatSchema opts host s = (Return tt, s, []))
  ∧ (PrismaNuxt.options.runMigration opts = false →
     PrismaNuxt.runMigration opts host s = (Return tt, s, []))
  ∧ (PrismaNuxt.options.installClient opts = false →
     PrismaNuxt.generateClient opts host s = (Return tt, s, []))
  ∧ (PrismaNuxt.options.generateClient opts = false →
     PrismaNuxt.generateClient opts host s = (Return tt, s, []))
  ∧ (PrismaNuxt.options.installStudio opts = false →
     PrismaNuxt.installStudio opts host s = (Return tt, s, []))
  ∧ Forall (governed opts host)
      (does (PrismaNuxt.setupPrismaORM opts host) s).
Proof.
  repeat split;
    try (intros H;
         unfold PrismaNuxt.installCli, PrismaNuxt.initPrisma,
           PrismaNuxt.writeToSchema, PrismaNuxt.formatSchema,
           PrismaNuxt.runMigration, PrismaNuxt.generateClient,
           PrismaNuxt.installStudio;
         rewrite H, ?andb_false_r; reflexivity).
  destruct (tpost_does _ _ s (setupPrismaORM_sound opts host)) as [_ H].
  eapply Forall_impl; [exact H |]. by intros e [He _].
Qed.

Lemma disabled_step_does_nothing_witness :
  let host := willing_host (Some "dev") in
  PrismaNuxt.installCli all_off host fresh_project
  = (Return tt, fresh_project, [])
  ∧ PrismaNuxt.initPrisma all_off host fresh_project
    = (Return tt, fresh_project, [])
  ∧ PrismaNuxt.writeToSchema all_off host fresh_project
    = (Return tt, fresh_project, [])
  ∧ PrismaNuxt.formatSchema all_off host fresh_project
    = (Return tt, fresh_project, [])
  ∧ PrismaNuxt.runMigration all_off host fresh_project
    = (Return tt, fresh_project, [])
  ∧ PrismaNuxt.generateClient all_off host fresh_project
    = (Return tt, fresh_project, [])
  ∧ PrismaNuxt.installStudio all_off host fresh_project
    = (Return tt, fresh_project, []).
Proof.
  intros host.
  destruct (disabled_step_does_nothing all_off host fresh_project)
    as (H1 & H2 & H3 & H4 & H5 & H6 & _ & H8 & _).
  exact (conj (H1 eq_refl) (conj (H2 eq_refl) (conj (H3 eq_refl)
           (conj (H4 eq_refl) (conj (H5 eq_refl) (conj (H6 eq_refl)
              (H8 eq_refl))))))).
Defined.

(** With every flag off, an interactive run in which the user confirms
    everything still detects the CLI, asks, and registers the panel, but
    installs, writes and launches nothing beyond the accessor file. *)
Example all_flags_off :
  let t :=
    does (PrismaNuxt.setupPrismaORM all_off (willing_host (Some "dev")))
      fresh_project in
  filter (λ e, is_command e = true) t
  = [Execa "prisma" ["version"] ["app"] true]
  ∧ steps t = [1; 2; 5; 6; 7; 7; 8; 8].
Proof. vm_compute. by split. Qed.

(** ** The client step *)

(** C10. Installing and generating the client are one step behind the
    conjunction of two flags: in every run, a client command ([npm install
    @prisma/client] or [npx prisma generate]) occurs only if [installClient]
    and [generateClient] are both on, and with either of them off the step
    returns at once without running anything. *)
Theorem client_step_needs_both_flags
    (opts : PrismaNuxt.options.t) (host : Host) (s : state) :
  Forall (λ e, is_client_command e = true →
               PrismaNuxt.options.installClient opts = true
               ∧ PrismaNuxt.options.generateClient opts = true)
    (does (PrismaNuxt.setupPrismaORM opts host) s)
  ∧ (PrismaNuxt.options.installClient opts = false
     ∨ PrismaNuxt.options.generateClient opts = false →
     PrismaNuxt.generateClient opts host s = (Return tt, s, [])
     ∧ never is_client_command
         (does (PrismaNuxt.setupPrismaORM opts host) s)).
Proof.
  assert (Hall :
    Forall (λ e, is_client_command e = true →
                 PrismaNuxt.options.installClient opts = true
                 ∧ PrismaNuxt.options.generateClient opts = true)
      (does (PrismaNuxt.setupPrismaORM opts host) s)).
  { destruct (tpost_does _ _ s (setupPrismaORM_sound opts host)) as [_ H].
    eapply Forall_impl; [exact H |].
    intros e [(_ & _ & _ & _ & _ & He & _) _] Hc. apply He.
    unfold is_client_command in Hc. apply orb_true_iff in Hc.
    destruct Hc as [Hc | Hc]; rewrite Hc; auto. }
  split; [exact Hall |]. intros Hoff. split.
  - unfold PrismaNuxt.generateClient.
    destruct Hoff as [-> | ->]; by rewrite ?andb_false_r.
  - eapply Forall_impl; [exact Hall |]. simpl. intros e He.
    destruct (is_client_command e); [| done].
    destruct (He eq_refl) as [H1 H2]. destruct Hoff; congruence.
Qed.

Lemma client_step_needs_both_flags_witness :
  let opts :=
    PrismaNuxt.options.Build None [] "colorless" true true true true true
      true false true false true in
  let host := willing_host (Some "dev") in
  PrismaNuxt.options.generateClient opts = false
  ∧ PrismaNuxt.generateClient opts host fresh_project
    = (Return tt, fresh_project, [])
  ∧ never is_client_command
      (does (PrismaNuxt.setupPrismaORM opts host) fresh_project).
Proof.
  intros opts host. split; [reflexivity |].
  destruct (client_step_needs_both_flags opts host fresh_project) as [_ H].
  apply H. right. reflexivity.
Defined.

(** ** Detecting and installing the CLI *)

(** C8, as the code has it. In interactive mode the CLI step starts by
    running [prisma version], and the install command runs exactly when that
    detection failed, the user confirmed the prompt and [installCli] is on;
    in particular it never runs when the CLI is there.  In automatic mode
    the step does not detect anything: the install command runs exactly when
    [installCli] is on, installed CLI or not. *)
Theorem cli_install_follows_detection_or_automation
    (opts : PrismaNuxt.options.t) (host : Host) (s : state) :
  let t := does (PrismaNuxt.promptCli opts host) s in
  if PrismaNuxt.options.autoSetupPrisma opts then
    never detects_cli t
    ∧ (occurs installs_cli t ↔ PrismaNuxt.options.installCli opts = true)
  else
    head t = Some (Execa "prisma" ["version"] (resolveProject host [])
                     (cli_present host s))
    ∧ never detects_cli (tail t)
    ∧ (occurs installs_cli t ↔
       cli_present host s = false
       ∧ prompts_answer host "installPrisma" = Some true
       ∧ PrismaNuxt.options.installCli opts = true).
Proof.
  cbv zeta. unfold does, cli_present.
  unfold PrismaNuxt.promptCli, PrismaNuxt.installCli, PrismaNuxt.detectCli.
  unfold_prims.
  destruct (PrismaNuxt.options.autoSetupPrisma opts);
    destruct (PrismaNuxt.options.installCli opts);
    crush_run; simplify_eq/=;
    rewrite ?occurs_existsb, ?never_forallb;
    repeat match goal with
    | H : bool_decide _ = true |- _ => apply bool_decide_eq_true in H
    | H : bool_decide _ = false |- _ => apply bool_decide_eq_false in H
    end;
    repeat split; try done; try (by vm_compute); intros; simplify_eq/=;
    try (destruct_and?; done).
Qed.

(** C8, as the specification states it, fails: in automatic mode, on a host
    where the CLI is installed, the step runs no detection and installs the
    CLI all the same. *)
Lemma automatic_install_skips_detection :
  ¬ (∀ (opts : PrismaNuxt.options.t) (host : Host) (s : state),
       detection_guards_install opts host s).
Proof.
  intros H.
  destruct (H (with_flags false true) (willing_host (Some "dev"))
              fresh_project) as (_ & _ & Hnever).
  specialize (Hnever eq_refl). apply never_forallb in Hnever.
  by vm_compute in Hnever.
Qed.

Example automatic_cli_step :
  does (PrismaNuxt.promptCli (with_flags false true)
          (willing_host (Some "dev"))) fresh_project
  = [Execa "npm" ["install"; "prisma"; "--save-dev"] ["app"] true;
     Success "Prisma CLI successfully installed."].
Proof. reflexivity. Qed.

(** * The early module *)

Section Early.
Variable opts : NuxtPrisma.options.t.
Variable host : Host.
Import NuxtPrisma.

Lemma detectCli_logged_early : tpost (detectCli host) logged.
Proof. unfold detectCli. leaf; done. Qed.

Lemma installCli_logged_early : tpost (installCli opts host) logged.
Proof. unfold installCli. leaf; done. Qed.

Lemma initPrisma_logged_early : tpost (initPrisma opts host) logged.
Proof. unfold initPrisma. leaf; done. Qed.

Lemma writeToSchema_logged_early : tpost (writeToSchema opts host) logged.
Proof. unfold writeToSchema. leaf; done. Qed.

Lemma formatSchema_logged_early : tpost (formatSchema opts host) logged.
Proof. unfold formatSchema. leaf; done. Qed.

Lemma generateClient_logged_early : tpost (generateClient opts host) logged.
Proof. unfold generateClient. leaf; done. Qed.

Lemma installStudio_logged_early : tpost (installStudio opts host) logged.
Proof. unfold installStudio. leaf; done. Qed.

Hint Resolve detectCli_logged_early installCli_logged_early
  initPrisma_logged_early writeToSchema_logged_early
  formatSchema_logged_early generateClient_logged_early
  installStudio_logged_early : steps.

Lemma promptCli_logged_early : tpost (promptCli opts host) logged.
Proof. unfold promptCli. tpost_auto; done. Qed.

Lemma promptInitPrisma_logged_early : tpost (promptInitPrisma opts host) logged.
Proof. unfold promptInitPrisma. tpost_auto; done. Qed.

Lemma promptGenerateClient_logged_early :
  tpost (promptGenerateClient opts host) logged.
Proof. unfold promptGenerateClient. tpost_auto; done. Qed.

Lemma promptInstallStudio_logged_early :
  tpost (promptInstallStudio opts host) logged.
Proof. unfold promptInstallStudio. tpost_auto; done. Qed.

Hint Resolve promptCli_logged_early promptInitPrisma_logged_early
  promptGenerateClient_logged_early promptInstallStudio_logged_early : steps.

(** The early pipeline always completes too, with what it caught logged. *)
Lemma setupPrismaORM_logged_early : tpost (setupPrismaORM opts host) logged.
Proof. unfold setupPrismaORM. tpost_auto; done. Qed.

Lemma detectCli_step_early : tpost (detectCli host) (within 1 1).
Proof. unfold detectCli. leaf; within_trace. Qed.

Lemma installCli_step_early : tpost (installCli opts host) (within 1 1).
Proof. unfold installCli. leaf; within_trace. Qed.

Lemma initPrisma_step_early : tpost (initPrisma opts host) (within 2 2).
Proof. unfold initPrisma. leaf; within_trace. Qed.

Lemma writeToSchema_step_early : tpost (writeToSchema opts host) (within 3 3).
Proof. unfold writeToSchema. leaf; within_trace. Qed.

Lemma formatSchema_step_early : tpost (formatSchema opts host) (within 4 4).
Proof. unfold formatSchema. leaf; within_trace. Qed.

Lemma generateClient_step_early :
  tpost (generateClient opts host) (within 6 6).
Proof. unfold generateClient. leaf; within_trace. Qed.

Lemma installStudio_step_early : tpost (installStudio opts host) (within 8 8).
Proof. unfold installStudio. leaf; within_trace. Qed.

Hint Resolve detectCli_step_early installCli_step_early initPrisma_step_early
  writeToSchema_step_early formatSchema_step_early generateClient_step_early
  installStudio_step_early : steps.

Lemma promptCli_step_early : tpost (promptCli opts host) (within 1 1).
Proof. unfold promptCli. tpost_auto; within_trace. Qed.

Lemma initialize_step_early :
  tpost (initPrisma opts host ;;; writeToSchema opts host ;;;
         formatSchema opts host) (within 2 4).
Proof.
  apply (tpost_seq_within 2 3);
    [lia | lia | lia | apply initPrisma_step_early |].
  intros _.
  apply (tpost_seq_within 3 4);
    [lia | lia | lia | apply writeToSchema_step_early | intros _].
  apply formatSchema_step_early.
Qed.

Lemma promptInitPrisma_step_early :
  tpost (promptInitPrisma opts host) (within 2 4).
Proof.
  unfold promptInitPrisma.
  apply (tpost_seq_within 2 2); [lia | lia | lia | tpost_auto |].
  intros schemaExists.
  apply (tpost_seq_within 2 2); [lia | lia | lia | |].
  { destruct schemaExists; tpost_auto; within_trace. }
  intros _. destruct (negb schemaExists); [| apply tpost_ret, within_nil].
  apply (tpost_seq_within 2 2);
    [lia | lia | lia | tpost_auto; within_trace |].
  intros response. destruct (bool_decide (response = Some true)).
  - apply initialize_step_early.
  - tpost_auto; within_trace.
Qed.

Lemma promptGenerateClient_step_early :
  tpost (promptGenerateClient opts host) (within 6 6).
Proof. unfold promptGenerateClient. tpost_auto; within_trace. Qed.

Lemma promptInstallStudio_step_early :
  tpost (promptInstallStudio opts host) (within 8 8).
Proof. unfold promptInstallStudio. tpost_auto; within_trace. Qed.

(** The early pipeline runs its steps in the same order, without the
    migration and the accessor file. *)
Lemma setupPrismaORM_step_early : tpost (setupPrismaORM opts host) (within 1 8).
Proof.
  unfold setupPrismaORM.
  apply (tpost_seq_within 1 1); [lia | lia | lia | tpost_auto; within_trace |].
  intros _.
  apply (tpost_seq_within 1 2);
    [lia | lia | lia | apply promptCli_step_early |].
  intros _.
  apply (tpost_seq_within 4 6);
    [lia | lia | lia | apply promptInitPrisma_step_early |].
  intros _.
  apply (tpost_seq_within 6 8);
    [lia | lia | lia | apply promptGenerateClient_step_early |].
  intros _. apply promptInstallStudio_step_early.
Qed.
End Early.

(** X17. The early CLI step always detects first: there the install command
    runs only after a failed detection and a confirmed prompt. *)
Lemma early_cli_step_detects_first
    (opts : NuxtPrisma.options.t) (host : Host) (s : state) :
  let t := does (NuxtPrisma.promptCli opts host) s in
  head t = Some (Execa "prisma" ["version"] (resolveProject host [])
                   (cli_present host s))
  ∧ never detects_cli (tail t)
  ∧ (occurs installs_cli t ↔
     cli_present host s = false
     ∧ prompts_answer host "installPrisma" = Some true
     ∧ NuxtPrisma.options.installCli opts = true).
Proof.
  cbv zeta. unfold does, cli_present.
  unfold NuxtPrisma.promptCli, NuxtPrisma.installCli, NuxtPrisma.detectCli.
  unfold_prims.
  destruct (NuxtPrisma.options.installCli opts);
    crush_run; simplify_eq/=;
    rewrite ?occurs_existsb, ?never_forallb;
    repeat match goal with
    | H : bool_decide _ = true |- _ => apply bool_decide_eq_true in H
    | H : bool_decide _ = false |- _ => apply bool_decide_eq_false in H
    | H : negb _ = _ |- _ => simpl in H
    end;
    repeat split; try done; try (by vm_compute); intros; simplify_eq/=;
    try (destruct_and?; done).
Qed.


(** The early client step is behind the same conjunction of flags. *)
Lemma early_client_step_is_gated
    (opts : NuxtPrisma.options.t) (host : Host) (s : state) :
  NuxtPrisma.options.installClient opts = false
  ∨ NuxtPrisma.options.generateClient opts = false →
  NuxtPrisma.generateClient opts host s = (Return tt, s, []).
Proof.
  intros Hoff. unfold NuxtPrisma.generateClient.
  destruct Hoff as [-> | ->]; by rewrite ?andb_false_r.
Qed.

Lemma installStudio_state_early opts host s :
  after (NuxtPrisma.installStudio opts host) s = s.
Proof.
  unfold after, NuxtPrisma.installStudio. unfold_prims. by crush_run.
Qed.

(** X18. The early viewer step, once confirmed, registers a panel whose
    source is the viewer's local address. *)
Lemma early_viewer_panel_source
    (opts : NuxtPrisma.options.t) (host : Host) (s : state) :
  prompts_answer host "installStudio" = Some true →
  let s' := after (NuxtPrisma.promptInstallStudio opts host) s in
  (∀ tabs,
     callHook "devtools:customTabs" s' tabs
     = callHook "devtools:customTabs" s tabs ++ [NuxtPrisma.studioTab])
  ∧ view_src (tab_view NuxtPrisma.studioTab) = "http://localhost:5555/".
Proof.
  intros Hyes s'. split; [| done]. intros tabs.
  apply (callHook_snoc _ s s' (λ items, items ++ [NuxtPrisma.studioTab])).
  subst s'. unfold NuxtPrisma.promptInstallStudio.
  unfold after at 1. rewrite bind_prompts, Hyes. simpl.
  assert (Htry :
    ∀ s0, try_catch (NuxtPrisma.installStudio opts host)
            (λ e, error (describe e)) s0
          = NuxtPrisma.installStudio opts host s0).
  { intros s0. unfold try_catch.
    destruct (installStudio_logged_early opts host s0)
      as ([] & s1 & t1 & -> & _). done. }
  rewrite seq_state
    by (rewrite Htry; eapply tpost_returns, installStudio_logged_early).
  unfold after at 2. rewrite Htry.
  fold (after (NuxtPrisma.installStudio opts host) s).
  by rewrite installStudio_state_early.
Qed.

(** * Further properties of the current module *)

(** ** Prompts gate their actions *)

Lemma tpost_bind_prompts {B} host name message (k : option bool → M B)
    Q `{!Monoidal Q} :
  Q [Prompts name message (prompts_answer host name)] →
  tpost (k (prompts_answer host name)) Q →
  tpost (bind (prompts host name message) k) Q.
Proof.
  intros He Hk s. rewrite bind_prompts.
  destruct (Hk s) as (b & s' & t & Heq & HQ).
  exists b, s', (Prompts name message (prompts_answer host name) :: t).
  unfold outcome_of, after, does. rewrite Heq. simpl. split; [done |].
  by apply (monoidal_app [_] t).
Qed.

(** As [tpost_step], but the continuation of a prompt is run on the answer
    the host gives. *)
Ltac answer_step :=
  lazymatch goal with
  | |- tpost (bind (prompts _ _ _) _) _ =>
      apply tpost_bind_prompts; [apply _ | |]
  | |- _ => tpost_step
  end.

Ltac answer_auto := repeat answer_step.

Lemma approved_automatic opts host name :
  PrismaNuxt.options.autoSetupPrisma opts = true →
  approved opts host name = true.
Proof. unfold approved. by intros ->. Qed.

Lemma approved_confirmed opts host name :
  bool_decide (prompts_answer host name = Some true) = true →
  approved opts host name = true.
Proof. unfold approved, confirmed. intros ->. apply orb_true_r. Qed.

Lemma gate_of_schema_write host data ok :
  gate_of host (WriteFileSync (resolveProject host ["prisma"; "schema.prisma"])
                  data ok) = Some "initPrisma".
Proof.
  unfold gate_of, schemaPath. simpl. by rewrite bool_decide_eq_true_2.
Qed.

Lemma gate_of_accessor_write host data ok :
  gate_of host (WriteFileSync (resolveCwd host ["lib"; "prisma.ts"]) data ok)
  = None.
Proof.
  unfold gate_of, schemaPath. simpl.
  rewrite bool_decide_eq_false_2; [done |].
  intros H. by apply (accessor_not_schema host data ok), bool_decide_pack.
Qed.

Ltac gated_event :=
  let name := fresh "name" in
  let Hg := fresh "Hg" in
  intros name Hg;
  first [ rewrite gate_of_schema_write in Hg
        | rewrite gate_of_accessor_write in Hg
        | vm_compute in Hg ];
  simplify_eq; assumption.

Ltac gated_trace := repeat (constructor; [gated_event |]); constructor.

Section Gating.
Variable opts : PrismaNuxt.options.t.
Variable host : Host.
Import PrismaNuxt.

Let gated := Forall (prompt_gated opts host).

Lemma installCli_gated :
  approved opts host "installPrisma" = true →
  tpost (installCli opts host) gated.
Proof. intros Ha. unfold installCli. leaf; gated_trace. Qed.

Lemma initPrisma_gated :
  approved opts host "initPrisma" = true →
  tpost (initPrisma opts host) gated.
Proof. intros Ha. unfold initPrisma. leaf; gated_trace. Qed.

Lemma writeToSchema_gated :
  approved opts host "initPrisma" = true →
  tpost (writeToSchema opts host) gated.
Proof. intros Ha. unfold writeToSchema. leaf; gated_trace. Qed.

Lemma formatSchema_gated :
  approved opts host "initPrisma" = true →
  tpost (formatSchema opts host) gated.
Proof. intros Ha. unfold formatSchema. leaf; gated_trace. Qed.

Lemma runMigration_gated :
  approved opts host "runMigration" = true →
  tpost (runMigration opts host) gated.
Proof. intros Ha. unfold runMigration. leaf; gated_trace. Qed.

Lemma generateClient_gated :
  approved opts host "generateClient" = true →
  tpost (generateClient opts host) gated.
Proof. intros Ha. unfold generateClient. leaf; gated_trace. Qed.

Lemma installStudio_gated :
  approved opts host "installStudio" = true →
  tpost (installStudio opts host) gated.
Proof. intros Ha. unfold installStudio. leaf; gated_trace. Qed.

Lemma writeClientPlugin_gated : tpost (writeClientPlugin host) gated.
Proof. unfold writeClientPlugin. leaf; gated_trace. Qed.

Hint Resolve installCli_gated initPrisma_gated writeToSchema_gated
  formatSchema_gated runMigration_gated generateClient_gated
  installStudio_gated writeClientPlugin_gated approved_automatic
  approved_confirmed : steps.

Lemma promptCli_gated : tpost (promptCli opts host) gated.
Proof. unfold promptCli. answer_auto; gated_trace. Qed.

Lemma promptInitPrisma_gated : tpost (promptInitPrisma opts host) gated.
Proof. unfold promptInitPrisma. answer_auto; gated_trace. Qed.

Lemma promptRunMigration_gated : tpost (promptRunMigration opts host) gated.
Proof. unfold promptRunMigration. answer_auto; gated_trace. Qed.

Lemma promptGenerateClient_gated :
  tpost (promptGenerateClient opts host) gated.
Proof. unfold promptGenerateClient. answer_auto; gated_trace. Qed.

Lemma promptInstallStudio_gated :
  tpost (promptInstallStudio opts host) gated.
Proof. unfold promptInstallStudio. answer_auto; gated_trace. Qed.

Hint Resolve promptCli_gated promptInitPrisma_gated promptRunMigration_gated
  promptGenerateClient_gated promptInstallStudio_gated : steps.

Lemma setupPrismaORM_gated : tpost (setupPrismaORM opts host) gated.
Proof. unfold setupPrismaORM. answer_auto; gated_trace. Qed.
End Gating.

(** ** Where the module acts, and what generation depends on *)

Lemma generate_follows_install_weaken prev t :
  generate_follows_install None t = true →
  generate_follows_install prev t = true.
Proof.
  destruct t as [|e t]; [done |]. simpl.
  by destruct (generates_client e).
Qed.

Lemma generate_follows_install_app prev t1 t2 :
  generate_follows_install prev t1 = true →
  generate_follows_install None t2 = true →
  generate_follows_install prev (t1 ++ t2) = true.
Proof.
  revert prev. induction t1 as [|e t1 IH]; intros prev H1 H2; simpl in *.
  - by apply generate_follows_install_weaken.
  - apply andb_true_iff in H1 as [He H1].
    apply andb_true_iff. split; [done |]. by apply IH.
Qed.

#[global] Instance orderly_monoidal host : Monoidal (orderly host).
Proof.
  split; [by repeat split |].
  intros t1 t2 (? & ? & ?) (? & ? & ?). repeat split.
  - by apply Forall_app.
  - by apply Forall_app.
  - by apply generate_follows_install_app.
Qed.

Ltac accounted_event :=
  first
    [ let H := fresh in intros H; by vm_compute in H
    | intros _;
      first [ left; by vm_compute | right; vm_compute; by eexists ] ].

Ltac orderly_trace :=
  split; [| split];
  [ repeat (constructor; [simpl; first [done | by left | by right] |]);
    constructor
  | repeat (constructor; [accounted_event |]); constructor
  | by vm_compute ].

Section Orderly.
Variable opts : PrismaNuxt.options.t.
Variable host : Host.
Import PrismaNuxt.

Lemma installCli_orderly : tpost (installCli opts host) (orderly host).
Proof. unfold installCli. leaf; orderly_trace. Qed.

Lemma initPrisma_orderly : tpost (initPrisma opts host) (orderly host).
Proof. unfold initPrisma. leaf; orderly_trace. Qed.

Lemma writeToSchema_orderly : tpost (writeToSchema opts host) (orderly host).
Proof. unfold writeToSchema. leaf; orderly_trace. Qed.

Lemma formatSchema_orderly : tpost (formatSchema opts host) (orderly host).
Proof. unfold formatSchema. leaf; orderly_trace. Qed.

Lemma runMigration_orderly : tpost (runMigration opts host) (orderly host).
Proof. unfold runMigration. leaf; orderly_trace. Qed.

Lemma generateClient_orderly :
  tpost (generateClient opts host) (orderly host).
Proof. unfold generateClient. leaf; orderly_trace. Qed.

Lemma installStudio_orderly : tpost (installStudio opts host) (orderly host).
Proof. unfold installStudio. leaf; orderly_trace. Qed.

Lemma writeClientPlugin_orderly :
  tpost (writeClientPlugin host) (orderly host).
Proof. unfold writeClientPlugin. leaf; orderly_trace. Qed.

Hint Resolve installCli_orderly initPrisma_orderly writeToSchema_orderly
  formatSchema_orderly runMigration_orderly generateClient_orderly
  installStudio_orderly writeClientPlugin_orderly : steps.

Lemma promptCli_orderly : tpost (promptCli opts host) (orderly host).
Proof. unfold promptCli. tpost_auto; orderly_trace. Qed.

Lemma promptInitPrisma_orderly :
  tpost (promptInitPrisma opts host) (orderly host).
Proof. unfold promptInitPrisma. tpost_auto; orderly_trace. Qed.

Lemma promptRunMigration_orderly :
  tpost (promptRunMigration opts host) (orderly host).
Proof. unfold promptRunMigration. tpost_auto; orderly_trace. Qed.

Lemma promptGenerateClient_orderly :
  tpost (promptGenerateClient opts host) (orderly host).
Proof. unfold promptGenerateClient. tpost_auto; orderly_trace. Qed.

Lemma promptInstallStudio_orderly :
  tpost (promptInstallStudio opts host) (orderly host).
Proof. unfold promptInstallStudio. tpost_auto; orderly_trace. Qed.

Hint Resolve promptCli_orderly promptInitPrisma_orderly
  promptRunMigration_orderly promptGenerateClient_orderly
  promptInstallStudio_orderly : steps.

Lemma setupPrismaORM_orderly : tpost (setupPrismaORM opts host) (orderly host).
Proof. unfold setupPrismaORM. tpost_auto; orderly_trace. Qed.
End Orderly.

(** X1. In every run, an action that stands behind a prompt (the CLI
    install, the project initialization with the schema write and format,
    the migration, the client commands, the viewer launch) occurs only if
    the module runs in automatic mode or the user confirmed that prompt. *)
Theorem prompted_actions_need_approval
    (opts : PrismaNuxt.options.t) (host : Host) (s : state) :
  Forall (prompt_gated opts host)
    (does (PrismaNuxt.setupPrismaORM opts host) s).
Proof. apply (tpost_does _ _ s (setupPrismaORM_gated opts host)). Qed.

(** X2. In interactive mode, when the user confirms no prompt, the only
    command a run executes is the detection [prisma version], and the only
    file it writes is the accessor file [lib/prisma.ts], which stands behind
    no prompt. *)
Theorem declined_run_only_detects
    (opts : PrismaNuxt.options.t) (host : Host) (s : state) :
  PrismaNuxt.options.autoSetupPrisma opts = false →
  (∀ name, prompts_answer host name ≠ Some true) →
  Forall (λ e, (is_command e = true → detects_cli e = true)
               ∧ ∀ p data ok, e = WriteFileSync p data ok →
                              p = resolveCwd host ["lib"; "prisma.ts"])
    (does (PrismaNuxt.setupPrismaORM opts host) s).
Proof.
  intros Hauto Hno.
  assert (Hnot : ∀ name, approved opts host name = false).
  { intros name. unfold approved, confirmed. rewrite Hauto. simpl.
    by apply bool_decide_eq_false_2. }
  pose proof (tpost_does _ _ s (setupPrismaORM_gated opts host)) as Hg.
  destruct (tpost_does _ _ s (setupPrismaORM_orderly opts host))
    as (Hc & Ha & _).
  rewrite Forall_forall in Hg, Hc, Ha. apply Forall_forall.
  intros e He. split.
  - intros Hcmd. destruct (Ha e He Hcmd) as [Hd | [name Hname]]; [done |].
    specialize (Hg e He name Hname). by rewrite Hnot in Hg.
  - intros p data ok ->. destruct (Hc _ He) as [-> | ->]; [| done].
    specialize (Hg _ He _ (gate_of_schema_write host data ok)).
    by rewrite Hnot in Hg.
Qed.

Lemma declined_run_only_detects_witness :
  let opts := with_flags false false in
  PrismaNuxt.options.autoSetupPrisma opts = false
  ∧ Forall (λ e, (is_command e = true → detects_cli e = true)
                 ∧ ∀ p data ok, e = WriteFileSync p data ok →
                                p = resolveCwd declining_host
                                      ["lib"; "prisma.ts"])
      (does (PrismaNuxt.setupPrismaORM opts declining_host) fresh_project).
Proof.
  intros opts. split; [reflexivity |].
  apply (declined_run_only_detects opts declining_host fresh_project);
    [reflexivity | intros name; discriminate].
Defined.

(** What such a run does: it detects, asks four times, and writes the
    accessor file. *)
Example declined_run :
  let t :=
    does (PrismaNuxt.setupPrismaORM (with_flags false false) declining_host)
      fresh_project in
  filter (λ e, is_command e = true) t
  = [Execa "prisma" ["version"] ["app"] true]
  ∧ omap (λ e, match e with Prompts n _ _ => Some n | _ => None end) t
    = ["initPrisma"; "runMigration"; "generateClient"; "installStudio"]
  ∧ filter (λ e, is_write e = true) t
    = [MkdirSync ["app"; "lib"] true;
       WriteFileSync ["app"; "lib"; "prisma.ts"]
         (lit PrismaNuxt.prismaClient) true].
Proof. vm_compute. by repeat split. Qed.

(** X3. The module acts in known places only: in every run each command is
    started in the project root, the only file read is the schema file, and
    the only paths written are the schema file, the directory [lib] and the
    file [lib/prisma.ts] under the working directory of the process. *)
Theorem module_acts_in_known_places
    (opts : PrismaNuxt.options.t) (host : Host) (s : state) :
  Forall (confined host) (does (PrismaNuxt.setupPrismaORM opts host) s).
Proof.
  by destruct (tpost_does _ _ s (setupPrismaORM_orderly opts host))
    as (Hc & _ & _).
Qed.

Lemma generate_follows_install_spec prev t i e :
  generate_follows_install prev t = true →
  t !! i = Some e → generates_client e = true →
  ∃ e0, client_installed e0 = true
        ∧ match i with
          | O => prev = Some e0
          | S j => t !! j = Some e0
          end.
Proof.
  revert prev i. induction t as [|e' t IH]; intros prev i Ht Hi He; [done |].
  simpl in Ht. apply andb_true_iff in Ht as [Hhd Htl].
  destruct i as [|i]; simpl in *.
  - injection Hi as ->. rewrite He in Hhd.
    destruct prev as [e0 |]; [| done]. by exists e0.
  - destruct (IH _ _ Htl Hi He) as (e0 & H0 & Hprev). exists e0.
    split; [done |]. destruct i; [by injection Hprev as -> | done].
Qed.

(** X4. In every run, [npx prisma generate] is only ever executed right
    after an [npm install @prisma/client] that succeeded: a failed client
    install is never followed by a generation. *)
Theorem generation_follows_a_successful_install
    (opts : PrismaNuxt.options.t) (host : Host) (s : state)
    (i : nat) (e : event) :
  does (PrismaNuxt.setupPrismaORM opts host) s !! i = Some e →
  generates_client e = true →
  ∃ j cwd,
    i = S j
    ∧ does (PrismaNuxt.setupPrismaORM opts host) s !! j
      = Some (Execa "npm" ["install"; "@prisma/client"] cwd true).
Proof.
  intros Hi He.
  destruct (tpost_does _ _ s (setupPrismaORM_orderly opts host))
    as (_ & _ & Hg).
  destruct (generate_follows_install_spec _ _ _ _ Hg Hi He)
    as (e0 & H0 & Hprev).
  destruct i as [|j]; [done |]. exists j.
  destruct e0 as [file args cwd ok | | | | | | | | |]; try done.
  simpl in H0. apply andb_true_iff in H0 as [Hcmd ->].
  unfold installs_client, runs in Hcmd.
  apply andb_true_iff in Hcmd as [Hf Hargs].
  apply bool_decide_eq_true in Hf, Hargs. subst. by exists cwd.
Qed.

Lemma generation_follows_a_successful_install_witness :
  let opts := with_flags false false in
  let host := willing_host (Some "dev") in
  let t := does (PrismaNuxt.setupPrismaORM opts host) fresh_project in
  t !! 15 = Some (Execa "npx" ["prisma"; "generate"] ["app"] true)
  ∧ ∃ j cwd,
      15 = S j
      ∧ t !! j = Some (Execa "npm" ["install"; "@prisma/client"] cwd true).
Proof.
  intros opts host t. split; [reflexivity |].
  apply (generation_follows_a_successful_install opts host fresh_project 15
           (Execa "npx" ["prisma"; "generate"] ["app"] true));
    reflexivity.
Defined.

(** ** Skipping the whole setup *)

(** X5. When [SKIP_PRISMA_SETUP] holds any non-empty value, or the script
    being run is [test], the pipeline announces itself, logs that it skips
    the setup and does nothing else: no prompt, no command, no write, and
    the state is left as it was, whatever the options say. *)
Theorem forced_skip_does_nothing
    (opts : PrismaNuxt.options.t) (host : Host) (s : state) :
  (∃ c v, SKIP_PRISMA_SETUP host = Some (String c v))
  ∨ npm_lifecycle_event host = Some "test" →
  PrismaNuxt.setupPrismaORM opts host s
  = (Return tt, s,
     [ConsoleLog "Setting up Prisma ORM..";
      Error "Skipping Prisma ORM setup."]).
Proof.
  intros Hskip.
  assert (Hforce : PrismaNuxt.force_skip_prisma_setup host = true).
  { unfold PrismaNuxt.force_skip_prisma_setup.
    destruct Hskip as [(c & v & ->) | ->]; [done |]. apply orb_true_r. }
  pose proof (setupPrismaORM_run opts host s) as Hrun. cbv zeta in Hrun.
  by rewrite Hforce in Hrun.
Qed.

Lemma forced_skip_does_nothing_witness :
  let host :=
    {| rootDir := ["app"]; processCwd := ["app"];
       npm_lifecycle_event := Some "dev";
       SKIP_PRISMA_SETUP := Some "false";
       execa_result := tools_work;
       spawn_result := λ _ _ _, ChildRunning;
       prompts_answer := λ _, Some true |} in
  PrismaNuxt.setupPrismaORM (with_flags false true) host fresh_project
  = (Return tt, fresh_project,
     [ConsoleLog "Setting up Prisma ORM..";
      Error "Skipping Prisma ORM setup."]).
Proof.
  intros host.
  apply (forced_skip_does_nothing (with_flags false true) host fresh_project).
  left. by eexists _, _.
Defined.

(** ** An existing schema *)

Lemma within_bounds lo hi t e k :
  within lo hi t → e ∈ t → step_of e = Some k → (lo ≤ k ≤ hi)%nat.
Proof.
  intros [Hasc Hle] He Hk.
  apply ascending_from_sorted in Hasc as [_ Hge].
  assert (Hin : k ∈ steps t).
  { unfold steps. apply list_elem_of_omap. eauto. }
  rewrite Forall_forall in Hge, Hle. split; eauto.
Qed.

Lemma runs_inv file args e :
  runs file args e = true → ∃ cwd ok, e = Execa file args cwd ok.
Proof.
  destruct e; try done. simpl. intros H.
  apply andb_true_iff in H as [Hf Ha].
  apply bool_decide_eq_true in Hf, Ha. subst. eauto.
Qed.

Lemma writes_to_inv p e :
  writes_to p e = true → ∃ data ok, e = WriteFileSync p data ok.
Proof.
  destruct e; try done. simpl. intros H%bool_decide_eq_true. subst. eauto.
Qed.

(** The three actions on the project files belong to steps 2 to 4. *)
Lemma initializes_step host e :
  initializes host e = true → ∃ k, step_of e = Some k ∧ (2 ≤ k ≤ 4)%nat.
Proof.
  unfold initializes. intros H.
  apply orb_true_iff in H as [H | H]; [apply orb_true_iff in H as [H | H] |].
  - apply runs_inv in H as (cwd & ok & ->). exists 2. split; [done | lia].
  - apply writes_to_inv in H as (data & ok & ->). exists 3.
    split; [| lia]. simpl. unfold schemaPath, resolveProject.
    by rewrite last_resolve.
  - apply runs_inv in H as (cwd & ok & ->). exists 4. split; [done | lia].
Qed.

Lemma never_initializes_outside host lo hi t :
  within lo hi t → (hi < 2 ∨ 4 < lo)%nat → never (initializes host) t.
Proof.
  intros Hw Hout. apply Forall_forall. intros e He.
  destruct (initializes host e) eqn:Hi; [| done].
  destruct (initializes_step host e Hi) as (k & Hk & Hrange).
  pose proof (within_bounds _ _ _ _ _ Hw He Hk). lia.
Qed.

(** With the schema file there, the initialization step only prints its
    advice. *)
Lemma promptInitPrisma_existing opts host s :
  fs_existsSync (st_fs s) (schemaPath host) = true →
  PrismaNuxt.promptInitPrisma opts host s
  = (Return tt, s,
     [Success "Prisma schema file exists.";
      ConsoleLog PrismaNuxt.schemaExistsAdvice]).
Proof.
  intros Hex. unfold PrismaNuxt.promptInitPrisma.
  rewrite bind_existsSync. fold (schemaPath host). by rewrite Hex.
Qed.

(** X6. When the schema file exists as the initialization step starts, a
    run leaves the project files alone in both modes and whatever the flags
    and the answers: it executes no [prisma init], writes nothing to the
    schema file and executes no [prisma format]. *)
Theorem existing_schema_is_left_alone
    (opts : PrismaNuxt.options.t) (host : Host) (s : state) :
  fs_existsSync (st_fs (after (PrismaNuxt.promptCli opts host) s))
    (schemaPath host) = true →
  never (initializes host) (does (PrismaNuxt.setupPrismaORM opts host) s).
Proof.
  intros Hex. unfold does at 1.
  rewrite (setupPrismaORM_run opts host s). cbv zeta.
  change (trace_of (?r, ?st, ?t)) with t.
  constructor; [done |].
  destruct (PrismaNuxt.force_skip_prisma_setup host).
  { by constructor. }
  apply Forall_app. split.
  - destruct (PrismaNuxt.options.skipInstallations opts); [constructor |].
    repeat (apply Forall_app; split).
    + eapply never_initializes_outside;
        [apply (tpost_does _ _ _ (promptCli_step opts host)) | lia].
    + unfold does. rewrite (promptInitPrisma_existing opts host _ Hex).
      by repeat constructor.
    + eapply never_initializes_outside;
        [apply (tpost_does _ _ _ (promptRunMigration_step opts host)) | lia].
    + eapply never_initializes_outside;
        [apply (tpost_does _ _ _ (promptGenerateClient_step opts host)) | lia].
    + eapply never_initializes_outside;
        [apply (tpost_does _ _ _ (writeClientPlugin_step host)) | lia].
  - destruct (PrismaNuxt.studio_allowed host); [| constructor].
    eapply never_initializes_outside;
      [apply (tpost_does _ _ _ (promptInstallStudio_step opts host)) | lia].
Qed.

Lemma existing_schema_is_left_alone_witness :
  let opts := with_flags false true in
  let host := willing_host (Some "dev") in
  fs_existsSync
    (st_fs (after (PrismaNuxt.promptCli opts host) initialized_project))
    (schemaPath host) = true
  ∧ never (initializes host)
      (does (PrismaNuxt.setupPrismaORM opts host) initialized_project).
Proof.
  intros opts host.
  assert (H : fs_existsSync
                (st_fs (after (PrismaNuxt.promptCli opts host)
                          initialized_project))
                (schemaPath host) = true) by by vm_compute.
  split; [exact H |].
  exact (existing_schema_is_left_alone opts host initialized_project H).
Defined.

(** ** The hooks a run registers *)

Section KeepsHooks.
Context {A B : Type}.

Lemma keeps_hooks_bind (m : M A) (k : A → M B) :
  keeps_hooks m → (∀ a, keeps_hooks (k a)) → keeps_hooks (bind m k).
Proof.
  intros Hm Hk. eapply post_bind; [exact Hm | exact Hk |].
  simpl. intros. congruence.
Qed.

Lemma keeps_hooks_ret (a : A) : keeps_hooks (ret a).
Proof. intros s. by exists a, s, []. Qed.

Lemma keeps_hooks_try_catch (m : M A) (h : exn → M A) :
  keeps_hooks m → keeps_hooks (try_catch m h).
Proof.
  intros Hm s. unfold try_catch.
  destruct (Hm s) as (a & s' & t & -> & HQ). by exists a, s', t.
Qed.
End KeepsHooks.

Lemma keeps_hooks_emit e : keeps_hooks (emit e).
Proof. intros s. by exists tt, s, [e]. Qed.

Lemma keeps_hooks_prompts host name message :
  keeps_hooks (prompts host name message).
Proof. intros s. by eexists _, s, _. Qed.

Lemma keeps_hooks_existsSync p : keeps_hooks (existsSync p).
Proof. intros s. by eexists _, s, []. Qed.

Lemma keeps_hooks_after {A} (m : M A) s :
  keeps_hooks m → st_hooks (after m s) = st_hooks s.
Proof.
  intros H. destruct (H s) as (a & s' & t & Heq & Hh).
  unfold after. by rewrite Heq.
Qed.

Ltac keeps_step :=
  lazymatch goal with
  | |- keeps_hooks (bind _ _) => apply keeps_hooks_bind; [| intros ?]
  | |- keeps_hooks (ret _) => apply keeps_hooks_ret
  | |- keeps_hooks (try_catch (bind (PrismaNuxt.detectCli _) _) _) =>
      unfold PrismaNuxt.detectCli; leaf; done
  | |- keeps_hooks (try_catch _ _) => apply keeps_hooks_try_catch
  | |- keeps_hooks (if ?b then _ else _) => destruct b
  | |- keeps_hooks (emit _) => apply keeps_hooks_emit
  | |- keeps_hooks (success _) => apply keeps_hooks_emit
  | |- keeps_hooks (error _) => apply keeps_hooks_emit
  | |- keeps_hooks (console_log _) => apply keeps_hooks_emit
  | |- keeps_hooks (prompts _ _ _) => apply keeps_hooks_prompts
  | |- keeps_hooks (existsSync _) => apply keeps_hooks_existsSync
  | |- keeps_hooks _ => solve [eauto with steps]
  end.

Ltac keeps_auto := repeat keeps_step.

Section CurrentHooks.
Variable opts : PrismaNuxt.options.t.
Variable host : Host.
Import PrismaNuxt.

Lemma installCli_keeps_hooks : keeps_hooks (installCli opts host).
Proof. unfold installCli. leaf; done. Qed.

Lemma initPrisma_keeps_hooks : keeps_hooks (initPrisma opts host).
Proof. unfold initPrisma. leaf; done. Qed.

Lemma writeToSchema_keeps_hooks : keeps_hooks (writeToSchema opts host).
Proof. unfold writeToSchema. leaf; done. Qed.

Lemma formatSchema_keeps_hooks : keeps_hooks (formatSchema opts host).
Proof. unfold formatSchema. leaf; done. Qed.

Lemma runMigration_keeps_hooks : keeps_hooks (runMigration opts host).
Proof. unfold runMigration. leaf; done. Qed.

Lemma generateClient_keeps_hooks : keeps_hooks (generateClient opts host).
Proof. unfold generateClient. leaf; done. Qed.

Lemma writeClientPlugin_keeps_hooks : keeps_hooks (writeClientPlugin host).
Proof. unfold writeClientPlugin. leaf; done. Qed.

Hint Resolve installCli_keeps_hooks initPrisma_keeps_hooks
  writeToSchema_keeps_hooks formatSchema_keeps_hooks
  runMigration_keeps_hooks generateClient_keeps_hooks : steps.

Lemma promptCli_keeps_hooks : keeps_hooks (promptCli opts host).
Proof. unfold promptCli. keeps_auto. Qed.

Lemma promptInitPrisma_keeps_hooks : keeps_hooks (promptInitPrisma opts host).
Proof. unfold promptInitPrisma. keeps_auto. Qed.

Lemma promptRunMigration_keeps_hooks :
  keeps_hooks (promptRunMigration opts host).
Proof. unfold promptRunMigration. keeps_auto. Qed.

Lemma promptGenerateClient_keeps_hooks :
  keeps_hooks (promptGenerateClient opts host).
Proof. unfold promptGenerateClient. keeps_auto. Qed.

(** The viewer step registers its callback exactly when it is approved, and
    never touches the disk. *)
Lemma promptInstallStudio_state s :
  after (promptInstallStudio opts host) s
  = State (st_fs s)
      (st_hooks s
       ++ if approved opts host "installStudio"
          then [("devtools:customTabs", pushStudioTab)] else []).
Proof.
  unfold after, approved, confirmed, promptInstallStudio, installStudio.
  unfold_prims.
  destruct (options.autoSetupPrisma opts);
    destruct (bool_decide (prompts_answer host "installStudio" = Some true));
    crush_run; simpl; rewrite ?app_nil_r; by destruct s.
Qed.
End CurrentHooks.

(** X7. The hooks after a run are the hooks before it, followed by one
    [devtools:customTabs] callback, the one that pushes the viewer's tab,
    exactly when the setup is not skipped altogether, the script is none of
    [dev:prepare], [postinstall] and [test], and the viewer step is approved
    (automatic mode, or its prompt confirmed).  No other step registers or
    removes a hook, and [skipInstallations] and [installStudio] play no
    part. *)
Theorem hooks_registered_by_a_run
    (opts : PrismaNuxt.options.t) (host : Host) (s : state) :
  st_hooks (after (PrismaNuxt.setupPrismaORM opts host) s)
  = st_hooks s
    ++ if negb (PrismaNuxt.force_skip_prisma_setup host)
          && PrismaNuxt.studio_allowed host
          && approved opts host "installStudio"
       then [("devtools:customTabs", PrismaNuxt.pushStudioTab)]
       else [].
Proof.
  unfold after at 1. rewrite (setupPrismaORM_run opts host s). cbv zeta.
  change (state_of (?r, ?st, ?t)) with st.
  destruct (PrismaNuxt.force_skip_prisma_setup host); simpl.
  { by rewrite app_nil_r. }
  assert (Hs' :
    st_hooks
      (if PrismaNuxt.options.skipInstallations opts then s
       else after (PrismaNuxt.writeClientPlugin host)
              (after (PrismaNuxt.promptGenerateClient opts host)
                 (after (PrismaNuxt.promptRunMigration opts host)
                    (after (PrismaNuxt.promptInitPrisma opts host)
                       (after (PrismaNuxt.promptCli opts host) s)))))
    = st_hooks s).
  { destruct (PrismaNuxt.options.skipInstallations opts); [done |].
    rewrite (keeps_hooks_after _ _ (writeClientPlugin_keeps_hooks host)).
    rewrite (keeps_hooks_after _ _ (promptGenerateClient_keeps_hooks _ _)).
    rewrite (keeps_hooks_after _ _ (promptRunMigration_keeps_hooks _ _)).
    rewrite (keeps_hooks_after _ _ (promptInitPrisma_keeps_hooks _ _)).
    by rewrite (keeps_hooks_after _ _ (promptCli_keeps_hooks _ _)). }
  destruct (PrismaNuxt.studio_allowed host); simpl.
  - rewrite promptInstallStudio_state. simpl. by rewrite Hs'.
  - by rewrite Hs', app_nil_r.
Qed.

(** On a host that confirms, a skipped installation still registers the
    panel; on [postinstall] nothing is registered. *)
Example hooks_of_two_runs :
  List.length
    (st_hooks (after (PrismaNuxt.setupPrismaORM (with_flags true false)
                        (willing_host (Some "dev"))) fresh_project)) = 1
  ∧ st_hooks (after (PrismaNuxt.setupPrismaORM (with_flags false true)
                       (willing_host (Some "postinstall"))) fresh_project)
    = [].
Proof. by vm_compute. Qed.

(** X8. The panel is registered whether or not a viewer runs behind it: when
    the viewer step is approved but [installStudio] is off, or no viewer
    comes to run ([spawn] throws, or the child fails afterwards), the step
    starts no viewer and still registers the [devtools:customTabs] callback,
    as its last action. *)
Theorem panel_is_registered_without_a_viewer
    (opts : PrismaNuxt.options.t) (host : Host) (s : state) :
  approved opts host "installStudio" = true →
  PrismaNuxt.options.installStudio opts = false
  ∨ spawn_result host "npx" ["prisma"; "studio"; "--browser"; "none"]
      (resolveProject host []) ≠ ChildRunning →
  let t := does (PrismaNuxt.promptInstallStudio opts host) s in
  never started_viewer t
  ∧ last t = Some (Hook "devtools:customTabs")
  ∧ st_hooks (after (PrismaNuxt.promptInstallStudio opts host) s)
    = st_hooks s ++ [("devtools:customTabs", PrismaNuxt.pushStudioTab)].
Proof.
  intros Happ Hno t. split; [| split].
  - subst t. revert Happ.
    unfold does, approved, confirmed, PrismaNuxt.promptInstallStudio,
      PrismaNuxt.installStudio.
    unfold_prims.
    destruct Hno as [-> | Hno];
      destruct (PrismaNuxt.options.autoSetupPrisma opts);
      destruct (bool_decide
                  (prompts_answer host "installStudio" = Some true));
      crush_run; simpl; intros; try done; by repeat constructor.
  - subst t. revert Happ.
    unfold does, approved, confirmed, PrismaNuxt.promptInstallStudio,
      PrismaNuxt.installStudio.
    unfold_prims.
    destruct (PrismaNuxt.options.autoSetupPrisma opts);
      destruct (bool_decide
                  (prompts_answer host "installStudio" = Some true));
      crush_run; simpl; intros; done.
  - by rewrite promptInstallStudio_state, Happ.
Qed.

Lemma panel_is_registered_without_a_viewer_witness :
  let t := does (PrismaNuxt.promptInstallStudio all_off
                   (willing_host (Some "dev"))) fresh_project in
  approved all_off (willing_host (Some "dev")) "installStudio" = true
  ∧ never started_viewer t
  ∧ last t = Some (Hook "devtools:customTabs")
  ∧ st_hooks (after (PrismaNuxt.promptInstallStudio all_off
                       (willing_host (Some "dev"))) fresh_project)
    = [("devtools:customTabs", PrismaNuxt.pushStudioTab)].
Proof.
  intros t. split; [reflexivity |].
  apply (panel_is_registered_without_a_viewer all_off
           (willing_host (Some "dev")) fresh_project);
    [reflexivity | left; reflexivity].
Defined.

(** ** What the CLI step reports *)

(** X9. Whenever the CLI step takes its install branch (automatic mode, or a
    failed detection followed by a confirmed prompt), its last action is the
    message that the CLI was successfully installed, for every outcome of
    the install command and also when [installCli] is off and nothing was
    installed. *)
Theorem cli_step_always_reports_success
    (opts : PrismaNuxt.options.t) (host : Host) (s : state) :
  PrismaNuxt.options.autoSetupPrisma opts = true
  ∨ (cli_present host s = false
     ∧ prompts_answer host "installPrisma" = Some true) →
  last (does (PrismaNuxt.promptCli opts host) s)
  = Some (Success "Prisma CLI successfully installed.").
Proof.
  unfold does, cli_present.
  unfold PrismaNuxt.promptCli, PrismaNuxt.installCli, PrismaNuxt.detectCli.
  unfold_prims.
  intros [-> | [Habsent Hyes]].
  - by crush_run.
  - rewrite Hyes.
    destruct (PrismaNuxt.options.autoSetupPrisma opts); crush_run;
      simplify_eq/=; try done.
    all: by apply bool_decide_eq_false in Habsent; destruct Habsent; eauto.
Qed.

Lemma cli_step_always_reports_success_witness :
  let t := does (PrismaNuxt.promptCli (with_flags false false) broken_host)
             fresh_project in
  cli_present broken_host fresh_project = false
  ∧ occurs is_thrown t
  ∧ last t = Some (Success "Prisma CLI successfully installed.").
Proof.
  intros t. split; [reflexivity |]. split.
  - apply occurs_existsb. reflexivity.
  - apply (cli_step_always_reports_success (with_flags false false)
             broken_host fresh_project).
    right. split; reflexivity.
Defined.

(** ** Creating the accessor file *)

Lemma dirname_resolve (root : list string) (a b : string) :
  dirname (root ++ [a; b]) = root ++ [a].
Proof.
  unfold dirname. rewrite (removelast_app root); [| done]. done.
Qed.

Lemma dirname_resolve_one (root : list string) (a : string) :
  dirname (root ++ [a]) = root.
Proof.
  unfold dirname. rewrite (removelast_app root); [| done].
  simpl. by rewrite app_nil_r.
Qed.

Lemma lib_not_accessor (cwd : list string) :
  cwd ++ ["lib"; "prisma.ts"] ≠ cwd ++ ["lib"].
Proof. intros H. apply app_inv_head in H. done. Qed.

(** Reducing the tests of a file operation once their answer is known. *)
Ltac fs_step :=
  cbn [negb orb fst snd st_fs dirs denied files]; cbv beta iota;
  cbn [negb orb fst snd st_fs dirs denied files].

(** X10. When the project has no accessor file, the working directory of
    the process exists, [lib] is not a regular file, [lib/prisma.ts] is not
    a directory and neither is denied, the step succeeds: afterwards
    [lib] is a directory, [lib/prisma.ts] under the working directory holds
    exactly the accessor module, every other file is as before, and the
    last action is the success message. *)
Theorem missing_accessor_is_created (host : Host) (s : state) :
  let lib := resolveCwd host ["lib"] in
  let p := resolveCwd host ["lib"; "prisma.ts"] in
  let s' := after (PrismaNuxt.writeClientPlugin host) s in
  fs_existsSync (st_fs s) (accessorPath host) = false →
  processCwd host ∈ dirs (st_fs s) →
  files (st_fs s) !! lib = None →
  p ∉ dirs (st_fs s) →
  lib ∉ denied (st_fs s) →
  p ∉ denied (st_fs s) →
  outcome_of (PrismaNuxt.writeClientPlugin host s) = Return tt
  ∧ files (st_fs s') !! p = Some (lit PrismaNuxt.prismaClient)
  ∧ lib ∈ dirs (st_fs s')
  ∧ (∀ q, q ≠ p → files (st_fs s') !! q = files (st_fs s) !! q)
  ∧ last (does (PrismaNuxt.writeClientPlugin host) s)
    = Some (Success
              "Global instance of Prisma Client successfully created within lib/prisma.ts file.").
Proof.
  intros lib p s' Habsent Hcwd Hlib Hp Hdl Hdp. subst s'.
  assert (Hdir : dirname p = lib) by apply dirname_resolve.
  assert (Hdirlib : dirname lib = processCwd host)
    by apply dirname_resolve_one.
  assert (Hne : p ≠ lib) by apply lib_not_accessor.
  assert (Hfile : ¬ is_Some (files (st_fs s) !! lib))
    by (rewrite Hlib; by intros [? ?]).
  unfold after, does, outcome_of, state_of, trace_of.
  unfold PrismaNuxt.writeClientPlugin. unfold_prims.
  fold (accessorPath host) lib p. rewrite Habsent. fs_step.
  unfold fs_mkdirSync, fs_writeFileSync, fs_existsSync.
  rewrite Hdir, Hdirlib.
  rewrite !(bool_decide_eq_false_2 _ Hfile). fs_step.
  destruct (bool_decide (lib ∈ dirs (st_fs s))) eqn:Hlibdir; fs_step.
  - rewrite (bool_decide_eq_false_2 _ Hdp), (bool_decide_eq_false_2 _ Hp).
    rewrite Hlibdir. fs_step. cbn [app last].
    apply bool_decide_eq_true in Hlibdir.
    repeat split; try done.
    + by rewrite lookup_insert_eq.
    + intros q Hq. by rewrite lookup_insert_ne.
  - rewrite (bool_decide_eq_false_2 _ Hdl), (bool_decide_eq_true_2 _ Hcwd).
    rewrite ?(bool_decide_eq_false_2 _ Hfile), ?Hlibdir. fs_step.
    apply bool_decide_eq_false in Hlibdir.
    rewrite (bool_decide_eq_false_2 _ Hdp).
    assert (Hp' : p ∉ {[lib]} ∪ dirs (st_fs s)).
    { intros [Heq%elem_of_singleton | Hin]%elem_of_union; done. }
    assert (Hlib' : lib ∈ {[lib]} ∪ dirs (st_fs s)).
    { by apply elem_of_union_l, elem_of_singleton. }
    rewrite (bool_decide_eq_false_2 _ Hp'), (bool_decide_eq_true_2 _ Hlib').
    fs_step. cbn [app last].
    repeat split; try done.
    + by rewrite lookup_insert_eq.
    + intros q Hq. by rewrite lookup_insert_ne.
Qed.

Lemma missing_accessor_is_created_witness :
  let host := willing_host (Some "dev") in
  let s' := after (PrismaNuxt.writeClientPlugin host) fresh_project in
  fs_existsSync (st_fs fresh_project) (accessorPath host) = false
  ∧ files (st_fs s') !! ["app"; "lib"; "prisma.ts"]
    = Some (lit PrismaNuxt.prismaClient)
  ∧ ["app"; "lib"] ∈ dirs (st_fs s').
Proof.
  intros host s'.
  assert (Habsent :
    fs_existsSync (st_fs fresh_project) (accessorPath host) = false)
    by reflexivity.
  split; [exact Habsent |].
  destruct (missing_accessor_is_created host fresh_project Habsent)
    as (_ & Hfile & Hdir & _); done.
Defined.

(** ** The check and the write disagree on the directory *)

Lemma accessor_paths_differ (host : Host) :
  processCwd host ≠ rootDir host →
  resolveCwd host ["lib"; "prisma.ts"] ≠ accessorPath host.
Proof.
  unfold resolveCwd, accessorPath, resolveProject. intros Hne Heq.
  by apply app_inv_tail in Heq.
Qed.

Lemma lib_is_not_accessor_path (host : Host) :
  resolveCwd host ["lib"] ≠ accessorPath host.
Proof.
  unfold resolveCwd, accessorPath, resolveProject. intros Heq.
  apply (f_equal last) in Heq. by rewrite last_snoc, last_resolve in Heq.
Qed.

(** X11. The step checks for [lib/prisma.ts] in the project root but writes
    it under the working directory of the process.  When the two
    directories differ and the project root has no accessor file, the step
    does not make its own check pass: the file is still missing from the
    project root afterwards, so the next run does not return at once but
    tries to create the file again. *)
Theorem accessor_check_misses_the_working_directory
    (host : Host) (s : state) :
  processCwd host ≠ rootDir host →
  fs_existsSync (st_fs s) (accessorPath host) = false →
  let s' := after (PrismaNuxt.writeClientPlugin host) s in
  fs_existsSync (st_fs s') (accessorPath host) = false
  ∧ does (PrismaNuxt.writeClientPlugin host) s' ≠ [].
Proof.
  intros Hcwd Habsent s'.
  pose proof (accessor_paths_differ host Hcwd) as Hp.
  pose proof (lib_is_not_accessor_path host) as Hlib.
  assert (Hstill : fs_existsSync (st_fs s') (accessorPath host) = false).
  { subst s'. unfold after, state_of, PrismaNuxt.writeClientPlugin.
    unfold_prims. fold (accessorPath host). rewrite Habsent. fs_step.
    unfold fs_existsSync in Habsent.
    apply orb_false_iff in Habsent as [Hf Hd].
    apply bool_decide_eq_false in Hf, Hd.
    unfold fs_mkdirSync, fs_writeFileSync.
    repeat case_match; simplify_eq/=; unfold fs_existsSync; simpl;
      rewrite ?lookup_insert_ne by done;
      rewrite (bool_decide_eq_false_2 _ Hf);
      apply bool_decide_eq_false_2;
      rewrite ?elem_of_union, ?elem_of_singleton;
      try done; by intros [? | ?]. }
  split; [exact Hstill |].
  unfold does, trace_of, PrismaNuxt.writeClientPlugin. unfold_prims.
  fold (accessorPath host). rewrite Hstill. fs_step.
  crush_run; simpl; done.
Qed.

Lemma accessor_check_misses_the_working_directory_witness :
  let s' := after (PrismaNuxt.writeClientPlugin stray_host) stray_project in
  processCwd stray_host ≠ rootDir stray_host
  ∧ files (st_fs s') !! ["work"; "lib"; "prisma.ts"]
    = Some (lit PrismaNuxt.prismaClient)
  ∧ fs_existsSync (st_fs s') (accessorPath stray_host) = false
  ∧ does (PrismaNuxt.writeClientPlugin stray_host) s' ≠ [].
Proof.
  intros s'.
  assert (Hne : processCwd stray_host ≠ rootDir stray_host) by done.
  split; [exact Hne |]. split; [by vm_compute |].
  exact (accessor_check_misses_the_working_directory stray_host
           stray_project Hne eq_refl).
Defined.

(** ** Running the schema step twice *)

Lemma trimStart_keeps (s : list N) c :
  head s = Some c → isWhiteSpace c = false → trimStart s = s.
Proof. destruct s as [|c' s]; [done |]. simpl. by intros [= ->] ->. Qed.

Lemma trimStart_skips (w s : list N) :
  Forall (λ c, isWhiteSpace c = true) w → trimStart (w ++ s) = trimStart s.
Proof. induction 1 as [|c w Hc _ IH]; [done |]. simpl. by rewrite Hc. Qed.

Lemma trimEnd_keeps (s : list N) c :
  last s = Some c → isWhiteSpace c = false → trimEnd s = s.
Proof.
  intros Hl Hc. unfold trimEnd.
  rewrite (trimStart_keeps (rev s) c); [apply rev_involutive | | done].
  by rewrite <- last_rev_head, rev_involutive.
Qed.

Lemma trimEnd_skips (s w : list N) :
  Forall (λ c, isWhiteSpace c = true) w → trimEnd (s ++ w) = trimEnd s.
Proof.
  intros Hw. unfold trimEnd. rewrite rev_app_distr.
  rewrite trimStart_skips; [done |].
  rewrite Forall_forall in Hw |- *. intros c Hc. apply Hw.
  apply list_elem_of_In. apply list_elem_of_In in Hc. by apply in_rev.
Qed.

(** Appending the fragment to a text that already ends with it gives a text
    that holds the models twice. *)
Lemma fragment_appended_twice (previous : list N) :
  let fragment := lit PrismaNuxt.addModel in
  let models := trim fragment in
  let once := trim previous ++ lit (nl +:+ nl) ++ fragment in
  ∃ a b c,
    trim once ++ lit (nl +:+ nl) ++ fragment
    = a ++ models ++ b ++ models ++ c.
Proof.
  intros fragment models once.
  destruct (trim_spec fragment) as (w1 & w2 & Hfrag & Hw1 & Hw2 & _ & _).
  fold models in Hfrag.
  assert (Hhead : head models = Some 109%N) by by vm_compute.
  assert (Hlast : last models = Some 125%N) by by vm_compute.
  assert (Hsep : Forall (λ c, isWhiteSpace c = true) (lit (nl +:+ nl))).
  { by repeat constructor. }
  destruct (trim_spec previous) as (l & r & _ & _ & _ & Hxh & Hxl).
  set (x := trim previous) in *.
  assert (Honce : trim once
                  = (if x is [] then [] else x ++ lit (nl +:+ nl) ++ w1)
                    ++ models).
  { subst once. rewrite Hfrag. unfold trim at 1.
    destruct x as [|c x'] eqn:Hx.
    - rewrite app_nil_l.
      replace (lit (nl +:+ nl) ++ w1 ++ models ++ w2)
        with ((lit (nl +:+ nl) ++ w1) ++ models ++ w2)
        by by rewrite <- !app_assoc.
      rewrite trimStart_skips by by apply Forall_app.
      rewrite (trimStart_keeps _ 109%N);
        [| by destruct models | done].
      rewrite trimEnd_skips by done.
      by rewrite (trimEnd_keeps _ 125%N).
    - rewrite (trimStart_keeps _ c); [| done | by apply Hxh].
      replace ((c :: x') ++ lit (nl +:+ nl) ++ w1 ++ models ++ w2)
        with ((((c :: x') ++ lit (nl +:+ nl) ++ w1) ++ models) ++ w2)
        by by rewrite <- !app_assoc.
      rewrite trimEnd_skips by done.
      rewrite (trimEnd_keeps _ 125%N); [done | | done].
      rewrite last_app, Hlast. done. }
  rewrite Honce.
  exists (if x is [] then [] else x ++ lit (nl +:+ nl) ++ w1),
    (lit (nl +:+ nl) ++ w1), w2.
  rewrite Hfrag at 1. by rewrite <- !app_assoc.
Qed.

(** A schema step whose write is possible replaces the contents of the
    schema file and changes nothing else. *)
Lemma writeToSchema_succeeds opts host s :
  PrismaNuxt.options.writeToSchema opts = true →
  schemaPath host ∉ denied (st_fs s) →
  schemaPath host ∉ dirs (st_fs s) →
  dirname (schemaPath host) ∈ dirs (st_fs s) →
  after (PrismaNuxt.writeToSchema opts host) s
  = State (Fsys (<[schemaPath host := updatedSchema host s]>
                   (files (st_fs s)))
                (dirs (st_fs s)) (denied (st_fs s)))
      (st_hooks s).
Proof.
  intros Hflag Hden Hdir Hparent.
  unfold after, state_of, updatedSchema, existingSchema.
  unfold PrismaNuxt.writeToSchema. rewrite Hflag.
  fold (schemaPath host). unfold_prims.
  destruct (fs_readFileSync (st_fs s) (schemaPath host)) as [e | data];
    fs_step; unfold fs_writeFileSync;
    rewrite (bool_decide_eq_false_2 _ Hden), (bool_decide_eq_false_2 _ Hdir),
      (bool_decide_eq_true_2 _ Hparent); by fs_step.
Qed.

(** X12. The schema step is not idempotent: when it runs twice and both
    writes are possible, the second run appends the fragment to what the
    first one wrote, so the schema file ends up holding the models of the
    fragment twice. *)
Theorem schema_step_run_twice_duplicates_the_models
    (opts : PrismaNuxt.options.t) (host : Host) (s : state) :
  PrismaNuxt.options.writeToSchema opts = true →
  schemaPath host ∉ denied (st_fs s) →
  schemaPath host ∉ dirs (st_fs s) →
  dirname (schemaPath host) ∈ dirs (st_fs s) →
  let once := after (PrismaNuxt.writeToSchema opts host) s in
  let twice := after (PrismaNuxt.writeToSchema opts host) once in
  let models := trim (lit PrismaNuxt.addModel) in
  files (st_fs twice) !! schemaPath host
  = Some (trim (updatedSchema host s) ++ lit (nl +:+ nl)
          ++ lit PrismaNuxt.addModel)
  ∧ List.length models = 496
  ∧ ∃ a b c,
      files (st_fs twice) !! schemaPath host
      = Some (a ++ models ++ b ++ models ++ c).
Proof.
  intros Hflag Hden Hdir Hparent once twice models.
  assert (Honce : once
    = State (Fsys (<[schemaPath host := updatedSchema host s]>
                     (files (st_fs s)))
                  (dirs (st_fs s)) (denied (st_fs s)))
        (st_hooks s))
    by by apply writeToSchema_succeeds.
  assert (Hread : existingSchema host once = updatedSchema host s).
  { rewrite Honce. unfold existingSchema, fs_readFileSync. simpl.
    by rewrite (bool_decide_eq_false_2 _ Hden), lookup_insert_eq. }
  assert (Htwice :
    files (st_fs twice) !! schemaPath host
    = Some (trim (updatedSchema host s) ++ lit (nl +:+ nl)
            ++ lit PrismaNuxt.addModel)).
  { subst twice. rewrite writeToSchema_succeeds; try done.
    - simpl. rewrite lookup_insert_eq. unfold updatedSchema at 1.
      by rewrite Hread.
    - by rewrite Honce.
    - by rewrite Honce.
    - by rewrite Honce. }
  split; [exact Htwice |]. split; [by vm_compute |].
  destruct (fragment_appended_twice (existingSchema host s))
    as (a & b & c & Heq).
  exists a, b, c. rewrite Htwice. f_equal. exact Heq.
Qed.

Lemma schema_step_run_twice_duplicates_the_models_witness :
  let opts := with_flags false false in
  let host := willing_host (Some "dev") in
  let once := after (PrismaNuxt.writeToSchema opts host) initialized_project in
  let twice := after (PrismaNuxt.writeToSchema opts host) once in
  let models := trim (lit PrismaNuxt.addModel) in
  PrismaNuxt.options.writeToSchema opts = true
  ∧ ∃ a b c,
      files (st_fs twice) !! schemaPath host
      = Some (a ++ models ++ b ++ models ++ c).
Proof.
  intros opts host once twice models. split; [reflexivity |].
  destruct (schema_step_run_twice_duplicates_the_models opts host
              initialized_project) as (_ & _ & H); done.
Defined.

(** ** The module's setup *)

(** X13. [setup] always returns normally, whatever the pipeline's commands
    answer and also when the pipeline is skipped; it performs exactly the
    pipeline's actions; and afterwards the three registrations (the runtime
    plugin, the composables directory, the server directory, all under the
    module's own [runtime] directory) have been made in that order, server
    components are on, and [vite.optimizeDeps] is exactly the one [include]
    entry of the client, whatever [nuxt.options] held before: an earlier
    [componentIslands] object and earlier [optimizeDeps] entries are
    replaced, not merged. *)
Theorem setup_always_registers
    (opts : PrismaNuxt.options.t) (host : Host)
    (defu : prismaRuntimeConfig → prismaRuntimeConfig → prismaRuntimeConfig)
    (moduleDir : list string) (nuxt : nuxtOptions) (s : state) :
  PrismaNuxt.setup opts host defu moduleDir nuxt s
  = (Return tt,
     {| runtimeConfig_public_prisma :=
          Some (defu
                  (default (PrismaRuntimeConfig None None)
                     (runtimeConfig_public_prisma nuxt))
                  (PrismaRuntimeConfig
                     (Some (PrismaNuxt.options.log opts))
                     (Some (PrismaNuxt.options.errorFormat opts))));
        experimental_componentIslands := IslandsBool true;
        vite_optimizeDeps :=
          Some [("include", ["@prisma/nuxt > @prisma/client"])];
        kitCalls :=
          kitCalls nuxt
          ++ [AddPlugin (moduleDir ++ ["runtime"; "plugin"]);
              AddImportsDir (moduleDir ++ ["runtime"; "composables"]);
              AddServerScanDir (moduleDir ++ ["runtime"; "server"])] |},
     after (PrismaNuxt.setupPrismaORM opts host) s,
     does (PrismaNuxt.setupPrismaORM opts host) s).
Proof.
  unfold PrismaNuxt.setup.
  destruct (setupPrismaORM_sound opts host s) as ([] & s' & t & Hrun & _).
  unfold after, does. rewrite Hrun. simpl.
  by rewrite <- app_assoc.
Qed.

(** A failing host, a project configured with an [exclude] list and an
    islands object: the registrations are made and both settings are
    overwritten. *)
Example setup_on_a_broken_host :
  let nuxt :=
    NuxtOptions None (IslandsObject (Some "deep"))
      (Some [("exclude", ["fsevents"])]) [] in
  let result :=
    PrismaNuxt.setup (with_flags false true) broken_host (λ base _, base)
      ["node_modules"; "@prisma"; "nuxt"; "dist"] nuxt fresh_project in
  result.1.1.1 = Return tt
  ∧ vite_optimizeDeps result.1.1.2
    = Some [("include", ["@prisma/nuxt > @prisma/client"])]
  ∧ experimental_componentIslands result.1.1.2 = IslandsBool true
  ∧ List.length (kitCalls result.1.1.2) = 3.
Proof. by vm_compute. Qed.

(** ** When each action runs *)

Lemma never_not_occurs p t : never p t ↔ ¬ occurs p t.
Proof.
  unfold never, occurs. rewrite Forall_forall, Exists_exists. split.
  - intros H (e & He & Hp). specialize (H e He). congruence.
  - intros H e He. destruct (p e) eqn:Hp; [| done]. destruct H. eauto.
Qed.

Lemma occurs_app_iff p t1 t2 :
  occurs p (t1 ++ t2) ↔ occurs p t1 ∨ occurs p t2.
Proof. apply Exists_app. Qed.

Lemma occurs_cons_iff p e t : occurs p (e :: t) ↔ p e = true ∨ occurs p t.
Proof. apply Exists_cons. Qed.

Lemma occurs_nil_iff p : occurs p [] ↔ False.
Proof. apply Exists_nil. Qed.

(** An action of step [k] does not occur in a trace whose steps lie
    elsewhere. *)
Lemma never_outside (p : event → bool) k lo hi t :
  (∀ e, p e = true → step_of e = Some k) →
  within lo hi t → (k < lo ∨ hi < k)%nat → ¬ occurs p t.
Proof.
  intros Hstep Hw Hout. apply never_not_occurs, Forall_forall. intros e He.
  destruct (p e) eqn:Hp; [| done].
  pose proof (within_bounds _ _ _ _ _ Hw He (Hstep e Hp)). lia.
Qed.

Lemma installs_cli_step e : installs_cli e = true → step_of e = Some 1.
Proof. by intros (cwd & ok & ->)%runs_inv. Qed.

Lemma inits_project_step e : inits_project e = true → step_of e = Some 2.
Proof. by intros (cwd & ok & ->)%runs_inv. Qed.

Lemma writes_schema_step host e :
  writes_to (schemaPath host) e = true → step_of e = Some 3.
Proof.
  intros (data & ok & ->)%writes_to_inv. simpl.
  unfold schemaPath, resolveProject. by rewrite last_resolve.
Qed.

Lemma formats_schema_step e : formats_schema e = true → step_of e = Some 4.
Proof. by intros (cwd & ok & ->)%runs_inv. Qed.

Lemma migrates_step e : migrates e = true → step_of e = Some 5.
Proof. by intros (cwd & ok & ->)%runs_inv. Qed.

Lemma installs_client_step e : installs_client e = true → step_of e = Some 6.
Proof. by intros (cwd & ok & ->)%runs_inv. Qed.

Lemma launches_studio_step e : launches_studio e = true → step_of e = Some 8.
Proof. by destruct e. Qed.

Section Decisions.
Variable opts : PrismaNuxt.options.t.
Variable host : Host.
Import PrismaNuxt.

(** A gated function performs its command exactly when its flag is on. *)
Ltac flag_iff :=
  unfold does; unfold_prims;
  match goal with
  | |- context [if ?b then _ else _] => destruct b
  end;
  crush_run; rewrite occurs_existsb; by vm_compute.

Lemma installCli_iff s :
  occurs installs_cli (does (installCli opts host) s)
  ↔ options.installCli opts = true.
Proof. unfold installCli. flag_iff. Qed.

Lemma initPrisma_iff s :
  occurs inits_project (does (initPrisma opts host) s)
  ↔ options.initPrisma opts = true.
Proof. unfold initPrisma. flag_iff. Qed.

Lemma formatSchema_iff s :
  occurs formats_schema (does (formatSchema opts host) s)
  ↔ options.formatSchema opts = true.
Proof. unfold formatSchema. flag_iff. Qed.

Lemma runMigration_iff s :
  occurs migrates (does (runMigration opts host) s)
  ↔ options.runMigration opts = true.
Proof. unfold runMigration. flag_iff. Qed.

Lemma generateClient_iff s :
  occurs installs_client (does (generateClient opts host) s)
  ↔ options.installClient opts = true ∧ options.generateClient opts = true.
Proof.
  rewrite <- andb_true_iff. unfold generateClient. flag_iff.
Qed.

Lemma installStudio_iff s :
  occurs launches_studio (does (installStudio opts host) s)
  ↔ options.installStudio opts = true.
Proof. unfold installStudio. flag_iff. Qed.

Lemma writeToSchema_iff s :
  occurs (writes_to (schemaPath host)) (does (writeToSchema opts host) s)
  ↔ options.writeToSchema opts = true.
Proof.
  split; [| apply writeToSchema_occurs].
  unfold writeToSchema, does. destruct (options.writeToSchema opts); [done |].
  by intros H%occurs_nil_iff.
Qed.

(** Each prompt step performs its command exactly when it is approved and
    the flag is on. *)
Ltac approved_iff :=
  unfold does, approved, confirmed; unfold_prims;
  destruct (options.autoSetupPrisma opts);
  repeat match goal with
  | |- context [bool_decide (prompts_answer ?h ?n = Some true)] =>
      destruct (bool_decide (prompts_answer h n = Some true))
  end;
  repeat match goal with
  | |- context [if ?b then _ else _] => destruct b
  end;
  crush_run; rewrite occurs_existsb; vm_compute; intuition congruence.

Lemma promptRunMigration_iff s :
  occurs migrates (does (promptRunMigration opts host) s)
  ↔ approved opts host "runMigration" = true
    ∧ options.runMigration opts = true.
Proof. unfold promptRunMigration, runMigration. approved_iff. Qed.

Lemma promptGenerateClient_iff s :
  occurs installs_client (does (promptGenerateClient opts host) s)
  ↔ approved opts host "generateClient" = true
    ∧ options.installClient opts = true
    ∧ options.generateClient opts = true.
Proof.
  rewrite <- andb_true_iff.
  unfold promptGenerateClient, generateClient. approved_iff.
Qed.

Lemma promptInstallStudio_iff s :
  occurs launches_studio (does (promptInstallStudio opts host) s)
  ↔ approved opts host "installStudio" = true
    ∧ options.installStudio opts = true.
Proof. unfold promptInstallStudio, installStudio. approved_iff. Qed.

Lemma promptCli_iff s :
  occurs installs_cli (does (promptCli opts host) s)
  ↔ options.installCli opts = true
    ∧ (options.autoSetupPrisma opts = true
       ∨ (cli_present host s = false
          ∧ prompts_answer host "installPrisma" = Some true)).
Proof.
  unfold does, cli_present, promptCli, installCli, detectCli. unfold_prims.
  destruct (options.autoSetupPrisma opts);
    destruct (options.installCli opts);
    crush_run; simplify_eq/=; rewrite occurs_existsb;
    repeat match goal with
    | H : bool_decide _ = true |- _ => apply bool_decide_eq_true in H
    | H : bool_decide _ = false |- _ => apply bool_decide_eq_false in H
    end;
    (split;
     [ intros Hex;
       first [ by vm_compute in Hex
             | split; [done |];
               first [ by left | right; split; [by vm_compute | done] ] ]
     | intros [Hflag [Hauto | [Habsent Hyes]]];
       first [ done | by vm_compute in Habsent | by vm_compute ] ]).
Qed.

(** The initialization step, spelled out. *)
Lemma promptInitPrisma_trace s :
  let s1 := after (initPrisma opts host) s in
  let s2 := after (writeToSchema opts host) s1 in
  does (promptInitPrisma opts host) s
  = if fs_existsSync (st_fs s) (schemaPath host)
    then [Success "Prisma schema file exists.";
          ConsoleLog schemaExistsAdvice]
    else
      ConsoleLog "Prisma schema file does not exist." ::
      (if options.autoSetupPrisma opts then []
       else [Prompts "initPrisma" "Do you want to initialize Prisma ORM?"
               (prompts_answer host "initPrisma")])
      ++ if approved opts host "initPrisma"
         then does (initPrisma opts host) s
              ++ does (writeToSchema opts host) s1
              ++ does (formatSchema opts host) s2
         else [ConsoleLog "Prisma initialization skipped."].
Proof.
  intros s1 s2. unfold does at 1, promptInitPrisma, approved, confirmed.
  rewrite bind_existsSync. fold (schemaPath host).
  destruct (fs_existsSync (st_fs s) (schemaPath host)); [done |].
  cbn [negb]. cbv iota.
  change (trace_of (?m s)) with (does m s).
  rewrite seq_trace by done.
  change (after (console_log _) s) with s.
  change (does (console_log ?m) s) with [ConsoleLog m].
  destruct (options.autoSetupPrisma opts); cbn [orb app].
  - rewrite seq_trace by apply initPrisma_returns.
    by rewrite seq_trace by apply writeToSchema_returns.
  - f_equal. unfold does at 1. rewrite bind_prompts.
    change (trace_of (?r, ?st, ?t)) with t. cbn [app]. f_equal.
    destruct (bool_decide (prompts_answer host "initPrisma" = Some true));
      [| done].
    rewrite seq_trace by apply initPrisma_returns.
    by rewrite seq_trace by apply writeToSchema_returns.
Qed.

Ltac refute_occurs :=
  let H := fresh in intros H%occurs_existsb; by vm_compute in H.

Ltac initialization_iff leaf_iff :=
  rewrite promptInitPrisma_trace; cbv zeta;
  destruct (fs_existsSync (st_fs _) (schemaPath host));
    [split; [refute_occurs | by intros [? _]] |];
  rewrite occurs_cons_iff, occurs_app_iff;
  match goal with
  | |- context [occurs ?p (if options.autoSetupPrisma opts then _ else _)] =>
      assert (¬ occurs p
                (if options.autoSetupPrisma opts then []
                 else [Prompts "initPrisma"
                         "Do you want to initialize Prisma ORM?"
                         (prompts_answer host "initPrisma")]))
        by (destruct (options.autoSetupPrisma opts); refute_occurs);
      assert (¬ occurs p [ConsoleLog "Prisma initialization skipped."])
        by refute_occurs;
      assert (p (ConsoleLog "Prisma schema file does not exist.") ≠ true)
        by done
  end;
  destruct (approved opts host "initPrisma");
    [ rewrite !occurs_app_iff, leaf_iff | intuition congruence ].

Lemma promptInitPrisma_inits_iff s :
  occurs inits_project (does (promptInitPrisma opts host) s)
  ↔ fs_existsSync (st_fs s) (schemaPath host) = false
    ∧ approved opts host "initPrisma" = true
    ∧ options.initPrisma opts = true.
Proof.
  initialization_iff initPrisma_iff.
  pose proof (never_outside _ 2 3 3 _ inits_project_step
                (tpost_does _ _ (after (initPrisma opts host) s)
                   (writeToSchema_step opts host)) ltac:(lia)).
  pose proof (never_outside _ 2 4 4 _ inits_project_step
                (tpost_does _ _
                   (after (writeToSchema opts host)
                      (after (initPrisma opts host) s))
                   (formatSchema_step opts host)) ltac:(lia)).
  intuition congruence.
Qed.

Lemma promptInitPrisma_writes_iff s :
  occurs (writes_to (schemaPath host)) (does (promptInitPrisma opts host) s)
  ↔ fs_existsSync (st_fs s) (schemaPath host) = false
    ∧ approved opts host "initPrisma" = true
    ∧ options.writeToSchema opts = true.
Proof.
  initialization_iff writeToSchema_iff.
  pose proof (never_outside _ 3 2 2 _ (writes_schema_step host)
                (tpost_does _ _ s (initPrisma_step opts host)) ltac:(lia)).
  pose proof (never_outside _ 3 4 4 _ (writes_schema_step host)
                (tpost_does _ _
                   (after (writeToSchema opts host)
                      (after (initPrisma opts host) s))
                   (formatSchema_step opts host)) ltac:(lia)).
  intuition congruence.
Qed.

Lemma promptInitPrisma_formats_iff s :
  occurs formats_schema (does (promptInitPrisma opts host) s)
  ↔ fs_existsSync (st_fs s) (schemaPath host) = false
    ∧ approved opts host "initPrisma" = true
    ∧ options.formatSchema opts = true.
Proof.
  initialization_iff formatSchema_iff.
  pose proof (never_outside _ 4 2 2 _ formats_schema_step
                (tpost_does _ _ s (initPrisma_step opts host)) ltac:(lia)).
  pose proof (never_outside _ 4 3 3 _ formats_schema_step
                (tpost_does _ _ (after (initPrisma opts host) s)
                   (writeToSchema_step opts host)) ltac:(lia)).
  intuition congruence.
Qed.
End Decisions.

(** In a run, an action of step [k] can only occur in the part of the trace
    that belongs to its step. *)
Ltac locate Hstep k Hiff :=
  rewrite ?occurs_cons_iff, ?occurs_app_iff;
  repeat match goal with
  | W : within ?lo ?hi ?t |- _ =>
      first [ pose proof (never_outside _ k lo hi t Hstep W ltac:(lia))
            | idtac ];
      clear W
  end;
  rewrite Hiff; simpl; intuition congruence.

(** X14. The decision table of the pipeline.  In a run that is not skipped
    altogether, each action occurs exactly under these conditions:
    - with [skipInstallations] off, the CLI install when [installCli] is on
      and the step is automatic, or the detection failed and the prompt was
      confirmed; the project initialization, the schema write and the
      schema format when no schema file exists as the initialization step
      starts, the initialization is approved and the action's flag is on;
      the migration when it is approved and [runMigration] is on; the
      client install when it is approved and both client flags are on;
    - the viewer launch when the script is none of [dev:prepare],
      [postinstall] and [test], the viewer is approved and [installStudio]
      is on, with [skipInstallations] on or off.
    "Approved" means automatic mode or a confirmed prompt. *)
Theorem when_each_action_runs
    (opts : PrismaNuxt.options.t) (host : Host) (s : state) :
  PrismaNuxt.force_skip_prisma_setup host = false →
  let t := does (PrismaNuxt.setupPrismaORM opts host) s in
  let s1 := after (PrismaNuxt.promptCli opts host) s in
  (PrismaNuxt.options.skipInstallations opts = false →
   (occurs installs_cli t ↔
    PrismaNuxt.options.installCli opts = true
    ∧ (PrismaNuxt.options.autoSetupPrisma opts = true
       ∨ (cli_present host s = false
          ∧ prompts_answer host "installPrisma" = Some true)))
   ∧ (occurs inits_project t ↔
      fs_existsSync (st_fs s1) (schemaPath host) = false
      ∧ approved opts host "initPrisma" = true
      ∧ PrismaNuxt.options.initPrisma opts = true)
   ∧ (occurs (writes_to (schemaPath host)) t ↔
      fs_existsSync (st_fs s1) (schemaPath host) = false
      ∧ approved opts host "initPrisma" = true
      ∧ PrismaNuxt.options.writeToSchema opts = true)
   ∧ (occurs formats_schema t ↔
      fs_existsSync (st_fs s1) (schemaPath host) = false
      ∧ approved opts host "initPrisma" = true
      ∧ PrismaNuxt.options.formatSchema opts = true)
   ∧ (occurs migrates t ↔
      approved opts host "runMigration" = true
      ∧ PrismaNuxt.options.runMigration opts = true)
   ∧ (occurs installs_client t ↔
      approved opts host "generateClient" = true
      ∧ PrismaNuxt.options.installClient opts = true
      ∧ PrismaNuxt.options.generateClient opts = true))
  ∧ (occurs launches_studio t ↔
     PrismaNuxt.studio_allowed host = true
     ∧ approved opts host "installStudio" = true
     ∧ PrismaNuxt.options.installStudio opts = true).
Proof.
  intros Hforce t s1. subst t. unfold does at 1 2 3 4 5 6 7.
  rewrite (setupPrismaORM_run opts host s). cbv zeta. rewrite Hforce.
  change (trace_of (?r, ?st, ?tr)) with tr. fold s1.
  set (s2 := after (PrismaNuxt.promptInitPrisma opts host) s1).
  set (s3 := after (PrismaNuxt.promptRunMigration opts host) s2).
  set (s4 := after (PrismaNuxt.promptGenerateClient opts host) s3).
  set (s5 := after (PrismaNuxt.writeClientPlugin host) s4).
  pose proof (tpost_does _ _ s (promptCli_step opts host)) as W1.
  pose proof (tpost_does _ _ s1 (promptInitPrisma_step opts host)) as W2.
  pose proof (tpost_does _ _ s2 (promptRunMigration_step opts host)) as W3.
  pose proof (tpost_does _ _ s3 (promptGenerateClient_step opts host)) as W4.
  pose proof (tpost_does _ _ s4 (writeClientPlugin_step host)) as W5.
  assert (W6 : ∀ s0, within 8 8
                 (if PrismaNuxt.studio_allowed host
                  then does (PrismaNuxt.promptInstallStudio opts host) s0
                  else [])).
  { intros s0. destruct (PrismaNuxt.studio_allowed host);
      [apply (tpost_does _ _ s0 (promptInstallStudio_step opts host))
      | apply within_nil]. }
  split.
  - intros Hskip. rewrite Hskip. specialize (W6 s5).
    split; [| split; [| split; [| split; [| split]]]].
    + locate installs_cli_step 1 (promptCli_iff opts host s).
    + locate inits_project_step 2 (promptInitPrisma_inits_iff opts host s1).
    + locate (writes_schema_step host) 3
        (promptInitPrisma_writes_iff opts host s1).
    + locate formats_schema_step 4
        (promptInitPrisma_formats_iff opts host s1).
    + locate migrates_step 5 (promptRunMigration_iff opts host s2).
    + locate installs_client_step 6 (promptGenerateClient_iff opts host s3).
  - set (s' := if PrismaNuxt.options.skipInstallations opts then s else s5).
    rewrite occurs_cons_iff, occurs_app_iff.
    assert (Hbefore :
      ¬ occurs launches_studio
          (if PrismaNuxt.options.skipInstallations opts then []
           else does (PrismaNuxt.promptCli opts host) s
                ++ does (PrismaNuxt.promptInitPrisma opts host) s1
                ++ does (PrismaNuxt.promptRunMigration opts host) s2
                ++ does (PrismaNuxt.promptGenerateClient opts host) s3
                ++ does (PrismaNuxt.writeClientPlugin host) s4)).
    { destruct (PrismaNuxt.options.skipInstallations opts);
        [by intros ?%occurs_nil_iff |].
      rewrite !occurs_app_iff.
      pose proof (never_outside _ 8 _ _ _ launches_studio_step W1
                    ltac:(lia)).
      pose proof (never_outside _ 8 _ _ _ launches_studio_step W2
                    ltac:(lia)).
      pose proof (never_outside _ 8 _ _ _ launches_studio_step W3
                    ltac:(lia)).
      pose proof (never_outside _ 8 _ _ _ launches_studio_step W4
                    ltac:(lia)).
      pose proof (never_outside _ 8 _ _ _ launches_studio_step W5
                    ltac:(lia)).
      tauto. }
    destruct (PrismaNuxt.studio_allowed host).
    + rewrite (promptInstallStudio_iff opts host s'). simpl.
      intuition congruence.
    + rewrite occurs_nil_iff. simpl. intuition congruence.
Qed.

Lemma when_each_action_runs_witness :
  let opts := with_flags false false in
  let host := willing_host (Some "dev") in
  let t := does (PrismaNuxt.setupPrismaORM opts host) fresh_project in
  PrismaNuxt.force_skip_prisma_setup host = false
  ∧ ¬ occurs installs_cli t
  ∧ occurs inits_project t
  ∧ occurs migrates t
  ∧ occurs launches_studio t.
Proof.
  intros opts host t. split; [reflexivity |].
  destruct (when_each_action_runs opts host fresh_project eq_refl)
    as (Hinst & Hstudio).
  destruct (Hinst eq_refl) as (Hcli & Hinit & _ & _ & Hmig & _).
  split; [| split; [| split]].
  - intros H%Hcli. destruct H as (_ & [H | [H _]]); by vm_compute in H.
  - apply Hinit. by vm_compute.
  - apply Hmig. by vm_compute.
  - apply Hstudio. by vm_compute.
Defined.

(** * Further properties of the early module *)

(** X16. The early pipeline runs its steps in the same order, CLI, project
    files, schema fragment, format, client, viewer: along every trace the
    step numbers never decrease. *)
Theorem early_steps_run_in_order
    (opts : NuxtPrisma.options.t) (host : Host) (s : state) :
  StronglySorted le (steps (does (NuxtPrisma.setupPrismaORM opts host) s))
  ∧ Forall (λ k, (1 ≤ k ≤ 8)%nat)
      (steps (does (NuxtPrisma.setupPrismaORM opts host) s)).
Proof.
  destruct (tpost_does _ _ s (setupPrismaORM_step_early opts host))
    as [Hasc Hle].
  apply ascending_from_sorted in Hasc as [Hsorted Hge].
  split; [done |]. apply Forall_forall. intros k Hk.
  rewrite Forall_forall in Hge, Hle. split; eauto.
Qed.

(** A confirmed early run on a working host, step by step. *)
Example early_run :
  steps (does (NuxtPrisma.setupPrismaORM (NuxtPrisma.defaults None)
                 (willing_host None)) fresh_project)
  = [1; 2; 2; 3; 3; 4; 6; 6; 6; 8; 8; 8].
Proof. by vm_compute. Qed.

Lemma early_viewer_panel_source_witness :
  let host := willing_host None in
  let s' :=
    after (NuxtPrisma.promptInstallStudio (NuxtPrisma.defaults None) host)
      fresh_project in
  prompts_answer host "installStudio" = Some true
  ∧ callHook "devtools:customTabs" s' [] = [NuxtPrisma.studioTab]
  ∧ view_src (tab_view NuxtPrisma.studioTab) = "http://localhost:5555/".
Proof.
  intros host s'. split; [reflexivity |].
  destruct (early_viewer_panel_source (NuxtPrisma.defaults None) host
              fresh_project eq_refl) as (Hcall & Hsrc).
  split; [exact (Hcall []) | exact Hsrc].
Defined.


(** * Failures the module does not see *)

Lemma each_followed_app P Q t1 t2 :
  each_followed P Q t1 = true → each_followed P Q t2 = true →
  each_followed P Q (t1 ++ t2) = true.
Proof.
  intros H1 H2. induction t1 as [|e t1 IH]; [done |].
  simpl in *. apply andb_true_iff in H1 as [He H1].
  apply andb_true_iff. split; [| by apply IH].
  destruct (P e); [| done].
  by destruct t1.
Qed.

#[global] Instance child_failures_hailed_monoidal :
  Monoidal (λ t, child_failures_hailed t = true).
Proof. split; [done | apply each_followed_app]. Qed.

(** A success message is no error message: when every thrown failure is
    logged and every later failure of a child is hailed, the failures of the
    trace are all logged exactly when no child failed. *)
Lemma failures_logged_iff t :
  thrown_logged t = true → child_failures_hailed t = true →
  failures_logged t = true ↔ never child_failed t.
Proof.
  unfold failures_logged, child_failures_hailed, never.
  induction t as [|e t IH]; intros Hthrown Hhailed; [by split |].
  simpl in Hthrown, Hhailed.
  apply andb_true_iff in Hthrown as [Hte Hthrown].
  apply andb_true_iff in Hhailed as [Hhe Hhailed].
  specialize (IH Hthrown Hhailed).
  rewrite Forall_cons. simpl. rewrite andb_true_iff, IH.
  unfold is_failure at 1. destruct (child_failed e) eqn:Hchild.
  - rewrite orb_true_r. destruct t as [|e' t]; [done |].
    destruct e'; try done. simpl. by split; intros [? ?].
  - rewrite orb_false_r, Hte. by split; intros [_ ?].
Qed.

Section CurrentChild.
Variable opts : PrismaNuxt.options.t.
Variable host : Host.
Import PrismaNuxt.

Lemma installCli_hailed : tpost (installCli opts host) hailed.
Proof. unfold installCli. leaf; done. Qed.

Lemma initPrisma_hailed : tpost (initPrisma opts host) hailed.
Proof. unfold initPrisma. leaf; done. Qed.

Lemma writeToSchema_hailed : tpost (writeToSchema opts host) hailed.
Proof. unfold writeToSchema. leaf; done. Qed.

Lemma formatSchema_hailed : tpost (formatSchema opts host) hailed.
Proof. unfold formatSchema. leaf; done. Qed.

Lemma runMigration_hailed : tpost (runMigration opts host) hailed.
Proof. unfold runMigration. leaf; done. Qed.

Lemma generateClient_hailed : tpost (generateClient opts host) hailed.
Proof. unfold generateClient. leaf; done. Qed.

Lemma installStudio_hailed : tpost (installStudio opts host) hailed.
Proof. unfold installStudio. leaf; done. Qed.

Lemma writeClientPlugin_hailed : tpost (writeClientPlugin host) hailed.
Proof. unfold writeClientPlugin. leaf; done. Qed.

Hint Resolve installCli_hailed initPrisma_hailed writeToSchema_hailed
  formatSchema_hailed runMigration_hailed generateClient_hailed
  installStudio_hailed writeClientPlugin_hailed : steps.

Lemma promptCli_hailed : tpost (promptCli opts host) hailed.
Proof. unfold promptCli. tpost_auto; done. Qed.

Lemma promptInitPrisma_hailed : tpost (promptInitPrisma opts host) hailed.
Proof. unfold promptInitPrisma. tpost_auto; done. Qed.

Lemma promptRunMigration_hailed : tpost (promptRunMigration opts host) hailed.
Proof. unfold promptRunMigration. tpost_auto; done. Qed.

Lemma promptGenerateClient_hailed :
  tpost (promptGenerateClient opts host) hailed.
Proof. unfold promptGenerateClient. tpost_auto; done. Qed.

Lemma promptInstallStudio_hailed :
  tpost (promptInstallStudio opts host) hailed.
Proof. unfold promptInstallStudio. tpost_auto; done. Qed.

Hint Resolve promptCli_hailed promptInitPrisma_hailed
  promptRunMigration_hailed promptGenerateClient_hailed
  promptInstallStudio_hailed : steps.

Lemma setupPrismaORM_hailed : tpost (setupPrismaORM opts host) hailed.
Proof. unfold setupPrismaORM. tpost_auto; done. Qed.
End CurrentChild.

Section EarlyChild.
Variable opts : NuxtPrisma.options.t.
Variable host : Host.
Import NuxtPrisma.

Lemma detectCli_hailed_early : tpost (detectCli host) hailed.
Proof. unfold detectCli. leaf; done. Qed.

Lemma installCli_hailed_early : tpost (installCli opts host) hailed.
Proof. unfold installCli. leaf; done. Qed.

Lemma initPrisma_hailed_early : tpost (initPrisma opts host) hailed.
Proof. unfold initPrisma. leaf; done. Qed.

Lemma writeToSchema_hailed_early : tpost (writeToSchema opts host) hailed.
Proof. unfold writeToSchema. leaf; done. Qed.

Lemma formatSchema_hailed_early : tpost (formatSchema opts host) hailed.
Proof. unfold formatSchema. leaf; done. Qed.

Lemma generateClient_hailed_early : tpost (generateClient opts host) hailed.
Proof. unfold generateClient. leaf; done. Qed.

Lemma installStudio_hailed_early : tpost (installStudio opts host) hailed.
Proof. unfold installStudio. leaf; done. Qed.

Hint Resolve detectCli_hailed_early installCli_hailed_early
  initPrisma_hailed_early writeToSchema_hailed_early
  formatSchema_hailed_early generateClient_hailed_early
  installStudio_hailed_early : steps.

Lemma promptCli_hailed_early : tpost (promptCli opts host) hailed.
Proof. unfold promptCli. tpost_auto; done. Qed.

Lemma promptInitPrisma_hailed_early :
  tpost (promptInitPrisma opts host) hailed.
Proof. unfold promptInitPrisma. tpost_auto; done. Qed.

Lemma promptGenerateClient_hailed_early :
  tpost (promptGenerateClient opts host) hailed.
Proof. unfold promptGenerateClient. tpost_auto; done. Qed.

Lemma promptInstallStudio_hailed_early :
  tpost (promptInstallStudio opts host) hailed.
Proof. unfold promptInstallStudio. tpost_auto; done. Qed.

Hint Resolve promptCli_hailed_early promptInitPrisma_hailed_early
  promptGenerateClient_hailed_early promptInstallStudio_hailed_early : steps.

Lemma setupPrismaORM_hailed_early : tpost (setupPrismaORM opts host) hailed.
Proof. unfold setupPrismaORM. tpost_auto; done. Qed.
End EarlyChild.

(** X20. Whatever the external commands and file operations answer, every
    step of the pipeline returns normally and so does the pipeline; the trace
    of the pipeline is the whole trace of each step, each run from the state
    the previous one left, so no failure cuts a later step off.  Every call
    that threw (a command rejected by [execa], a [spawn] that threw, a failed
    file operation) is followed at once by a logged error.  A viewer that
    fails after [spawn] has returned is followed at once by the message of
    success instead, so the failures of a run are all logged exactly when no
    such failure occurs in it. *)
Theorem thrown_failures_are_logged_and_never_abort
    (opts : PrismaNuxt.options.t) (host : Host) (s : state) :
  let s1 := after (PrismaNuxt.promptCli opts host) s in
  let s2 := after (PrismaNuxt.promptInitPrisma opts host) s1 in
  let s3 := after (PrismaNuxt.promptRunMigration opts host) s2 in
  let s4 := after (PrismaNuxt.promptGenerateClient opts host) s3 in
  let s5 := after (PrismaNuxt.writeClientPlugin host) s4 in
  let s' := if PrismaNuxt.options.skipInstallations opts then s else s5 in
  let t := does (PrismaNuxt.setupPrismaORM opts host) s in
  (outcome_of (PrismaNuxt.promptCli opts host s) = Return tt
   ∧ outcome_of (PrismaNuxt.promptInitPrisma opts host s1) = Return tt
   ∧ outcome_of (PrismaNuxt.promptRunMigration opts host s2) = Return tt
   ∧ outcome_of (PrismaNuxt.promptGenerateClient opts host s3) = Return tt
   ∧ outcome_of (PrismaNuxt.writeClientPlugin host s4) = Return tt
   ∧ outcome_of (PrismaNuxt.promptInstallStudio opts host s') = Return tt)
  ∧ outcome_of (PrismaNuxt.setupPrismaORM opts host s) = Return tt
  ∧ thrown_logged t = true
  ∧ child_failures_hailed t = true
  ∧ (failures_logged t = true ↔ never child_failed t)
  ∧ t = ConsoleLog "Setting up Prisma ORM.." ::
        if PrismaNuxt.force_skip_prisma_setup host
        then [Error "Skipping Prisma ORM setup."]
        else
          (if PrismaNuxt.options.skipInstallations opts then []
           else does (PrismaNuxt.promptCli opts host) s
                ++ does (PrismaNuxt.promptInitPrisma opts host) s1
                ++ does (PrismaNuxt.promptRunMigration opts host) s2
                ++ does (PrismaNuxt.promptGenerateClient opts host) s3
                ++ does (PrismaNuxt.writeClientPlugin host) s4)
          ++ (if PrismaNuxt.studio_allowed host
              then does (PrismaNuxt.promptInstallStudio opts host) s'
              else []).
Proof.
  intros s1 s2 s3 s4 s5 s' t.
  pose proof (setupPrismaORM_run opts host s) as Hrun. cbv zeta in Hrun.
  fold s1 s2 s3 s4 s5 s' in Hrun.
  assert (Hthrown : thrown_logged t = true).
  { apply (tpost_does _ (sound opts host)), setupPrismaORM_sound. }
  assert (Hhailed : child_failures_hailed t = true).
  { apply (tpost_does _ _ s (setupPrismaORM_hailed opts host)). }
  split; [| split; [| split; [| split; [| split]]]]; try done.
  - auto 10 using promptCli_returns, promptInitPrisma_returns,
      promptRunMigration_returns, promptGenerateClient_returns,
      writeClientPlugin_returns, promptInstallStudio_returns.
  - unfold outcome_of. by rewrite Hrun.
  - by apply failures_logged_iff.
  - subst t. unfold does. by rewrite Hrun.
Qed.

(** C4. The claim fails on the viewer step.  Inside its [try] the step
    awaits the [ChildProcess] that [spawn] returns, which waits for nothing:
    when the viewer command fails after [spawn] has returned, the step
    prints its message of success, and the run holds a failed command and
    not one logged error. *)
Theorem viewer_failure_is_reported_as_success :
  let opts := with_flags false true in
  let host := failing_viewer_host in
  let t := does (PrismaNuxt.setupPrismaORM opts host) fresh_project in
  does (PrismaNuxt.installStudio opts host) fresh_project
  = [Spawn "npx" ["prisma"; "studio"; "--browser"; "none"] ["app"]
       ChildFailed;
     Success PrismaNuxt.studioInstalled]
  ∧ occurs child_failed t
  ∧ never is_error_log t
  ∧ failures_logged t = false.
Proof.
  intros opts host t. split; [reflexivity |]. split; [| split].
  - apply occurs_existsb. by vm_compute.
  - apply never_forallb. by vm_compute.
  - by vm_compute.
Qed.

(** The same run on the early module. *)
Example early_viewer_failure_is_reported_as_success :
  let t := does (NuxtPrisma.setupPrismaORM (NuxtPrisma.defaults None)
                   failing_viewer_host) fresh_project in
  thrown_logged t = true ∧ failures_logged t = false.
Proof. by vm_compute. Qed.

(** C3. The claim fails when the process runs outside the project root.
    The step looks for [lib/prisma.ts] under the project root and writes
    [lib/prisma.ts] under the working directory: a file that exists there,
    edited by hand, is replaced by the accessor module, by the step alone
    and by a whole run. *)
Theorem existing_accessor_is_overwritten :
  let host := stray_host in
  let p := resolveCwd host ["lib"; "prisma.ts"] in
  let s' := after (PrismaNuxt.writeClientPlugin host) edited_stray_project in
  let s'' :=
    after (PrismaNuxt.setupPrismaORM (with_flags false true) host)
      edited_stray_project in
  files (st_fs edited_stray_project) !! p = Some (lit "// my edits")
  ∧ does (PrismaNuxt.writeClientPlugin host) edited_stray_project
    = [WriteFileSync p (lit PrismaNuxt.prismaClient) true;
       Success
         "Global instance of Prisma Client successfully created within lib/prisma.ts file."]
  ∧ files (st_fs s') !! p = Some (lit PrismaNuxt.prismaClient)
  ∧ files (st_fs s'') !! p = Some (lit PrismaNuxt.prismaClient)
  ∧ lit PrismaNuxt.prismaClient ≠ lit "// my edits".
Proof. vm_compute. by repeat split. Qed.

(** C1, as the code has it.  With [skipInstallations] set, the only external
    command a run can execute is the launch of the viewer: no CLI detection,
    install, init, format, migration or client generation runs, and no file
    or directory is written.  The launch occurs exactly when the setup is
    not skipped altogether, the script is none of [dev:prepare],
    [postinstall] and [test], the viewer step is approved (automatic mode or
    a confirmed prompt) and [installStudio] is on. *)
Theorem skip_installations_leaves_only_the_viewer
    (opts : PrismaNuxt.options.t) (host : Host) (s : state) :
  PrismaNuxt.options.skipInstallations opts = true →
  let t := does (PrismaNuxt.setupPrismaORM opts host) s in
  Forall viewer_only t
  ∧ (occurs launches_studio t ↔
     PrismaNuxt.force_skip_prisma_setup host = false
     ∧ PrismaNuxt.studio_allowed host = true
     ∧ approved opts host "installStudio" = true
     ∧ PrismaNuxt.options.installStudio opts = true).
Proof.
  intros Hskip t. split; [by apply skipped_run_is_viewer_only |].
  subst t. unfold does at 1.
  rewrite (setupPrismaORM_run opts host s). cbv zeta. rewrite Hskip.
  change (trace_of (?r, ?st, ?tr)) with tr.
  rewrite occurs_cons_iff.
  destruct (PrismaNuxt.force_skip_prisma_setup host).
  - rewrite occurs_cons_iff, occurs_nil_iff. simpl. intuition congruence.
  - rewrite app_nil_l. destruct (PrismaNuxt.studio_allowed host).
    + rewrite (promptInstallStudio_iff opts host s). simpl.
      intuition congruence.
    + rewrite occurs_nil_iff. simpl. intuition congruence.
Qed.

Lemma skip_installations_leaves_only_the_viewer_witness :
  let opts := with_flags true false in
  let host := willing_host (Some "dev") in
  let t := does (PrismaNuxt.setupPrismaORM opts host) fresh_project in
  PrismaNuxt.options.skipInstallations opts = true
  ∧ Forall viewer_only t
  ∧ occurs launches_studio t.
Proof.
  intros opts host t. split; [reflexivity |].
  destruct (skip_installations_leaves_only_the_viewer opts host fresh_project
              eq_refl) as [Honly Hlaunch].
  split; [exact Honly |]. apply Hlaunch. by vm_compute.
Defined.

(** A run that is skipped altogether launches no viewer, whatever the
    options say. *)
Example skipped_setup_launches_no_viewer :
  let host :=
    {| rootDir := ["app"]; processCwd := ["app"];
       npm_lifecycle_event := Some "dev";
       SKIP_PRISMA_SETUP := Some "1";
       execa_result := tools_work;
       spawn_result := λ _ _ _, ChildRunning;
       prompts_answer := λ _, Some true |} in
  does (PrismaNuxt.setupPrismaORM (with_flags true true) host) fresh_project
  = [ConsoleLog "Setting up Prisma ORM..";
     Error "Skipping Prisma ORM setup."].
Proof. reflexivity. Qed.

(** X15. The early pipeline also runs to its end whatever fails: it returns
    normally for every configuration, host and state, and every call that
    threw is followed at once by a logged error.  As in the current module,
    a viewer that fails after [spawn] has returned is followed by the
    message of success, so the failures of a run are all logged exactly when
    no such failure occurs in it. *)
Theorem early_pipeline_always_completes
    (opts : NuxtPrisma.options.t) (host : Host) (s : state) :
  let t := does (NuxtPrisma.setupPrismaORM opts host) s in
  outcome_of (NuxtPrisma.setupPrismaORM opts host s) = Return tt
  ∧ thrown_logged t = true
  ∧ child_failures_hailed t = true
  ∧ (failures_logged t = true ↔ never child_failed t).
Proof.
  intros t.
  assert (Hthrown : thrown_logged t = true).
  { apply (tpost_does _ _ s (setupPrismaORM_logged_early opts host)). }
  assert (Hhailed : child_failures_hailed t = true).
  { apply (tpost_does _ _ s (setupPrismaORM_hailed_early opts host)). }
  split; [| split; [| split]]; try done.
  - eapply tpost_returns, setupPrismaORM_logged_early.
  - by apply failures_logged_iff.
Qed.
